(** * BigAko: a shallow embedding of the chat server in [main.py]

    The development follows the source file top-down:

    - the Python [bytes] / [str] primitives the handlers rely on
      ([in], [find], [split], [rsplit], slicing, [strip], UTF-8 decoding)
      and the SHA-256 digest of [hashlib];
    - the two SQLite tables ([users], [messages]) and the methods of
      [BigAkoServer] that touch them;
    - the request handlers of [BigAkoHandler], as state-passing functions
      returning the response that is written and the new server state;
    - the properties of the credential store, the session registry, the
      message store, the in-memory mirror and the multipart decoder.

    Conventions.  A Python [bytes] object is a [list ascii].  A Python [str]
    is represented by its UTF-8 encoding, again a [list ascii]: [encode()]
    is then the identity and [decode()] is a validity check.  Values drawn
    from the environment (random salts, tokens, uuids, clock readings) are
    passed in explicitly.  The methods take the digest and
    [urllib.parse.parse_qs] as parameters; what is proved of them holds
    of every digest, [Hashlib.sha256_hexdigest] among them.  Requests are
    handled one at a time; the database and the uploads directory of the
    server are taken to be in working order, so a statement or a write
    fails only for the reasons written out below (a duplicate username, a
    file name the directory cannot hold). *)

From Stdlib Require Import ZArith Ascii String List Permutation Sorted Lia.
From stdpp Require Import base option list gmap strings.

Set Default Proof Using "Type".
Local Open Scope Z_scope.

Abbreviation bytes := (list ascii) (only parsing).
Abbreviation str := (list ascii) (only parsing).

(** Literals: [B "abc"] is [b'abc'] (and the [str] ['abc']). *)
Definition B (s : string) : bytes := list_ascii_of_string s.

Definition dquote : ascii := "034"%char.
Definition CR : ascii := "013"%char.
Definition LF : ascii := "010"%char.
Definition CRLF : bytes := [CR; LF].

(** ** Python sequence primitives *)

Module Py.

(** [s.startswith(p)] *)
Fixpoint startswith (p s : bytes) : bool :=
  match p, s with
  | [], _ => true
  | _ :: _, [] => false
  | a :: p', c :: s' => if Ascii.eqb a c then startswith p' s' else false
  end.

(** [s.find(sub)], as an optional offset: the lowest index at which [sub]
    occurs. *)
Fixpoint index (sub s : bytes) : option nat :=
  if startswith sub s then Some 0%nat
  else match s with
       | [] => None
       | _ :: s' => S <$> index sub s'
       end.

(** [s.find(sub)] with Python's [-1] for a miss. *)
Definition find (sub s : bytes) : Z :=
  match index sub s with
  | Some i => Z.of_nat i
  | None => -1
  end.

(** [len(s)] *)
Definition len (s : bytes) : Z := Z.of_nat (length s).

(** Normalisation of a slice bound: negative bounds count from the end,
    and the result is clamped to [0, len]. *)
Definition clamp (n : Z) (i : Z) : Z :=
  let i := if i <? 0 then i + n else i in
  Z.max 0 (Z.min n i).

(** [s[i:j]] *)
Definition slice (s : bytes) (i j : Z) : bytes :=
  let a := clamp (len s) i in
  let b := clamp (len s) j in
  take (Z.to_nat (b - a)) (drop (Z.to_nat a) s).

(** [s.find(sub, start)] *)
Definition find_from (sub s : bytes) (start : Z) : Z :=
  let a := if start <? 0 then Z.max 0 (start + len s) else start in
  if len s <? a then -1
  else match index sub (drop (Z.to_nat a) s) with
       | Some i => a + Z.of_nat i
       | None => -1
       end.

(** [sub in s] *)
Definition contains (sub s : bytes) : bool :=
  match index sub s with Some _ => true | None => false end.

(** [s.split(sep)] for a non-empty separator: scan left to right, cut at
    each occurrence and resume after it.  [skip] counts the bytes of a
    matched separator still to be passed over, [acc] holds the current
    piece in reverse.  (Python raises [ValueError] on an empty separator;
    every separator used by the server is non-empty.) *)
Fixpoint split_go (sep : bytes) (skip : nat) (acc : bytes) (s : bytes)
  : list bytes :=
  match s with
  | [] => [rev acc]
  | c :: s' =>
      match skip with
      | S k => split_go sep k acc s'
      | O =>
          if startswith sep s
          then rev acc :: split_go sep (length sep - 1) [] s'
          else split_go sep 0 (c :: acc) s'
      end
  end.

Definition split (sep s : bytes) : list bytes := split_go sep 0 [] s.

(** [s.split(sep, 1)]: one or two pieces. *)
Definition split1 (sep s : bytes) : list bytes :=
  match index sep s with
  | Some i => [take i s; drop (i + length sep) s]
  | None => [s]
  end.

(** [s.rfind(sub)] as an optional offset: the highest index at which
    [sub] occurs, found by searching the mirrored pattern in the mirrored
    text. *)
Definition rindex (sub s : bytes) : option nat :=
  match index (rev sub) (rev s) with
  | Some i => Some (length s - i - length sub)%nat
  | None => None
  end.

(** [s.rsplit(sep, 1)[0]]: everything before the last occurrence of
    [sep], or all of [s] when there is none. *)
Definition rsplit1_head (sep s : bytes) : bytes :=
  match rindex sep s with
  | Some i => take i s
  | None => s
  end.

(** The code points Python's [str.strip()] removes, in UTF-8:
    U+0009..U+000D, U+001C..U+0020, U+0085, U+00A0, U+1680,
    U+2000..U+200A, U+2028, U+2029, U+202F, U+205F, U+3000. *)
Definition byte (n : nat) : ascii := ascii_of_nat n.

Definition whitespace : list bytes :=
  map (fun n => [byte n]) [9; 10; 11; 12; 13; 28; 29; 30; 31; 32]%nat
  ++ [[byte 194; byte 133]; [byte 194; byte 160];
      [byte 225; byte 154; byte 128]]
  ++ map (fun n => [byte 226; byte 128; byte n])
       [128; 129; 130; 131; 132; 133; 134; 135; 136; 137; 138;
        168; 169; 175]%nat
  ++ [[byte 226; byte 129; byte 159]; [byte 227; byte 128; byte 128]].

(** Length of the whitespace code point [s] starts with, if any. *)
Definition leading_space (s : bytes) : option nat :=
  length <$> List.find (fun w => startswith w s) whitespace.

Fixpoint lstrip_go (skip : nat) (s : bytes) : bytes :=
  match s with
  | [] => []
  | _ :: s' =>
      match skip with
      | S k => lstrip_go k s'
      | O =>
          match leading_space s with
          | Some n => lstrip_go (n - 1) s'
          | None => s
          end
      end
  end.

Definition lstrip (s : bytes) : bytes := lstrip_go 0 s.

(** Trailing whitespace is found on the mirrored text with the mirrored
    encodings. *)
Definition trailing_space (r : bytes) : option nat :=
  length <$> List.find (fun w => startswith (rev w) r) whitespace.

Fixpoint rstrip_go (skip : nat) (r : bytes) : bytes :=
  match r with
  | [] => []
  | _ :: r' =>
      match skip with
      | S k => rstrip_go k r'
      | O =>
          match trailing_space r with
          | Some n => rstrip_go (n - 1) r'
          | None => r
          end
      end
  end.

Definition rstrip (s : bytes) : bytes := rev (rstrip_go 0 (rev s)).

(** [s.strip()] *)
Definition strip (s : bytes) : bytes := rstrip (lstrip s).

(** *** UTF-8 *)

Definition in_range (lo hi : nat) (c : ascii) : bool :=
  let n := nat_of_ascii c in (lo <=? n)%nat && (n <=? hi)%nat.

Definition cont (c : ascii) : bool := in_range 128 191 c.

(** Well-formed UTF-8 as accepted by Python's strict decoder: shortest
    forms only, no surrogates, nothing above U+10FFFF. *)
Fixpoint utf8_valid (s : bytes) : bool :=
  match s with
  | [] => true
  | c1 :: s1 =>
      if in_range 0 127 c1 then utf8_valid s1
      else
        match s1 with
        | [] => false
        | c2 :: s2 =>
            if in_range 194 223 c1 then cont c2 && utf8_valid s2
            else
              match s2 with
              | [] => false
              | c3 :: s3 =>
                  if in_range 224 239 c1 then
                    (if in_range 224 224 c1 then in_range 160 191 c2
                     else if in_range 237 237 c1 then in_range 128 159 c2
                     else cont c2)
                    && cont c3 && utf8_valid s3
                  else
                    match s3 with
                    | [] => false
                    | c4 :: s4 =>
                        in_range 240 244 c1
                        && (if in_range 240 240 c1 then in_range 144 191 c2
                            else if in_range 244 244 c1
                                 then in_range 128 143 c2
                                 else cont c2)
                        && cont c3 && cont c4 && utf8_valid s4
                    end
              end
        end
  end.

(** [b.decode()]: [None] stands for [UnicodeDecodeError]. *)
Definition decode (b : bytes) : option str :=
  if utf8_valid b then Some b else None.

(** [s.encode()] *)
Definition encode (s : str) : bytes := s.

(** Whether [s.encode('latin-1', 'strict')] succeeds: no code point above
    U+00FF, that is, no byte from 196 on in the UTF-8 form. *)
Definition latin1 (s : str) : bool := forallb (in_range 0 195) s.

(** Truthiness of a sequence. *)
Definition truthy (s : bytes) : bool :=
  match s with [] => false | _ :: _ => true end.

End Py.

(** ** hashlib

    SHA-256 as [hashlib.sha256] computes it, on bytes. *)

Module Hashlib.

(** Words of 32 bits, as integers in [0, 2^32). *)
Definition wrap (x : Z) : Z := x mod 2 ^ 32.

Definition rotr (n x : Z) : Z :=
  wrap (Z.lor (Z.shiftr x n) (Z.shiftl x (32 - n))).

Definition Ch (x y z : Z) : Z :=
  Z.lxor (Z.land x y) (Z.land (Z.lxor x (2 ^ 32 - 1)) z).

Definition Maj (x y z : Z) : Z :=
  Z.lxor (Z.lxor (Z.land x y) (Z.land x z)) (Z.land y z).

Definition Sigma0 (x : Z) : Z :=
  Z.lxor (Z.lxor (rotr 2 x) (rotr 13 x)) (rotr 22 x).

Definition Sigma1 (x : Z) : Z :=
  Z.lxor (Z.lxor (rotr 6 x) (rotr 11 x)) (rotr 25 x).

Definition sigma0 (x : Z) : Z :=
  Z.lxor (Z.lxor (rotr 7 x) (rotr 18 x)) (Z.shiftr x 3).

Definition sigma1 (x : Z) : Z :=
  Z.lxor (Z.lxor (rotr 17 x) (rotr 19 x)) (Z.shiftr x 10).

Definition K : list Z :=
  [1116352408; 1899447441; 3049323471; 3921009573; 961987163; 1508970993;
   2453635748; 2870763221; 3624381080; 310598401; 607225278; 1426881987;
   1925078388; 2162078206; 2614888103; 3248222580; 3835390401; 4022224774;
   264347078; 604807628; 770255983; 1249150122; 1555081692; 1996064986;
   2554220882; 2821834349; 2952996808; 3210313671; 3336571891; 3584528711;
   113926993; 338241895; 666307205; 773529912; 1294757372; 1396182291;
   1695183700; 1986661051; 2177026350; 2456956037; 2730485921; 2820302411;
   3259730800; 3345764771; 3516065817; 3600352804; 4094571909; 275423344;
   430227734; 506948616; 659060556; 883997877; 958139571; 1322822218;
   1537002063; 1747873779; 1955562222; 2024104815; 2227730452; 2361852424;
   2428436474; 2756734187; 3204031479; 3329325298].

(** The eight working variables. *)
Definition state : Type := Z * Z * Z * Z * Z * Z * Z * Z.

Definition initial : state :=
  (1779033703, 3144134277, 1013904242, 2773480762,
   1359893119, 2600822924, 528734635, 1541459225).

Definition byte_value (c : ascii) : Z := Z.of_N (N_of_ascii c).
Definition byte_of (n : Z) : ascii := ascii_of_N (Z.to_N (n mod 256)).

(** The message, a one bit, zero bits up to 56 modulo 64 bytes, and the
    length in bits on eight bytes. *)
Definition big_endian (width : nat) (n : Z) : list ascii :=
  map (fun i => byte_of (Z.shiftr n (8 * Z.of_nat i))) (rev (seq 0 width)).

Definition pad (msg : list ascii) : list ascii :=
  let l := Z.of_nat (length msg) in
  msg ++ [byte_of 128] ++ replicate (Z.to_nat ((55 - l) mod 64)) (byte_of 0)
      ++ big_endian 8 (8 * l).

(** The bytes of a block as sixteen words, most significant byte first. *)
Fixpoint words_of (b : list ascii) : list Z :=
  match b with
  | c1 :: c2 :: c3 :: c4 :: b' =>
      (byte_value c1 * 2 ^ 24 + byte_value c2 * 2 ^ 16
       + byte_value c3 * 2 ^ 8 + byte_value c4) :: words_of b'
  | _ => []
  end.

(** The message schedule, latest word first: [n] more words behind the
    sixteen of the block. *)
Fixpoint schedule (n : nat) (w : list Z) : list Z :=
  match n with
  | O => w
  | S n' =>
      let at_ i := nth i w 0 in
      schedule n'
        (wrap (sigma1 (at_ 1%nat) + at_ 6%nat + sigma0 (at_ 14%nat)
               + at_ 15%nat) :: w)
  end.

Definition round (s : state) (kw : Z * Z) : state :=
  let '(a, b, c, d, e, f, g, h) := s in
  let t1 := wrap (h + Sigma1 e + Ch e f g + kw.1 + kw.2) in
  let t2 := wrap (Sigma0 a + Maj a b c) in
  (wrap (t1 + t2), a, b, c, wrap (d + t1), e, f, g).

Definition add_state (s t : state) : state :=
  let '(a, b, c, d, e, f, g, h) := s in
  let '(a', b', c', d', e', f', g', h') := t in
  (wrap (a + a'), wrap (b + b'), wrap (c + c'), wrap (d + d'),
   wrap (e + e'), wrap (f + f'), wrap (g + g'), wrap (h + h')).

Definition compress (s : state) (block : list ascii) : state :=
  let w := rev (schedule 48 (rev (words_of block))) in
  add_state s (fold_left round (combine K w) s).

Fixpoint blocks (n : nat) (s : state) (m : list ascii) : state :=
  match n with
  | O => s
  | S n' =>
      match m with
      | [] => s
      | _ => blocks n' (compress s (take 64 m)) (drop 64 m)
      end
  end.

Definition sha256 (msg : list ascii) : state :=
  let m := pad msg in blocks (length m) initial m.

Definition hex_chars : list ascii :=
  list_ascii_of_string "0123456789abcdef".

Definition hex_digit (n : Z) : ascii :=
  nth (Z.to_nat (Z.land n 15)) hex_chars "0"%char.

Definition hex8 (w : Z) : list ascii :=
  map (fun i => hex_digit (Z.shiftr w (4 * i))) [7; 6; 5; 4; 3; 2; 1; 0].

(** [hashlib.sha256(msg).hexdigest()] *)
Definition sha256_hexdigest (msg : list ascii) : list ascii :=
  let '(a, b, c, d, e, f, g, h) := sha256 msg in
  hex8 a ++ hex8 b ++ hex8 c ++ hex8 d ++ hex8 e ++ hex8 f ++ hex8 g
    ++ hex8 h.

End Hashlib.

(** ** Data model *)

(** A row of the [users] table. *)
Record user_row := {
  user_id : Z;
  user_username : str;
  user_password_hash : str;
  user_salt : str;
  user_created_at : str
}.

(** A row of the [messages] table. *)
Record message_row := {
  msg_id : Z;
  msg_username : str;
  msg_message : str;
  msg_message_type : str;
  msg_file_name : option str;
  msg_file_size : option Z;
  msg_timestamp : str
}.

(** The dictionaries kept in [message_history] and returned by
    [get_recent_messages]: a message without its identifier. *)
Record message := {
  username : str;
  message_body : str;
  message_type : str;
  file_name : option str;
  file_size : option Z;
  timestamp : str
}.

(** The state the server works on: the two tables of [users.db], each
    with the counter SQLite keeps for its [AUTOINCREMENT] key, the
    in-memory mirror, the session registry and the [uploads] directory. *)
Record server := {
  users : list user_row;
  users_seq : Z;
  messages : list message_row;
  messages_seq : Z;
  message_history : list message;
  session_tokens : gmap (list ascii) (list ascii);
  uploads : gmap (list ascii) (list ascii)
}.

Definition set_users (st : server) (us : list user_row) (n : Z) : server :=
  {| users := us; users_seq := n;
     messages := messages st; messages_seq := messages_seq st;
     message_history := message_history st;
     session_tokens := session_tokens st; uploads := uploads st |}.

Definition set_messages (st : server) (ms : list message_row) (n : Z)
  : server :=
  {| users := users st; users_seq := users_seq st;
     messages := ms; messages_seq := n;
     message_history := message_history st;
     session_tokens := session_tokens st; uploads := uploads st |}.

Definition set_message_history (st : server) (h : list message) : server :=
  {| users := users st; users_seq := users_seq st;
     messages := messages st; messages_seq := messages_seq st;
     message_history := h;
     session_tokens := session_tokens st; uploads := uploads st |}.

Definition set_session_tokens (st : server)
    (t : gmap (list ascii) (list ascii)) : server :=
  {| users := users st; users_seq := users_seq st;
     messages := messages st; messages_seq := messages_seq st;
     message_history := message_history st;
     session_tokens := t; uploads := uploads st |}.

Definition set_uploads (st : server)
    (u : gmap (list ascii) (list ascii)) : server :=
  {| users := users st; users_seq := users_seq st;
     messages := messages st; messages_seq := messages_seq st;
     message_history := message_history st;
     session_tokens := session_tokens st; uploads := u |}.

(** What a request draws from its environment. *)
Record entropy := {
  env_salt : str;       (* secrets.token_hex(16) *)
  env_token : str;      (* secrets.token_hex(32) *)
  env_file_id : str;    (* str(uuid.uuid4()) *)
  env_db_now : str;     (* CURRENT_TIMESTAMP of the database *)
  env_now : str         (* datetime.now().isoformat() *)
}.

(** An incoming request: the path, the headers the handlers read and the
    body stream.  [content_length] is [None] when the header is not an
    integer ([int()] raises) and [Some 0] when it is missing. *)
Record request := {
  path : str;
  cookie : str;
  content_type : str;
  content_length : option Z;
  rfile : bytes
}.

Inductive page := index_page | login_page | register_page | messenger_page.

Inductive json :=
| J_success                         (* {'success': True} *)
| J_failure (error : str)           (* {'success': False, 'error': ...} *)
| J_messages (ms : list message)    (* {'messages': [...]} *)
| J_username (u : option str).      (* {'username': ...} *)

(** What a handler writes back. *)
Inductive response :=
| send_error (code : Z)
| serve_json (data : json)                 (* status 200 *)
| serve_html (p : page)
| serve_css
| serve_js
| redirect (location : str)
| login_ok (token : str)                   (* 200, Set-Cookie: session=token *)
| logout_ok                                (* 200, Set-Cookie: session= *)
| download_ok (name : str) (data : bytes)
| late_error (status code : Z)             (* send_error(code) once the
                                              status line of [status] is
                                              buffered: the reply opens
                                              with [status] *)
| no_response.                             (* nothing is written *)

(** ** SQLite *)

(** The key an [INTEGER PRIMARY KEY AUTOINCREMENT] column gives the next
    row: one more than the largest key the table has ever held. *)
Definition next_rowid (ids : list Z) (seq : Z) : Z :=
  Z.max seq (foldr Z.max 0 ids) + 1.

(** [ORDER BY id DESC], by insertion. *)
Fixpoint insert_desc (r : message_row) (l : list message_row)
  : list message_row :=
  match l with
  | [] => [r]
  | x :: l' => if msg_id x <? msg_id r then r :: l else x :: insert_desc r l'
  end.

Definition order_by_id_desc (rows : list message_row) : list message_row :=
  foldr insert_desc [] rows.

(** [LIMIT n]: a negative bound means no bound. *)
Definition sql_limit {A} (n : Z) (rows : list A) : list A :=
  if n <? 0 then rows else take (Z.to_nat n) rows.

(** The integers [sqlite3] binds to a [?] of a query: 64 bits, signed.  A
    Python [int] outside this range raises [OverflowError]. *)
Definition sqlite_integer (n : Z) : Prop := - 2 ^ 63 <= n < 2 ^ 63.

(** ** BigAkoServer *)

Section BigAko.

(** [hashlib.sha256(b).hexdigest()] *)
Variable sha256_hexdigest : bytes -> str.

(** [urllib.parse.parse_qs] *)
Variable parse_qs : str -> gmap (list ascii) (list (list ascii)).

Definition hash_password (password salt : str) : str :=
  sha256_hexdigest (Py.encode (password ++ salt)).

(** [register_user]: the insert violates the [UNIQUE] constraint when a
    row with this username exists; the method then returns [False] and
    the table is as before. *)
Definition register_user (st : server) (e : entropy) (username password : str)
  : bool * server :=
  let salt := env_salt e in
  let password_hash := hash_password password salt in
  if existsb (fun r => bool_decide (user_username r = username)) (users st)
  then (false, st)
  else
    let id := next_rowid (user_id <$> users st) (users_seq st) in
    (true,
     set_users st
       (users st ++ [{| user_id := id; user_username := username;
                        user_password_hash := password_hash;
                        user_salt := salt;
                        user_created_at := env_db_now e |}])
       id).

(** [verify_user] *)
Definition verify_user (st : server) (username password : str) : bool :=
  match List.find (fun r => bool_decide (user_username r = username))
          (users st) with
  | Some result =>
      let stored_hash := user_password_hash result in
      let salt := user_salt result in
      bool_decide (hash_password password salt = stored_hash)
  | None => false
  end.

(** [add_message]: the durable insert, then the mirror update. *)
Definition add_message (st : server) (e : entropy)
    (username message message_type : str)
    (file_name : option str) (file_size : option Z) : server :=
  let id := next_rowid (msg_id <$> messages st) (messages_seq st) in
  let st :=
    set_messages st
      (messages st ++ [{| msg_id := id; msg_username := username;
                          msg_message := message;
                          msg_message_type := message_type;
                          msg_file_name := file_name;
                          msg_file_size := file_size;
                          msg_timestamp := env_db_now e |}])
      id in
  let history :=
    message_history st ++ [{| username := username;
                              message_body := message;
                              message_type := message_type;
                              file_name := file_name;
                              file_size := file_size;
                              timestamp := env_now e |}] in
  let history :=
    if (100 <? Z.of_nat (length history))
    then drop (length history - 100) history
    else history in
  set_message_history st history.

Definition row_to_message (row : message_row) : message :=
  {| username := msg_username row;
     message_body := msg_message row;
     message_type := msg_message_type row;
     file_name := msg_file_name row;
     file_size := msg_file_size row;
     timestamp := msg_timestamp row |}.

(** The rows the query of [get_recent_messages] fetches. *)
Definition select_recent (st : server) (limit : Z) : list message_row :=
  sql_limit limit (order_by_id_desc (messages st)).

(** [get_recent_messages], for a [limit] that is a [sqlite_integer]; the
    handlers call it with its default, 50. *)
Definition get_recent_messages (st : server) (limit : Z) : list message :=
  rev (row_to_message <$> select_recent st limit).

(** ** BigAkoHandler: sessions *)

(** [get_session_token]: the first [;]-separated piece of the [Cookie]
    header that mentions [session=] decides. *)
Fixpoint session_of_parts (parts : list str) : option str :=
  match parts with
  | [] => None
  | part :: parts' =>
      if Py.contains (B "session=") part
      then Py.strip <$> (Py.split (B "session=") part !! 1%nat)
      else session_of_parts parts'
  end.

Definition get_session_token (req : request) : option str :=
  session_of_parts (Py.split (B ";") (cookie req)).

(** [token in self.server_instance.session_tokens] *)
Definition verify_session (st : server) (req : request) : bool :=
  match get_session_token req with
  | Some token => bool_decide (is_Some (session_tokens st !! token))
  | None => false
  end.

(** [self.server_instance.session_tokens.get(token)] *)
Definition get_username_from_session (st : server) (req : request)
  : option str :=
  match get_session_token req with
  | Some token => session_tokens st !! token
  | None => None
  end.

(** ** BigAkoHandler: form handlers

    [None] stands for an exception that escapes the handler. *)

(** [data.get(key, [''])[0]] *)
Definition form_field (data : gmap (list ascii) (list (list ascii)))
    (key : str) : option str :=
  match data !! key with
  | Some values => values !! 0%nat
  | None => Some []
  end.

Definition handle_register (st : server) (e : entropy)
    (data : gmap (list ascii) (list (list ascii)))
  : option (response * server) :=
  username ← form_field data (B "username");
  password ← form_field data (B "password");
  if Py.truthy username && Py.truthy password then
    let '(ok, st') := register_user st e username password in
    if ok then Some (serve_json J_success, st')
    else Some (serve_json (J_failure (B "Username already exists")), st')
  else Some (serve_json (J_failure (B "Invalid data")), st).

Definition handle_login (st : server) (e : entropy)
    (data : gmap (list ascii) (list (list ascii)))
  : option (response * server) :=
  username ← form_field data (B "username");
  password ← form_field data (B "password");
  if Py.truthy username && Py.truthy password then
    if verify_user st username password then
      let token := env_token e in
      Some (login_ok token,
            set_session_tokens st (<[token := username]> (session_tokens st)))
    else Some (serve_json (J_failure (B "Invalid credentials")), st)
  else Some (serve_json (J_failure (B "Invalid data")), st).

Definition handle_message (st : server) (e : entropy) (req : request)
    (data : gmap (list ascii) (list (list ascii)))
  : option (response * server) :=
  if negb (verify_session st req) then Some (send_error 401, st)
  else
    message ← form_field data (B "message");
    match get_username_from_session st req with
    | Some username =>
        if Py.truthy message && Py.truthy username then
          Some (serve_json J_success,
                add_message st e username message (B "text") None None)
        else Some (serve_json (J_failure (B "Invalid message")), st)
    | None => Some (serve_json (J_failure (B "Invalid message")), st)
    end.

Definition handle_logout (st : server) (req : request) : response * server :=
  match get_session_token req with
  | Some token =>
      if bool_decide (is_Some (session_tokens st !! token))
      then (logout_ok,
            set_session_tokens st (delete token (session_tokens st)))
      else (logout_ok, st)
  | None => (logout_ok, st)
  end.

(** ** BigAkoHandler: multipart uploads *)

Definition name_file : bytes := B "name=" ++ [dquote] ++ B "file" ++ [dquote].
Definition name_message : bytes :=
  B "name=" ++ [dquote] ++ B "message" ++ [dquote].
Definition filename_marker : bytes := B "filename=" ++ [dquote].
Definition blank_line : bytes := CRLF ++ CRLF.

(** The three variables the decoding loop assigns. *)
Record upload_vars := {
  file_data : option bytes;
  filename : option str;
  message_text : str
}.

Definition initial_vars : upload_vars :=
  {| file_data := None; filename := None; message_text := [] |}.

(** One iteration of [for part in parts].  [None]: the iteration raises
    (a part without a blank line cannot be unpacked into two pieces, a
    name or text that is not UTF-8 cannot be decoded). *)
Definition decode_part (vars : upload_vars) (part : bytes)
  : option upload_vars :=
  if Py.contains name_file part && Py.contains filename_marker part then
    match Py.split1 blank_line part with
    | [headers; file_content] =>
        let file_content := Py.rsplit1_head CRLF file_content in
        let filename_start := Py.find filename_marker headers + 10 in
        let filename_end := Py.find_from [dquote] headers filename_start in
        name ← Py.decode (Py.slice headers filename_start filename_end);
        Some {| file_data := Some file_content;
                filename := Some name;
                message_text := message_text vars |}
    | _ => None
    end
  else if Py.contains name_message part then
    match Py.split1 blank_line part with
    | [headers; message_content] =>
        text ← Py.decode (Py.rsplit1_head CRLF message_content);
        Some {| file_data := file_data vars;
                filename := filename vars;
                message_text := text |}
    | _ => None
    end
  else Some vars.

Fixpoint decode_parts (vars : upload_vars) (parts : list bytes)
  : option upload_vars :=
  match parts with
  | [] => Some vars
  | part :: parts' =>
      vars' ← decode_part vars part;
      decode_parts vars' parts'
  end.

(** [content_type.split('boundary=')[1]]; [None] is the [IndexError]. *)
Definition boundary_of (content_type : str) : option str :=
  Py.split (B "boundary=") content_type !! 1%nat.

(** [data.split(b'--' + boundary.encode())] *)
Definition multipart_parts (data : bytes) (content_type : str)
  : option (list bytes) :=
  boundary ← boundary_of content_type;
  Some (Py.split (B "--" ++ Py.encode boundary) data).

(** The decoder: the part of [handle_multipart] up to the end of the
    loop. *)
Definition decode_multipart (data : bytes) (content_type : str)
  : option upload_vars :=
  parts ← multipart_parts data content_type;
  decode_parts initial_vars parts.

Definition NUL : ascii := "000"%char.
Definition slash : ascii := "/"%char.

(** The longest file name, in bytes, the file system takes ([NAME_MAX]). *)
Definition name_max : Z := 255.

(** [open(os.path.join('uploads', name), 'wb')] followed by the write.
    The directory is flat: a name with a [/] points into a directory that
    does not exist, a name with a NUL byte is refused and so is a name of
    more than [name_max] bytes; all three raise. *)
Definition write_upload (fs : gmap (list ascii) (list ascii))
    (name : str) (content : bytes) : option (gmap (list ascii) (list ascii)) :=
  if bool_decide (slash ∈ name) || bool_decide (NUL ∈ name)
     || (name_max <? Py.len name)
  then None
  else Some (<[name := content]> fs).

Definition max_upload : Z := 50 * 1024 * 1024.

(** The rest of [handle_multipart], once the loop has run. *)
Definition store_upload (st : server) (e : entropy) (req : request)
    (vars : upload_vars) : response * server :=
  match file_data vars, filename vars with
  | Some data, Some name =>
      if Py.truthy data && Py.truthy name then
        let file_size := Py.len data in
        if max_upload <? file_size
        then (serve_json (J_failure (B "File too large")), st)
        else
          let stored := env_file_id e ++ B "_" ++ name in
          match write_upload (uploads st) stored data with
          | None => (serve_json (J_failure (B "File upload failed")), st)
          | Some fs =>
              let st := set_uploads st fs in
              match get_username_from_session st req with
              | Some username =>
                  if Py.truthy username then
                    (serve_json J_success,
                     add_message st e username
                       (if Py.truthy (message_text vars)
                        then message_text vars else B "Shared a file")
                       (B "file") (Some stored) (Some file_size))
                  else (send_error 401, st)
              | None => (send_error 401, st)
              end
          end
      else (no_response, st)
  | _, _ => (no_response, st)
  end.

Definition handle_multipart (st : server) (e : entropy) (req : request)
    (data : bytes) (content_type : str) : response * server :=
  match decode_multipart data content_type with
  | Some vars => store_upload st e req vars
  | None => (serve_json (J_failure (B "File upload failed")), st)
  end.

(** ** BigAkoHandler: downloads *)

Definition last_piece (pieces : list bytes) : bytes := List.last pieces [].

(** [handle_download].  Once the file exists the status line 200 and the
    first header are buffered; a name without an underscore ([IndexError])
    or a shown name that [send_header] cannot encode as latin-1 then
    raises, and the [except] clause calls [send_error(500)] behind them. *)
Definition handle_download (st : server) (req : request) : response :=
  let name := last_piece (Py.split (B "/") (path req)) in
  match uploads st !! name with
  | Some data =>
      match Py.split1 (B "_") name with
      | [_; shown] =>
          if Py.latin1 shown then download_ok shown data
          else late_error 200 500
      | _ => late_error 200 500
      end
  | None =>
      (* the directory itself and its two dot entries exist, and have no
         underscore to split at *)
      if bool_decide (name ∈ [B ""; B "."; B ".."]) then late_error 200 500
      else send_error 404
  end.

(** ** BigAkoHandler: dispatch *)

Definition do_GET (st : server) (req : request) : response * server :=
  if bool_decide (path req = B "/") then (serve_html index_page, st)
  else if bool_decide (path req = B "/login") then (serve_html login_page, st)
  else if bool_decide (path req = B "/register")
  then (serve_html register_page, st)
  else if bool_decide (path req = B "/messenger") then
    if verify_session st req then (serve_html messenger_page, st)
    else (redirect (B "/login"), st)
  else if bool_decide (path req = B "/api/messages") then
    if verify_session st req
    then (serve_json (J_messages (get_recent_messages st 50)), st)
    else (send_error 401, st)
  else if Py.startswith (B "/download/") (path req)
  then (handle_download st req, st)
  else if bool_decide (path req = B "/style.css") then (serve_css, st)
  else if bool_decide (path req = B "/script.js") then (serve_js, st)
  else if bool_decide (path req = B "/api/userinfo") then
    if verify_session st req
    then (serve_json (J_username (get_username_from_session st req)), st)
    else (send_error 401, st)
  else (send_error 404, st).

(** [self.rfile.read(content_length)] when the length is positive. *)
Definition read_body (req : request) : option bytes :=
  n ← content_length req;
  Some (if 0 <? n then take (Z.to_nat n) (rfile req) else []).

(** The body of [do_POST]'s [try]; [None] is an exception, which the
    [except] clause turns into a 500. *)
Definition post_dispatch (st : server) (e : entropy) (req : request)
  : option (response * server) :=
  post_data ← read_body req;
  if Py.contains (B "multipart/form-data") (content_type req)
  then Some (handle_multipart st e req post_data (content_type req))
  else
    text ← Py.decode post_data;
    let data := parse_qs text in
    if bool_decide (path req = B "/api/register")
    then handle_register st e data
    else if bool_decide (path req = B "/api/login")
    then handle_login st e data
    else if bool_decide (path req = B "/api/message")
    then handle_message st e req data
    else if bool_decide (path req = B "/api/logout")
    then Some (handle_logout st req)
    else Some (send_error 404, st).

Definition do_POST (st : server) (e : entropy) (req : request)
  : response * server :=
  match post_dispatch st e req with
  | Some out => out
  | None => (send_error 500, st)
  end.

End BigAko.

(** ** create_database.py *)

Module CreateDatabase.

Section Script.

Variable sha256_hexdigest : bytes -> str.

(** The script's own [hash_password]. *)
Definition hash_password (password salt : str) : str :=
  sha256_hexdigest (Py.encode (password ++ salt)).

Definition test_users : list (str * str) :=
  [(B "admin", B "admin123");
   (B "user1", B "password1");
   (B "user2", B "password2");
   (B "test", B "test123");
   (B "demo", B "demo123")].

Definition test_messages
  : list (str * str * str * option str * option Z) :=
  [(B "admin", B "Добро пожаловать в BigAko Messenger! 🚀", B "text",
    None, None);
   (B "admin", B "Это самый современный мессенджер с лучшим дизайном!",
    B "text", None, None);
   (B "user1", B "Привет всем! Как дела?", B "text", None, None);
   (B "user2", B "Отлично! Дизайн просто огонь! 🔥", B "text", None, None);
   (B "test", B "Тестирую работу мессенджера", B "text", None, None);
   (B "demo", B "Отличная работа! 👍", B "text", None, None)].

(** [INSERT INTO users (username, password_hash, salt)]; [None] is the
    [IntegrityError] of the [UNIQUE] constraint. *)
Definition insert_user (st : server) (now username password_hash salt : str)
  : option server :=
  if existsb (fun r => bool_decide (user_username r = username)) (users st)
  then None
  else
    let id := next_rowid (user_id <$> users st) (users_seq st) in
    Some (set_users st
            (users st ++ [{| user_id := id; user_username := username;
                             user_password_hash := password_hash;
                             user_salt := salt;
                             user_created_at := now |}])
            id).

(** [INSERT INTO messages (username, message, message_type, file_name,
    file_size)] *)
Definition insert_message (st : server) (now : str)
    (row : str * str * str * option str * option Z) : server :=
  let '(username, message, message_type, file_name, file_size) := row in
  let id := next_rowid (msg_id <$> messages st) (messages_seq st) in
  set_messages st
    (messages st ++ [{| msg_id := id; msg_username := username;
                        msg_message := message;
                        msg_message_type := message_type;
                        msg_file_name := file_name;
                        msg_file_size := file_size;
                        msg_timestamp := now |}])
    id.

(** The loop over [test_users]: the [i]-th insert draws the [i]-th salt
    and reads the clock for the [i]-th time; a duplicate is reported and
    skipped. *)
Fixpoint add_users (salts clock : nat -> str) (i : nat) (st : server)
    (l : list (str * str)) : server :=
  match l with
  | [] => st
  | (username, password) :: l' =>
      let salt := salts i in
      let password_hash := hash_password password salt in
      let st' :=
        match insert_user st (clock i) username password_hash salt with
        | Some st' => st'
        | None => st
        end in
      add_users salts clock (S i) st' l'
  end.

(** The loop over [test_messages]. *)
Fixpoint add_messages (clock : nat -> str) (i : nat) (st : server)
    (l : list (str * str * str * option str * option Z)) : server :=
  match l with
  | [] => st
  | row :: l' => add_messages clock (S i) (insert_message st (clock i) row) l'
  end.

(** The database file after it has been removed and the two tables
    have been created. *)
Definition fresh_tables (st : server) : server :=
  set_messages (set_users st [] 0) [] 0.

(** [init_database]: a new database with the test users and the test
    messages.  The uploads directory is kept, and so is whatever a
    running server holds in memory. *)
Definition init_database (salts clock : nat -> str) (st : server)
  : bool * server :=
  let st := fresh_tables st in
  let st := add_users salts clock 0 st test_users in
  let st := add_messages clock (length test_users) st test_messages in
  (true, st).

(** [add_test_user].  [busy] tells whether the database refuses the
    call for a reason of its own, which the [except Exception] clause
    turns into [False]: another connection holds the write lock
    ([database is locked]) or the [users] table is not there.  The third
    result tells whether the call returns with its own connection still
    holding the write lock: [conn.close()] is reached on success only,
    so a call refused for a taken username leaves its transaction open,
    and the database busy for later calls as long as that connection
    lives. *)
Definition add_test_user (st : server) (busy : bool)
    (salt now username password : str) : bool * server * bool :=
  if busy then (false, st, false)
  else
    let password_hash := hash_password password salt in
    match insert_user st now username password_hash salt with
    | Some st' => (true, st', false)
    | None => (false, st, true)
    end.

End Script.

End CreateDatabase.

(** ** Vocabulary of the statements *)

(** An account with this username exists. *)
Definition has_account (st : server) (u : str) : bool :=
  existsb (fun r => bool_decide (user_username r = u)) (users st).

(** One call of [add_message], with what it reads from its environment. *)
Record post := {
  post_env : entropy;
  post_username : str;
  post_message : str;
  post_type : str;
  post_file_name : option str;
  post_file_size : option Z
}.

Definition add_post (st : server) (p : post) : server :=
  add_message st (post_env p) (post_username p) (post_message p)
    (post_type p) (post_file_name p) (post_file_size p).

(** A sequence of calls. *)
Definition add_posts (st : server) (ps : list post) : server :=
  foldl add_post st ps.

(** The entry a call leaves in the mirror. *)
Definition mirror_entry (p : post) : message :=
  {| username := post_username p; message_body := post_message p;
     message_type := post_type p; file_name := post_file_name p;
     file_size := post_file_size p; timestamp := env_now (post_env p) |}.

(** The entry a call leaves in the table, read back as a dictionary. *)
Definition stored_entry (p : post) : message :=
  {| username := post_username p; message_body := post_message p;
     message_type := post_type p; file_name := post_file_name p;
     file_size := post_file_size p; timestamp := env_db_now (post_env p) |}.

(** The last [n] elements of a list. *)
Definition last_n {A} (n : nat) (l : list A) : list A :=
  drop (length l - n) l.

(** Rows in descending order of identifier. *)
Definition descending (rows : list message_row) : Prop :=
  StronglySorted (fun a b => msg_id b <= msg_id a) rows.

(** The largest identifier the [messages] table has ever held. *)
Definition max_id (st : server) : Z :=
  Z.max (messages_seq st) (foldr Z.max 0 (msg_id <$> messages st)).

(** Identifiers in strictly increasing order. *)
Definition increasing (ids : list Z) : Prop := StronglySorted Z.lt ids.

(** Every stored message of kind [file] has a body. *)
Definition file_bodies_nonempty (st : server) : Prop :=
  Forall (fun r => msg_message_type r = B "file" -> msg_message r <> [])
    (messages st).

(** The condition under which the decoding loop takes a part for the
    file part. *)
Definition is_file_part (part : bytes) : bool :=
  Py.contains name_file part && Py.contains filename_marker part.

(** The body a browser sends for a form with a [file] field and a
    [message] field. *)
Definition file_part_headers (name : str) : bytes :=
  CRLF ++ B "Content-Disposition: form-data; name=" ++ [dquote] ++ B "file"
  ++ [dquote] ++ B "; filename=" ++ [dquote] ++ name ++ [dquote] ++ CRLF
  ++ B "Content-Type: application/octet-stream" ++ blank_line.

Definition message_part (text : str) : bytes :=
  CRLF ++ B "Content-Disposition: form-data; name=" ++ [dquote]
  ++ B "message" ++ [dquote] ++ blank_line ++ text ++ CRLF.

Definition upload_body (boundary name : str) (payload : bytes) (text : str)
  : bytes :=
  let delimiter := B "--" ++ boundary in
  delimiter ++ (file_part_headers name ++ payload ++ CRLF)
  ++ delimiter ++ message_part text
  ++ delimiter ++ B "--" ++ CRLF.

Definition upload_content_type (boundary : str) : str :=
  B "multipart/form-data; boundary=" ++ boundary.

Definition form_boundary : str := B "----WebKitFormBoundary7MA4YWxkTrZu0gW".

(** [y] agrees with [sep] as far as both go: an occurrence of [sep]
    could start here. *)
Fixpoint compat (sep y : bytes) : bool :=
  match sep, y with
  | [], _ => true
  | _, [] => true
  | a :: sep', c :: y' => if Ascii.eqb a c then compat sep' y' else false
  end.

(** No occurrence of [sep] starts inside [x], whatever follows [x]. *)
Fixpoint clean (sep x : bytes) : bool :=
  match x with
  | [] => true
  | _ :: x' => negb (compat sep x) && clean sep x'
  end.

Definition dash : ascii := "-"%char.

(** Every text of [n] hexadecimal digits. *)
Fixpoint hex_words (n : nat) : list (list ascii) :=
  match n with
  | O => [[]]
  | S n' => c ← Hashlib.hex_chars; (cons c) <$> hex_words n'
  end.

(** *** Sample data for the statements *)

(** A server that has just been set up: empty tables, nobody logged in,
    nothing uploaded. *)
Definition empty_server : server :=
  {| users := []; users_seq := 0; messages := []; messages_seq := 0;
     message_history := []; session_tokens := ∅; uploads := ∅ |}.

Definition sample_env : entropy :=
  {| env_salt := B "5f2a";
     env_token := B "c0ffee";
     env_file_id := B "1b4e28ba-2fa1-41d2-883f-0016d3cca427";
     env_db_now := B "2024-01-01 00:00:00";
     env_now := B "2024-01-01T00:00:00.000001" |}.

(** A digest that is cheap to run the handlers on: the text itself. *)
Definition plain_digest (b : bytes) : str := b.

(** A form parser for requests whose form is not looked at. *)
Definition no_form (s : str) : gmap (list ascii) (list (list ascii)) := ∅.

(** The first ten bytes of a PNG file; a line terminator is among them. *)
Definition png_payload : bytes :=
  [Py.byte 137; "P"%char; "N"%char; "G"%char; CR; LF; Py.byte 26; LF;
   NUL; NUL].

Definition photo_body : bytes :=
  upload_body form_boundary (B "photo.png") png_payload (B "hello").

(** A body whose file-shaped part names the field but no file. *)
Definition nameless_body : bytes :=
  let delimiter := B "--" ++ form_boundary in
  delimiter ++ CRLF ++ B "Content-Disposition: form-data; name="
  ++ [dquote] ++ B "file" ++ [dquote] ++ blank_line ++ png_payload ++ CRLF
  ++ delimiter ++ message_part (B "hello")
  ++ delimiter ++ B "--" ++ CRLF.

(** A body with a text part only. *)
Definition text_only_body : bytes :=
  let delimiter := B "--" ++ form_boundary in
  delimiter ++ message_part (B "hello") ++ delimiter ++ B "--" ++ CRLF.

Definition post_request (p c ct : str) (body : bytes) : request :=
  {| path := p; cookie := c; content_type := ct;
     content_length := Some (Py.len body); rfile := body |}.

Definition get_request (p c : str) : request :=
  {| path := p; cookie := c; content_type := [];
     content_length := Some 0; rfile := [] |}.

(** An upload and a logout that carry no cookie. *)
Definition upload_request : request :=
  post_request (B "/api/message") [] (upload_content_type form_boundary)
    photo_body.

Definition logout_request : request :=
  post_request (B "/api/logout") [] [] [].

(** A request for the current user that carries no cookie. *)
Definition anonymous_request : request :=
  get_request (B "/api/userinfo") [].

(** A payload one byte over the limit. *)
Definition oversized_payload : bytes :=
  replicate (Z.to_nat (max_upload + 1)) "a"%char.

(** One registered user, then logged in. *)
Definition alice : str := B "alice".
Definition secret : str := B "correct horse".

Definition alice_server : server :=
  (register_user plain_digest empty_server sample_env alice secret).2.

(** The same registration with the digest the program calls. *)
Definition hashed_server : server :=
  (register_user Hashlib.sha256_hexdigest empty_server sample_env
     alice secret).2.

Definition login_form : gmap (list ascii) (list (list ascii)) :=
  <[B "username" := [alice]]> (<[B "password" := [secret]]> ∅).

Definition session_server : server :=
  set_session_tokens alice_server
    (<[B "c0ffee" := alice]> (session_tokens alice_server)).

Definition session_request : request :=
  get_request (B "/api/userinfo") (B "theme=dark; session=c0ffee").

(** The name the sample upload is stored under. *)
Definition stored_name : str :=
  B "1b4e28ba-2fa1-41d2-883f-0016d3cca427_photo.png".

Definition text_post (text : str) : post :=
  {| post_env := sample_env; post_username := alice; post_message := text;
     post_type := B "text"; post_file_name := None; post_file_size := None |}.

Definition three_posts : list post :=
  [text_post (B "one"); text_post (B "two"); text_post (B "three")].

(** *** What a request can do to the state *)

Section Effects.

Variable sha256_hexdigest : bytes -> str.

(** The state changes a request can make, one constructor per place in
    the handlers that builds a new state. *)
Inductive effect (e : entropy) (st : server) : server -> Prop :=
| effect_none : effect e st st
| effect_register u p :
    u <> [] -> p <> [] -> has_account st u = false ->
    effect e st (register_user sha256_hexdigest st e u p).2
| effect_login u p :
    u <> [] -> verify_user sha256_hexdigest st u p = true ->
    effect e st
      (set_session_tokens st (<[env_token e := u]> (session_tokens st)))
| effect_logout t :
    effect e st (set_session_tokens st (delete t (session_tokens st)))
| effect_message req u m :
    get_username_from_session st req = Some u -> u <> [] -> m <> [] ->
    effect e st (add_message st e u m (B "text") None None)
| effect_store name data :
    effect e st (set_uploads st (<[name := data]> (uploads st)))
| effect_upload req name data u body :
    get_username_from_session st req = Some u -> u <> [] -> body <> [] ->
    effect e st
      (add_message (set_uploads st (<[name := data]> (uploads st))) e u
         body (B "file") (Some name) (Some (Py.len data))).

End Effects.

(** *** Invariants *)

(** Every session belongs to an account, under a non-empty username. *)
Definition sessions_registered (st : server) : Prop :=
  forall t u, session_tokens st !! t = Some u ->
              u <> [] /\ has_account st u = true.

(** The keys of the two tables: usernames are unique, and identifiers
    grow in the order of insertion. *)
Definition tables_keyed (st : server) : Prop :=
  NoDup (user_username <$> users st) /\
  increasing (user_id <$> users st) /\
  increasing (msg_id <$> messages st).

(** A message is of kind [file] exactly when it names an attachment,
    and it names one exactly when it gives its size. *)
Definition kinds_consistent (st : server) : Prop :=
  Forall (fun r => (msg_message_type r = B "file" <->
                    is_Some (msg_file_name r)) /\
                   (is_Some (msg_file_name r) <->
                    is_Some (msg_file_size r)))
    (messages st).

(** A message without its clock reading. *)
Definition forget_timestamp (m : message) : message :=
  {| username := username m; message_body := message_body m;
     message_type := message_type m; file_name := file_name m;
     file_size := file_size m; timestamp := [] |}.

(** The mirror holds the last hundred rows of the table. *)
Definition mirror_matches_table (st : server) : Prop :=
  forget_timestamp <$> message_history st =
  last_n 100 (forget_timestamp <$> (row_to_message <$> messages st)).

(** Two states that differ at most in the mirror. *)
Definition same_but_mirror (st1 st2 : server) : Prop :=
  users st1 = users st2 /\ users_seq st1 = users_seq st2 /\
  messages st1 = messages st2 /\ messages_seq st1 = messages_seq st2 /\
  session_tokens st1 = session_tokens st2 /\ uploads st1 = uploads st2.

(** Two outcomes with the same response and states that differ at most
    in the mirror. *)
Definition same_outcome (o1 o2 : response * server) : Prop :=
  o1.1 = o2.1 /\ same_but_mirror o1.2 o2.2.

(** The name an upload called [name] is stored under. *)
Definition stored_as (e : entropy) (name : str) : str :=
  env_file_id e ++ B "_" ++ name.

Definition underscore : ascii := "_"%char.

(** The paths a request line can hand to the handlers: the line is read
    as latin-1 and cut at white space, and nothing in it is unquoted, so
    [self.path] is text of code points up to U+00FF without white
    space. *)
Definition request_path (p : str) : bool :=
  Py.utf8_valid p && Py.latin1 p
  && forallb (fun w => negb (Py.contains w p)) Py.whitespace.

(** A part that the loop wants to cut at a blank line, and that has
    none. *)
Definition lacks_blank_line (part : bytes) : bool :=
  (is_file_part part || Py.contains name_message part)
  && negb (Py.contains blank_line part).

(** What holds of the variables of the decoding loop at every turn. *)
Definition decoded_well (vars : upload_vars) : Prop :=
  (file_data vars = None <-> filename vars = None) /\
  Py.utf8_valid (message_text vars) = true /\
  (forall n, filename vars = Some n -> Py.utf8_valid n = true).

(** The digits [secrets.token_hex] writes. *)
Definition is_hex (c : ascii) : bool :=
  existsb (Ascii.eqb c) (B "0123456789abcdef").

Definition hex_token (t : str) : bool := forallb is_hex t.

Definition semicolon : ascii := ";"%char.
Definition space : ascii := " "%char.

(** A test message of the script as [get_recent_messages] returns it. *)
Definition seeded_message (now : str)
    (row : str * str * str * option str * option Z) : message :=
  let '(u, m, t, fn, fs) := row in
  {| username := u; message_body := m; message_type := t;
     file_name := fn; file_size := fs; timestamp := now |}.

(** *** More sample data *)

(** What a second login draws from its environment. *)
Definition second_env : entropy :=
  {| env_salt := B "9b1d";
     env_token := B "beef01";
     env_file_id := B "7c9e6679-7425-40de-944b-e07fc1f90ae7";
     env_db_now := B "2024-01-01 00:05:00";
     env_now := B "2024-01-01T00:05:00.000001" |}.

Definition two_sessions_server : server :=
  set_session_tokens session_server
    (<[B "beef01" := alice]> (session_tokens session_server)).

Definition second_session_request : request :=
  get_request (B "/api/userinfo") (B "session=beef01").

(** A form that names another author beside the message. *)
Definition message_form : gmap (list ascii) (list (list ascii)) :=
  <[B "message" := [B "hi"]]> (<[B "username" := [B "mallory"]]> ∅).

(** A form without a username. *)
Definition password_only_form : gmap (list ascii) (list (list ascii)) :=
  <[B "password" := [secret]]> ∅.

Definition session_upload_request : request :=
  post_request (B "/api/message") (B "session=c0ffee")
    (upload_content_type form_boundary) photo_body.

Definition photo_vars : upload_vars :=
  {| file_data := Some png_payload; filename := Some (B "photo.png");
     message_text := B "hello" |}.

(** The state an upload without a session leaves behind. *)
Definition leftover_server : server :=
  set_uploads empty_server (<[stored_name := png_payload]> ∅).

Definition download_request : request :=
  get_request (B "/download/" ++ stored_name) [].

(** A body whose text part has no blank line after its headers. *)
Definition broken_body : bytes :=
  let delimiter := B "--" ++ form_boundary in
  delimiter ++ CRLF ++ B "Content-Disposition: form-data; name="
  ++ [dquote] ++ B "message" ++ [dquote] ++ CRLF ++ B "hello" ++ CRLF
  ++ delimiter ++ B "--" ++ CRLF.

(** A multipart request sent to the logout path. *)
Definition multipart_logout_request : request :=
  post_request (B "/api/logout") (B "session=c0ffee")
    (upload_content_type form_boundary) text_only_body.

Definition posted_server : server :=
  add_message session_server sample_env alice (B "hi") (B "text") None None.

Definition cookie_request : request :=
  get_request (B "/api/userinfo") (B "theme=dark; session=c0ffee; lang=en").

Definition list_request : request :=
  get_request (B "/api/messages") (B "theme=dark; session=c0ffee").

(** * Properties *)

(** ** The primitives on small inputs *)

Example split_ex :
  Py.split (B "--") (B "a--b----c-") = [B "a"; B "b"; B ""; B "c-"].
Proof. reflexivity. Qed.

Example split_overlap_ex : Py.split (B "aa") (B "aaa") = [B ""; B "a"].
Proof. reflexivity. Qed.

Example rsplit_ex :
  Py.rsplit1_head CRLF (B "ab" ++ CRLF ++ B "cd" ++ CRLF) = B "ab" ++ CRLF ++ B "cd".
Proof. reflexivity. Qed.

Example rsplit_overlap_ex : Py.rsplit1_head (B "aa") (B "aaa") = B "a".
Proof. reflexivity. Qed.

Example slice_ex : Py.slice (B "0123456789") 9 (-1) = B "".
Proof. reflexivity. Qed.

Example slice_ex2 : Py.slice (B "0123456789") 3 (-1) = B "345678".
Proof. reflexivity. Qed.

Example strip_ex : Py.strip (B "  abc" ++ [Py.byte 194; Py.byte 160] ++ CRLF) = B "abc".
Proof. reflexivity. Qed.

Example decode_ex : Py.decode [Py.byte 195; Py.byte 40] = None.
Proof. reflexivity. Qed.

Example sha256_empty_ex :
  Hashlib.sha256_hexdigest (B "") =
  B "e3b0c44298fc1c149afbf4c8996fb92427ae41e4649b934ca495991b7852b855".
Proof. vm_compute. reflexivity. Qed.

Example sha256_abc_ex :
  Hashlib.sha256_hexdigest (B "abc") =
  B "ba7816bf8f01cfea414140de5dae2223b00361a396177a9cb410ff61f20015ad".
Proof. vm_compute. reflexivity. Qed.

(** Two blocks: 56 bytes leave no room for the length in the first. *)
Example sha256_two_blocks_ex :
  Hashlib.sha256_hexdigest (replicate 56 "a"%char) =
  B "b35439a4ac6f0948b6d6f9e3c6af0f5f590ce20f1bde7090ef7970686ec6738a".
Proof. vm_compute. reflexivity. Qed.

(** ** Record updates *)

Lemma add_message_users st e u m t fn fs :
  users (add_message st e u m t fn fs) = users st.
Proof. reflexivity. Qed.

Lemma add_message_session_tokens st e u m t fn fs :
  session_tokens (add_message st e u m t fn fs) = session_tokens st.
Proof. reflexivity. Qed.

Lemma add_message_uploads st e u m t fn fs :
  uploads (add_message st e u m t fn fs) = uploads st.
Proof. reflexivity. Qed.

Lemma add_message_messages st e u m t fn fs :
  messages (add_message st e u m t fn fs) =
  messages st ++
    [{| msg_id := next_rowid (msg_id <$> messages st) (messages_seq st);
        msg_username := u; msg_message := m; msg_message_type := t;
        msg_file_name := fn; msg_file_size := fs;
        msg_timestamp := env_db_now e |}].
Proof. reflexivity. Qed.

Lemma add_message_seq st e u m t fn fs :
  messages_seq (add_message st e u m t fn fs) =
  next_rowid (msg_id <$> messages st) (messages_seq st).
Proof. reflexivity. Qed.

(** ** The digest *)

Section Digest.

Lemma hex_digit_elem n : Hashlib.hex_digit n ∈ Hashlib.hex_chars.
Proof.
  unfold Hashlib.hex_digit. apply list_elem_of_In, nth_In.
  change 15%Z with (Z.ones 4). rewrite Z.land_ones by lia.
  change (length Hashlib.hex_chars) with 16%nat.
  pose proof (Z.mod_pos_bound n (2 ^ 4) ltac:(lia)). lia.
Qed.

Lemma hex8_format w :
  length (Hashlib.hex8 w) = 8%nat /\
  Forall (.∈ Hashlib.hex_chars) (Hashlib.hex8 w).
Proof.
  split; [reflexivity|]. unfold Hashlib.hex8.
  apply Forall_fmap, Forall_forall. intros i _. apply hex_digit_elem.
Qed.

(** The digest is a text of 64 hexadecimal digits. *)
Lemma hexdigest_format msg :
  length (Hashlib.sha256_hexdigest msg) = 64%nat /\
  Forall (.∈ Hashlib.hex_chars) (Hashlib.sha256_hexdigest msg).
Proof.
  unfold Hashlib.sha256_hexdigest.
  destruct (Hashlib.sha256 msg) as [[[[[[[a b] c] d] e] f] g] h].
  split.
  - rewrite !length_app. by rewrite !(proj1 (hex8_format _)).
  - repeat (apply Forall_app; split); apply hex8_format.
Qed.

Lemma elem_of_hex_words w :
  Forall (.∈ Hashlib.hex_chars) w -> w ∈ hex_words (length w).
Proof.
  induction 1 as [|c w Hc _ IH]; [apply list_elem_of_singleton; done|].
  cbn [length hex_words]. apply list_elem_of_bind. exists c. split; [|done].
  by apply list_elem_of_fmap_2.
Qed.

Lemma length_bind_cons {A} (cs : list A) (l : list (list A)) :
  length (c ← cs; (cons c) <$> l) = (length cs * length l)%nat.
Proof.
  induction cs as [|c cs IH]; [done|].
  cbn [mbind list_bind]. rewrite length_app, length_fmap.
  cbn [length]. fold (mbind (M := list) (fun c => cons c <$> l) cs).
  rewrite IH. lia.
Qed.

Lemma length_hex_words n :
  length (hex_words (S n)) = (16 * length (hex_words n))%nat.
Proof. cbn [hex_words]. by rewrite length_bind_cons. Qed.

Lemma hex_words_nonempty n : (0 < length (hex_words n))%nat.
Proof.
  induction n as [|n IH]; [cbn; lia|]. rewrite length_hex_words. lia.
Qed.

Lemma hex_words_grow n :
  (length (hex_words n) < length (hex_words (S n)))%nat.
Proof.
  rewrite length_hex_words. pose proof (hex_words_nonempty n). lia.
Qed.

Lemma NoDup_bind_cons {A} (cs : list A) (l : list (list A)) :
  NoDup cs -> NoDup l -> NoDup (c ← cs; (cons c) <$> l).
Proof.
  intros Hcs Hl. induction Hcs as [|c cs Hc Hcs IH]; [constructor|].
  cbn [mbind list_bind]. fold (mbind (M := list) (fun c => cons c <$> l) cs).
  apply NoDup_app. split; [|split; [|exact IH]].
  - apply NoDup_fmap_2; [|done]. by intros x y [= ->].
  - intros w [x [-> Hx]]%list_elem_of_fmap
           [c' [[y [[= <- <-] Hy]]%list_elem_of_fmap Hc']]%list_elem_of_bind.
    done.
Qed.

Lemma NoDup_hex_words n : NoDup (hex_words n).
Proof.
  induction n as [|n IH]; [apply NoDup_singleton|].
  cbn [hex_words]. apply NoDup_bind_cons; [|done].
  refine (bool_decide_unpack _ _). vm_compute. exact I.
Qed.

(** Two members of a list without repetitions share their image when
    the images do repeat. *)
Lemma repeated_image {A C} `{EqDecision C} (f : A -> C) (l : list A) :
  NoDup l -> ~ NoDup (f <$> l) ->
  exists x y, x ∈ l /\ y ∈ l /\ x <> y /\ f x = f y.
Proof.
  induction 1 as [|a l Ha Hl IH]; intros Hdup.
  - destruct Hdup. constructor.
  - rewrite fmap_cons in Hdup.
    destruct (decide (f a ∈ f <$> l)) as [Hin|Hout].
    + apply list_elem_of_fmap in Hin as [y [Hy Hyl]].
      exists a, y. repeat split; [left|by right| |done].
      intros ->. done.
    + destruct IH as (x & y & Hx & Hy & Hne & Heq).
      { intros Hnd. apply Hdup. by constructor. }
      exists x, y. repeat split; [by right|by right|done|done].
Qed.

(** The pigeonhole principle. *)
Lemma pigeonhole {A C} `{EqDecision C} (f : A -> C) (l : list A)
    (k : list C) :
  NoDup l -> (forall x, x ∈ l -> f x ∈ k) -> (length k < length l)%nat ->
  exists x y, x ∈ l /\ y ∈ l /\ x <> y /\ f x = f y.
Proof.
  intros Hl Hk Hlen. apply repeated_image; [done|]. intros Hnd.
  assert (Hsub : f <$> l ⊆+ k).
  { apply NoDup_submseteq; [done|].
    intros y [x [-> Hx]]%list_elem_of_fmap. by apply Hk. }
  apply submseteq_length in Hsub. rewrite length_fmap in Hsub. lia.
Qed.

(** Among the texts of 65 hexadecimal digits, two have the same digest
    once [salt] is appended. *)
Lemma sha256_collision salt :
  exists p p', p <> p' /\
    Hashlib.sha256_hexdigest (p ++ salt) = Hashlib.sha256_hexdigest (p' ++ salt).
Proof.
  destruct (pigeonhole (fun p => Hashlib.sha256_hexdigest (p ++ salt))
              (hex_words 65) (hex_words 64)) as (x & y & _ & _ & Hne & Heq).
  - apply NoDup_hex_words.
  - intros p _. destruct (hexdigest_format (p ++ salt)) as [Hlen Hhex].
    rewrite <- Hlen. by apply elem_of_hex_words.
  - apply hex_words_grow.
  - by exists x, y.
Qed.

End Digest.

(** ** Credential store *)

Section Credentials.

Variable sha256_hexdigest : bytes -> str.

Local Abbreviation register_user := (register_user sha256_hexdigest).
Local Abbreviation verify_user := (verify_user sha256_hexdigest).

Lemma find_none_of_existsb {A} (p : A -> bool) l :
  existsb p l = false -> List.find p l = None.
Proof.
  induction l as [|x l IH]; simpl; [done|].
  destruct (p x); simpl; [done|auto].
Qed.

Lemma find_app_fresh {A} (p : A -> bool) l x :
  existsb p l = false -> p x = true -> List.find p (l ++ [x]) = Some x.
Proof.
  induction l as [|y l IH]; simpl; intros Hl Hx.
  - by rewrite Hx.
  - destruct (p y); simpl in *; [done|auto].
Qed.

(** A successful registration appends exactly one row, built from the
    username, the fresh salt and the digest of password and salt. *)
Lemma register_user_true st e u p st' :
  register_user st e u p = (true, st') ->
  has_account st u = false /\
  users st' =
    users st ++
      [{| user_id := next_rowid (user_id <$> users st) (users_seq st);
          user_username := u;
          user_password_hash := hash_password sha256_hexdigest p (env_salt e);
          user_salt := env_salt e;
          user_created_at := env_db_now e |}].
Proof.
  unfold register_user, has_account.
  destruct (existsb _ (users st)); [done|].
  intros [= <-]. done.
Qed.

Lemma register_user_false st e u p :
  has_account st u = true -> register_user st e u p = (false, st).
Proof. unfold register_user, has_account. by intros ->. Qed.

Lemma register_user_has_account st e u p :
  has_account (register_user st e u p).2 u = true.
Proof.
  destruct (has_account st u) eqn:H.
  - by rewrite register_user_false.
  - unfold register_user. fold (has_account st u). rewrite H. simpl.
    unfold has_account. simpl. rewrite existsb_app. simpl.
    rewrite bool_decide_eq_true_2 by done. by rewrite orb_true_r.
Qed.

(** What [verify_user] answers right after a successful registration:
    whether the digests of the two passwords, salted alike, agree. *)
Lemma verify_after_register st e u p st' p' :
  register_user st e u p = (true, st') ->
  verify_user st' u p' =
  bool_decide (hash_password sha256_hexdigest p' (env_salt e)
               = hash_password sha256_hexdigest p (env_salt e)).
Proof.
  intros [Hfresh Hus]%register_user_true.
  unfold verify_user. rewrite Hus.
  erewrite find_app_fresh; [done|exact Hfresh|].
  simpl. by apply bool_decide_eq_true_2.
Qed.

Lemma verify_unknown st u p :
  has_account st u = false -> verify_user st u p = false.
Proof.
  intros H. unfold verify_user.
  by rewrite (find_none_of_existsb _ _ H).
Qed.

(** C2, as the code has it.  After [register_user] has accepted a
    username and a password, [verify_user] answers [True] for that
    username with the same password; with another password it answers
    [False] exactly when the digest of that password and the account's
    salt differs from the digest stored for the account; for a username
    without an account it answers [False]. *)
Theorem register_then_verify st e u p st' :
  register_user st e u p = (true, st') ->
  verify_user st' u p = true /\
  (forall p',
     verify_user st' u p' = false <->
     hash_password sha256_hexdigest p' (env_salt e)
     <> hash_password sha256_hexdigest p (env_salt e)) /\
  (forall st0 u0 p0, has_account st0 u0 = false ->
                     verify_user st0 u0 p0 = false).
Proof.
  intros Hreg. split; [|split].
  - rewrite (verify_after_register _ _ _ _ _ _ Hreg).
    by apply bool_decide_eq_true_2.
  - intros p'. rewrite (verify_after_register _ _ _ _ _ _ Hreg).
    apply bool_decide_eq_false.
  - intros st0 u0 p0. apply verify_unknown.
Qed.

(** C7.  Registering a username a second time is refused whatever the
    second password is: [register_user] answers [False],
    [handle_register] reports that the username already exists, the
    state is the one the first call left, and an account the first call
    created still verifies with its password. *)
Theorem register_twice st e1 e2 u p1 p2 :
  let r1 := register_user st e1 u p1 in
  let r2 := register_user r1.2 e2 u p2 in
  r2 = (false, r1.2) /\
  (forall data,
     form_field data (B "username") = Some u ->
     form_field data (B "password") = Some p2 ->
     u <> [] -> p2 <> [] ->
     handle_register sha256_hexdigest r1.2 e2 data =
     Some (serve_json (J_failure (B "Username already exists")), r1.2)) /\
  (r1.1 = true -> verify_user r2.2 u p1 = true /\ users r2.2 = users r1.2).
Proof.
  intros r1 r2.
  assert (H2 : r2 = (false, r1.2)).
  { apply register_user_false, register_user_has_account. }
  split; [done|]. split.
  - intros data Hu Hp Hune Hpne. unfold handle_register.
    rewrite Hu, Hp. cbn [mbind option_bind].
    destruct u as [|c u']; [done|]. destruct p2 as [|d p2']; [done|].
    cbn [Py.truthy andb]. fold r2. by rewrite H2.
  - intros H1. rewrite H2. simpl. split; [|done].
    destruct r1 as [ok st1] eqn:Hr1. simpl in *. subst ok.
    rewrite (verify_after_register _ _ _ _ _ _ Hr1).
    by apply bool_decide_eq_true_2.
Qed.

End Credentials.

(** ** Message store *)

Section MessageStore.

Lemma fmap_rev {A C} (f : A -> C) (l : list A) :
  f <$> rev l = rev (f <$> l).
Proof.
  induction l as [|x l IH]; [done|].
  rewrite fmap_cons. cbn [rev]. by rewrite fmap_app, IH.
Qed.

Lemma last_n_short {A} n (l : list A) :
  (length l <= n)%nat -> last_n n l = l.
Proof. intros H. unfold last_n. by replace (length l - n)%nat with 0%nat by lia. Qed.

Lemma last_n_length {A} n (l : list A) :
  length (last_n n l) = Nat.min (length l) n.
Proof. unfold last_n. rewrite length_drop. lia. Qed.

Lemma last_n_app {A} n (a b : list A) :
  last_n n (last_n n a ++ b) = last_n n (a ++ b).
Proof.
  destruct (decide (length a <= n)%nat) as [Hle|Hgt].
  - by rewrite (last_n_short n a).
  - unfold last_n. rewrite !length_app, length_drop.
    set (k := (length a - n)%nat).
    replace (length a - k + length b - n)%nat with (length b) by lia.
    replace (length a + length b - n)%nat with (k + length b)%nat by lia.
    rewrite <- drop_drop. f_equal.
    rewrite drop_app_le by lia. done.
Qed.

(** The mirror update of one [add_message]. *)
Lemma add_post_history st p :
  message_history (add_post st p) =
  last_n 100 (message_history st ++ [mirror_entry p]).
Proof.
  unfold add_post, add_message. simpl.
  fold (mirror_entry p).
  destruct (100 <? _) eqn:H.
  - done.
  - apply Z.ltb_ge in H. symmetry. apply last_n_short. lia.
Qed.

Lemma add_posts_history ps : forall st,
  (length (message_history st) <= 100)%nat ->
  message_history (add_posts st ps) =
  last_n 100 (message_history st ++ (mirror_entry <$> ps)).
Proof.
  induction ps as [|p ps IH]; intros st Hst.
  - simpl. rewrite app_nil_r. symmetry. by apply last_n_short.
  - simpl. rewrite IH.
    + rewrite add_post_history, last_n_app. by rewrite <- app_assoc.
    + rewrite add_post_history, last_n_length. lia.
Qed.

(** C4.  Starting from an empty mirror, after any sequence of appends the
    mirror has at most 100 entries: the last [min n 100] of the [n]
    appended messages, in the order of their insertion. *)
Theorem mirror_holds_latest st ps :
  message_history st = [] ->
  let h := message_history (add_posts st ps) in
  (length h <= 100)%nat /\
  h = last_n 100 (mirror_entry <$> ps) /\
  length h = Nat.min (length ps) 100.
Proof.
  intros Hst h.
  assert (Hh : h = last_n 100 (mirror_entry <$> ps)).
  { unfold h. rewrite add_posts_history by (rewrite Hst; simpl; lia).
    by rewrite Hst. }
  rewrite Hh, last_n_length, length_fmap. repeat split; lia.
Qed.

(** *** The query *)

Lemma insert_desc_perm r l : Permutation (insert_desc r l) (r :: l).
Proof.
  induction l as [|x l IH]; simpl; [done|].
  destruct (msg_id x <? msg_id r); [done|].
  rewrite IH. apply perm_swap.
Qed.

Lemma order_by_id_desc_perm rows : Permutation (order_by_id_desc rows) rows.
Proof.
  induction rows as [|r rows IH]; simpl; [done|].
  rewrite insert_desc_perm. by constructor.
Qed.

Lemma insert_desc_descending r l :
  descending l -> descending (insert_desc r l).
Proof.
  unfold descending. induction 1 as [|x l Hl IH Hx]; simpl.
  - repeat constructor.
  - destruct (msg_id x <? msg_id r) eqn:Hlt.
    + apply Z.ltb_lt in Hlt. constructor; [by constructor|].
      constructor; [lia|].
      eapply Forall_impl; [exact Hx|]. simpl. intros; lia.
    + apply Z.ltb_ge in Hlt. constructor; [done|].
      rewrite (insert_desc_perm r l). by constructor.
Qed.

Lemma order_by_id_desc_descending rows : descending (order_by_id_desc rows).
Proof.
  induction rows as [|r rows IH]; simpl.
  - constructor.
  - by apply insert_desc_descending.
Qed.

Lemma insert_desc_skip r pre l :
  Forall (fun y => msg_id r < msg_id y) pre ->
  insert_desc r (pre ++ l) = pre ++ insert_desc r l.
Proof.
  induction 1 as [|y pre Hy _ IH]; simpl; [done|].
  destruct (msg_id y <? msg_id r) eqn:Hlt.
  - apply Z.ltb_lt in Hlt. lia.
  - by rewrite IH.
Qed.

Lemma order_increasing new :
  increasing (msg_id <$> new) -> order_by_id_desc new = rev new.
Proof.
  unfold increasing. induction new as [|x new IH]; simpl; [done|].
  intros H. apply StronglySorted_inv in H as [Hs Hx].
  rewrite IH by done.
  rewrite <- (app_nil_r (rev new)) at 1.
  rewrite insert_desc_skip; [done|].
  apply Forall_rev. rewrite Forall_fmap in Hx.
  eapply Forall_impl; [exact Hx|]. simpl. auto.
Qed.

Lemma order_old_new old new :
  increasing (msg_id <$> new) ->
  Forall (fun o => Forall (fun y => msg_id o < msg_id y) new) old ->
  order_by_id_desc (old ++ new) = rev new ++ order_by_id_desc old.
Proof.
  intros Hnew Hold. unfold order_by_id_desc. rewrite foldr_app.
  fold (order_by_id_desc new). rewrite order_increasing by done.
  induction Hold as [|o old Ho _ IH]; simpl.
  - by rewrite app_nil_r.
  - rewrite IH. apply insert_desc_skip. by apply Forall_rev.
Qed.

(** *** Identifiers *)

Lemma foldr_max_app (a b : list Z) :
  foldr Z.max 0 (a ++ b) = Z.max (foldr Z.max 0 a) (foldr Z.max 0 b).
Proof.
  induction a as [|x a IH]; simpl.
  - assert (0 <= foldr Z.max 0 b) by (induction b; simpl; lia). lia.
  - rewrite IH. lia.
Qed.

Lemma ids_le_max_id st :
  Forall (fun r => msg_id r <= max_id st) (messages st).
Proof.
  assert (H : forall rows,
    Forall (fun r => msg_id r <= foldr Z.max 0 (msg_id <$> rows)) rows).
  { induction rows as [|r rows IH]; [constructor|].
    rewrite fmap_cons. cbn [foldr]. constructor; [lia|].
    eapply Forall_impl; [exact IH|]. intros y Hy. cbv beta in *. lia. }
  unfold max_id. eapply Forall_impl; [apply H|].
  intros y Hy. cbv beta in *. lia.
Qed.

Lemma max_id_add_post st p : max_id (add_post st p) = max_id st + 1.
Proof.
  unfold max_id, add_post.
  rewrite add_message_messages, add_message_seq, fmap_app, foldr_max_app.
  unfold next_rowid. rewrite fmap_cons, fmap_nil. cbn [foldr msg_id].
  set (m := foldr Z.max 0 (msg_id <$> messages st)).
  assert (0 <= m) by (subst m; induction (msg_id <$> messages st); cbn [foldr]; lia).
  lia.
Qed.

(** The rows a sequence of appends adds to the table. *)
Lemma add_posts_rows ps : forall st,
  exists new,
    messages (add_posts st ps) = messages st ++ new /\
    row_to_message <$> new = stored_entry <$> ps /\
    increasing (msg_id <$> new) /\
    Forall (fun r => max_id st < msg_id r) new.
Proof.
  induction ps as [|p ps IH]; intros st.
  - exists []. simpl. rewrite app_nil_r. repeat split; constructor.
  - destruct (IH (add_post st p)) as (new & Hrows & Hmsg & Hinc & Hlow).
    rewrite max_id_add_post in Hlow.
    assert (Hr : exists r,
      messages (add_post st p) = messages st ++ [r] /\
      row_to_message r = stored_entry p /\ msg_id r = max_id st + 1).
    { eexists. unfold add_post. rewrite add_message_messages.
      split; [reflexivity|]. split; reflexivity. }
    destruct Hr as (r & Hr1 & Hr2 & Hr3).
    exists (r :: new). unfold add_posts in *. cbn [foldl].
    rewrite Hrows, Hr1, <- app_assoc. split; [done|].
    rewrite !fmap_cons, Hmsg, Hr2, Hr3. split; [done|]. split.
    + constructor; [done|]. rewrite Forall_fmap.
      eapply Forall_impl; [exact Hlow|].
      intros y Hy. unfold compose. cbv beta in *. lia.
    + constructor; [lia|]. eapply Forall_impl; [exact Hlow|].
      intros y Hy. cbv beta in *. lia.
Qed.

Lemma sql_limit_length {A} n (rows : list A) :
  0 <= n -> Z.of_nat (length (sql_limit n rows)) <= n.
Proof.
  intros Hn. unfold sql_limit.
  destruct (n <? 0) eqn:H; [apply Z.ltb_lt in H; lia|].
  rewrite length_take. lia.
Qed.

(** C3.  [get_recent_messages] takes the rows of the table in descending
    order of identifier, keeps at most [limit] of them and returns them
    oldest first; after [N] appends in sequence, asking for [N] returns
    the [N] appended messages in the order of their insertion, and their
    identifiers are strictly increasing. *)
Theorem recent_returns_appended st limit ps :
  (get_recent_messages st limit =
     row_to_message <$> rev (sql_limit limit (order_by_id_desc (messages st)))
   /\ descending (order_by_id_desc (messages st))
   /\ Permutation (order_by_id_desc (messages st)) (messages st)) /\
  (0 <= limit -> Z.of_nat (length (get_recent_messages st limit)) <= limit) /\
  get_recent_messages (add_posts st ps) (Z.of_nat (length ps))
    = stored_entry <$> ps /\
  exists new,
    messages (add_posts st ps) = messages st ++ new /\
    row_to_message <$> new = stored_entry <$> ps /\
    increasing (msg_id <$> new) /\
    Forall (fun o => Forall (fun r => msg_id o < msg_id r) new) (messages st).
Proof.
  assert (Hold : forall new,
    Forall (fun r => max_id st < msg_id r) new ->
    Forall (fun o => Forall (fun r => msg_id o < msg_id r) new) (messages st)).
  { intros new Hlow. eapply Forall_impl; [apply ids_le_max_id|].
    simpl. intros o Ho. eapply Forall_impl; [exact Hlow|].
    simpl. intros; lia. }
  split; [|split; [|split]].
  - unfold get_recent_messages, select_recent. rewrite fmap_rev.
    split; [done|]. split.
    + apply order_by_id_desc_descending.
    + apply order_by_id_desc_perm.
  - intros Hl. unfold get_recent_messages, select_recent.
    rewrite length_rev, length_fmap. by apply sql_limit_length.
  - destruct (add_posts_rows ps st) as (new & Hrows & Hmsg & Hinc & Hlow).
    unfold get_recent_messages, select_recent. rewrite Hrows.
    rewrite order_old_new by auto.
    assert (Hlen : length new = length ps).
    { apply (f_equal length) in Hmsg. by rewrite !length_fmap in Hmsg. }
    unfold sql_limit.
    destruct (Z.of_nat (length ps) <? 0) eqn:Hneg;
      [apply Z.ltb_lt in Hneg; lia|].
    rewrite Nat2Z.id, <- Hlen, <- length_rev.
    rewrite take_app_length, <- fmap_rev, rev_involutive. done.
  - destruct (add_posts_rows ps st) as (new & Hrows & Hmsg & Hinc & Hlow).
    exists new. auto.
Qed.

End MessageStore.

(** ** Session registry *)

Section Sessions.

Variable sha256_hexdigest : bytes -> str.

Lemma handle_login_ok st e data tok st1 :
  handle_login sha256_hexdigest st e data = Some (login_ok tok, st1) ->
  exists u,
    form_field data (B "username") = Some u /\
    tok = env_token e /\
    st1 = set_session_tokens st (<[tok := u]> (session_tokens st)).
Proof.
  unfold handle_login.
  destruct (form_field data (B "username")) as [u|]; [|done].
  destruct (form_field data (B "password")) as [p|]; [|done]. simpl.
  destruct (Py.truthy u && Py.truthy p); [|done].
  destruct (verify_user _ st u p); [|done].
  intros [= <- <-]. eauto.
Qed.

Lemma handle_logout_absent st req :
  get_username_from_session st req = None ->
  handle_logout st req = (logout_ok, st).
Proof.
  unfold get_username_from_session, handle_logout.
  destruct (get_session_token req) as [t|]; [|done].
  intros ->. rewrite bool_decide_eq_false_2; [done|].
  by intros [? ?].
Qed.

Lemma handle_logout_present st req t u :
  get_session_token req = Some t ->
  session_tokens st !! t = Some u ->
  handle_logout st req =
  (logout_ok, set_session_tokens st (delete t (session_tokens st))).
Proof.
  unfold handle_logout. intros -> Hu.
  rewrite bool_decide_eq_true_2; [done|]. by exists u.
Qed.

(** C8.  The token a successful login issues resolves to the username
    that logged in; after a logout with that token it resolves to
    nothing; and a logout whose token is not in the registry answers as
    usual and leaves the state, the session map included, as it was. *)
Theorem session_lifecycle st e data tok st1 req :
  handle_login sha256_hexdigest st e data = Some (login_ok tok, st1) ->
  get_session_token req = Some tok ->
  (exists u, form_field data (B "username") = Some u /\
             get_username_from_session st1 req = Some u) /\
  (exists st2, handle_logout st1 req = (logout_ok, st2) /\
               get_username_from_session st2 req = None /\
               handle_logout st2 req = (logout_ok, st2)) /\
  (forall st' req', get_username_from_session st' req' = None ->
                    handle_logout st' req' = (logout_ok, st')).
Proof.
  intros (u & Hu & -> & ->)%handle_login_ok Htok.
  assert (Hres : get_username_from_session
            (set_session_tokens st
               (<[env_token e := u]> (session_tokens st))) req = Some u).
  { unfold get_username_from_session. rewrite Htok. simpl.
    apply lookup_insert_eq. }
  split; [eauto|]. split; [|apply handle_logout_absent].
  eexists. split.
  - eapply handle_logout_present; [exact Htok|]. simpl.
    apply lookup_insert_eq.
  - assert (Hgone : forall m : gmap (list ascii) (list ascii),
      get_username_from_session
        (set_session_tokens st (delete (env_token e) m)) req = None).
    { intros m. unfold get_username_from_session. rewrite Htok. simpl.
      apply lookup_delete_eq. }
    split; [apply Hgone|]. apply handle_logout_absent, Hgone.
Qed.

End Sessions.

(** ** Requests without a session *)

Section Guard.

Variable sha256_hexdigest : bytes -> str.
Variable parse_qs : str -> gmap (list ascii) (list (list ascii)).

Lemma verify_session_resolve st req :
  verify_session st req = false <-> get_username_from_session st req = None.
Proof.
  unfold verify_session, get_username_from_session.
  destruct (get_session_token req) as [t|]; [|done].
  rewrite bool_decide_eq_false, <- eq_None_not_Some. done.
Qed.

(** What [store_upload] can do to the state: write one file, and then
    possibly append one message of kind [file]. *)
Lemma store_upload_cases st e req vars :
  let out := store_upload st e req vars in
  out.2 = st \/
  (exists name data,
     out = (send_error 401, set_uploads st (<[name := data]> (uploads st)))
     /\ (get_username_from_session st req = None
         \/ get_username_from_session st req = Some [])) \/
  (exists name data u,
     get_username_from_session st req = Some u /\ u <> [] /\
     out = (serve_json J_success,
            add_message (set_uploads st (<[name := data]> (uploads st))) e u
              (if Py.truthy (message_text vars)
               then message_text vars else B "Shared a file")
              (B "file") (Some name) (Some (Py.len data)))).
Proof.
  unfold store_upload.
  destruct (file_data vars) as [data|]; [|by left].
  destruct (filename vars) as [name|]; [|by left].
  destruct (Py.truthy data && Py.truthy name); [|by left].
  destruct (max_upload <? Py.len data); [by left|].
  unfold write_upload.
  destruct (_ || _); [by left|].
  change (get_username_from_session (set_uploads st ?fs) req)
    with (get_username_from_session st req).
  destruct (get_username_from_session st req) as [u|] eqn:Hu.
  - destruct u as [|c u].
    + right. left. eauto.
    + right. right. do 3 eexists. split; [reflexivity|]. split; [done|].
      reflexivity.
  - right. left. eauto.
Qed.

Lemma handle_multipart_out st e req data ct :
  handle_multipart st e req data ct =
  match decode_multipart data ct with
  | Some vars => store_upload st e req vars
  | None => (serve_json (J_failure (B "File upload failed")), st)
  end.
Proof. reflexivity. Qed.

Lemma post_dispatch_out st e req :
  post_dispatch sha256_hexdigest parse_qs st e req =
  match read_body req with
  | None => None
  | Some post_data =>
      if Py.contains (B "multipart/form-data") (content_type req)
      then Some (handle_multipart st e req post_data (content_type req))
      else
        match Py.decode post_data with
        | None => None
        | Some text =>
            let data := parse_qs text in
            if bool_decide (path req = B "/api/register")
            then handle_register sha256_hexdigest st e data
            else if bool_decide (path req = B "/api/login")
            then handle_login sha256_hexdigest st e data
            else if bool_decide (path req = B "/api/message")
            then handle_message st e req data
            else if bool_decide (path req = B "/api/logout")
            then Some (handle_logout st req)
            else Some (send_error 404, st)
        end
  end.
Proof.
  unfold post_dispatch. destruct (read_body req); [|done]. simpl.
  destruct (Py.contains _ _); [done|]. by destruct (Py.decode _).
Qed.

Lemma handle_message_unauthenticated st e req data :
  get_username_from_session st req = None ->
  handle_message st e req data = Some (send_error 401, st).
Proof.
  intros H%verify_session_resolve. unfold handle_message. by rewrite H.
Qed.

(** How [store_upload] answers a request without a session: with a 401
    once the file is written, and before that with an error in JSON or
    with nothing, the state as it was. *)
Lemma store_upload_unauthenticated st e req vars :
  get_username_from_session st req = None ->
  let out := store_upload st e req vars in
  (out.1 = send_error 401 /\
   exists name data,
     out.2 = set_uploads st (<[name := data]> (uploads st))) \/
  (out.2 = st /\
   (out.1 = no_response \/ exists err, out.1 = serve_json (J_failure err))).
Proof.
  intros Hnone. unfold store_upload.
  destruct (file_data vars) as [data|]; [|right; by eauto].
  destruct (filename vars) as [name|]; [|right; by eauto].
  destruct (Py.truthy data && Py.truthy name); [|right; by eauto].
  destruct (max_upload <? Py.len data); [right; by eauto|].
  destruct (write_upload _ _ _) as [fs|] eqn:Hw; [|right; by eauto].
  change (get_username_from_session (set_uploads st fs) req)
    with (get_username_from_session st req).
  rewrite Hnone. left. split; [done|].
  unfold write_upload in Hw. destruct (_ || _); [done|].
  injection Hw as <-. by eauto.
Qed.

(** C1, as the code has it.  A request whose token resolves to no user
    is answered with a 401 and changes nothing when it lists the recent
    messages, asks for the current user or posts a form-encoded message.
    A logout with such a token changes nothing either, but is answered
    like any other logout.  An upload with such a token is never
    answered with success: it is answered with a 401, or else with an
    error in JSON or with nothing and the state is unchanged; in every
    case it creates no message and changes neither the accounts nor the
    sessions. *)
Theorem unauthenticated_requests st e req :
  get_username_from_session st req = None ->
  (path req = B "/api/messages" \/ path req = B "/api/userinfo" ->
   do_GET st req = (send_error 401, st)) /\
  (forall data, handle_message st e req data = Some (send_error 401, st)) /\
  (forall body text,
     Py.contains (B "multipart/form-data") (content_type req) = false ->
     read_body req = Some body -> Py.decode body = Some text ->
     path req = B "/api/message" ->
     do_POST sha256_hexdigest parse_qs st e req = (send_error 401, st)) /\
  handle_logout st req = (logout_ok, st) /\
  (forall data ct,
     let st' := (handle_multipart st e req data ct).2 in
     users st' = users st /\ users_seq st' = users_seq st /\
     messages st' = messages st /\ messages_seq st' = messages_seq st /\
     message_history st' = message_history st /\
     session_tokens st' = session_tokens st) /\
  (forall data ct,
     let out := handle_multipart st e req data ct in
     out.1 <> serve_json J_success /\
     (out.1 = send_error 401 \/
      out.2 = st /\
      (out.1 = no_response \/
       exists err, out.1 = serve_json (J_failure err)))).
Proof.
  intros Hnone.
  pose proof (proj2 (verify_session_resolve st req) Hnone) as Hver.
  split; [|split; [|split; [|split; [|split]]]].
  - unfold do_GET. intros [Hp|Hp]; rewrite Hp, Hver; reflexivity.
  - intros data. by apply handle_message_unauthenticated.
  - intros body text Hct Hbody Hdec Hp.
    unfold do_POST. rewrite post_dispatch_out, Hbody, Hct, Hdec.
    cbv zeta. rewrite Hp.
    change (bool_decide (B "/api/message" = B "/api/register")) with false.
    change (bool_decide (B "/api/message" = B "/api/login")) with false.
    change (bool_decide (B "/api/message" = B "/api/message")) with true.
    cbv iota. by rewrite handle_message_unauthenticated.
  - by apply handle_logout_absent.
  - intros data ct st'. subst st'. rewrite handle_multipart_out.
    destruct (decode_multipart data ct) as [vars|]; [|done].
    destruct (store_upload_cases st e req vars)
      as [->|[(name & d & -> & _)|(name & d & u & Hu & _)]];
      [done|done|congruence].
  - intros data ct out. subst out. rewrite handle_multipart_out.
    destruct (decode_multipart data ct) as [vars|].
    + destruct (store_upload_unauthenticated st e req vars Hnone)
        as [[-> _]|[Hst [->|[err ->]]]]; split; (done || by eauto).
    + split; [done|]. right. by eauto.
Qed.

(** *** Uploads that carry no file part *)

Lemma decode_part_not_file vars part vars' :
  is_file_part part = false ->
  decode_part vars part = Some vars' ->
  file_data vars' = file_data vars /\ filename vars' = filename vars.
Proof.
  unfold is_file_part, decode_part. intros ->.
  destruct (Py.contains name_message part).
  - destruct (Py.split1 blank_line part) as [|h [|c [|? ?]]]; try done.
    destruct (Py.decode _); [|done]. by intros [= <-].
  - by intros [= <-].
Qed.

Lemma decode_parts_not_file parts : forall vars vars',
  Forall (fun part => is_file_part part = false) parts ->
  decode_parts vars parts = Some vars' ->
  file_data vars' = file_data vars /\ filename vars' = filename vars.
Proof.
  induction parts as [|part parts IH]; intros vars vars' Hall; simpl.
  - by intros [= <-].
  - apply Forall_cons in Hall as [Hpart Hall].
    destruct (decode_part vars part) as [v|] eqn:Hv; [|done]. simpl.
    intros Hrest. destruct (IH _ _ Hall Hrest) as [-> ->].
    by eapply decode_part_not_file.
Qed.

(** C9.  When no part of the body carries both the [name_file] and the
    [filename_marker] marker, the upload handler stores nothing, whatever the
    text part says: the state is unchanged, and when the body decodes no
    response is written at all. *)
Theorem upload_without_file_part st e req data ct parts :
  multipart_parts data ct = Some parts ->
  Forall (fun part => is_file_part part = false) parts ->
  Exists (fun part => Py.contains name_message part = true) parts ->
  let out := handle_multipart st e req data ct in
  out.2 = st /\
  (out.1 = no_response \/
   out.1 = serve_json (J_failure (B "File upload failed"))) /\
  (forall vars, decode_multipart data ct = Some vars ->
                file_data vars = None /\ out = (no_response, st)).
Proof.
  intros Hparts Hall _ out. subst out. rewrite handle_multipart_out.
  unfold decode_multipart. rewrite Hparts. simpl.
  destruct (decode_parts initial_vars parts) as [vars|] eqn:Hvars.
  - destruct (decode_parts_not_file _ _ _ Hall Hvars) as [Hd Hn].
    simpl in Hd, Hn. unfold store_upload. rewrite Hd. simpl.
    split; [done|]. split; [by left|]. by intros ? [= <-].
  - simpl. split; [done|]. split; [by right|]. done.
Qed.

(** *** The body of an uploaded message *)

Lemma post_dispatch_messages st e req r st' :
  post_dispatch sha256_hexdigest parse_qs st e req = Some (r, st') ->
  messages st' = messages st \/
  exists row, messages st' = messages st ++ [row] /\
              (msg_message_type row = B "file" -> msg_message row <> []).
Proof.
  rewrite post_dispatch_out.
  destruct (read_body req) as [body|]; [|done].
  destruct (Py.contains _ (content_type req)).
  - intros [= Hout]. rewrite handle_multipart_out in Hout.
    destruct (decode_multipart _ _) as [vars|].
    + destruct (store_upload_cases st e req vars)
        as [H|[(name & d & H & _)|(name & d & u & _ & _ & H)]];
        rewrite Hout in H; simpl in H.
      * left. by rewrite H.
      * left. by injection H as _ ->.
      * right. injection H as _ ->. rewrite add_message_messages.
        eexists. split; [reflexivity|]. simpl. intros _.
        destruct (message_text vars); [|done].
        vm_compute. discriminate.
    + left. by injection Hout as _ <-.
  - destruct (Py.decode body) as [text|]; [|done]. cbv zeta.
    repeat case_bool_decide.
    + unfold handle_register.
      intros (u & _ & (p & _ & Hout)%bind_Some)%bind_Some. revert Hout.
      destruct (_ && _); [|by intros [= _ <-]; left].
      unfold register_user. destruct (existsb _ _); intros [= _ <-]; by left.
    + unfold handle_login.
      intros (u & _ & (p & _ & Hout)%bind_Some)%bind_Some. revert Hout.
      destruct (_ && _); [|by intros [= _ <-]; left].
      destruct (verify_user _ _ _ _); intros [= _ <-]; by left.
    + unfold handle_message.
      destruct (negb _); [by intros [= _ <-]; left|].
      intros (m & _ & Hout)%bind_Some. revert Hout.
      destruct (get_username_from_session st req) as [u|];
        [|by intros [= _ <-]; left].
      destruct (_ && _); [|by intros [= _ <-]; left].
      intros [= _ <-]. right. rewrite add_message_messages.
      eexists. split; [reflexivity|]. simpl. vm_compute. discriminate.
    + unfold handle_logout.
      destruct (get_session_token req); [|by intros [= _ <-]; left].
      destruct (bool_decide _); intros [= _ <-]; by left.
    + intros [= _ <-]. by left.
Qed.

(** C10.  A message the upload handler stores is of kind [file] and has
    a body: the decoded text, or the literal [Shared a file] when that
    text is empty.  Hence no request leaves a message of kind [file]
    with an empty body in the table. *)
Theorem upload_body_nonempty st e req :
  (forall data ct,
     let st' := (handle_multipart st e req data ct).2 in
     messages st' = messages st \/
     exists row vars,
       decode_multipart data ct = Some vars /\
       messages st' = messages st ++ [row] /\
       msg_message_type row = B "file" /\
       msg_message row <> [] /\
       (message_text vars = [] -> msg_message row = B "Shared a file") /\
       (message_text vars <> [] -> msg_message row = message_text vars)) /\
  (file_bodies_nonempty st ->
   file_bodies_nonempty (do_POST sha256_hexdigest parse_qs st e req).2 /\
   file_bodies_nonempty (do_GET st req).2).
Proof.
  split.
  - intros data ct st'. subst st'. rewrite handle_multipart_out.
    destruct (decode_multipart data ct) as [vars|]; [|by left].
    destruct (store_upload_cases st e req vars)
      as [->|[(name & d & -> & _)|(name & d & u & _ & _ & ->)]];
      [by left|by left|].
    right. cbn [snd]. rewrite add_message_messages.
    eexists _, vars. split; [done|]. split; [reflexivity|].
    cbn [msg_message_type msg_message].
    destruct (message_text vars) eqn:Htext; cbn [Py.truthy].
    + repeat split; first [done | vm_compute; discriminate].
    + repeat split; done.
  - intros Hinv. split.
    + unfold do_POST.
      destruct (post_dispatch _ _ st e req) as [[r st']|] eqn:Hout; [|done].
      simpl. unfold file_bodies_nonempty.
      destruct (post_dispatch_messages _ _ _ _ _ Hout)
        as [->|(row & -> & Hrow)]; [done|].
      apply Forall_app. split; [done|]. by constructor.
    + unfold do_GET. by repeat case_match.
Qed.

End Guard.

(** ** The primitives on text that is only partly known *)

Section Scanning.

Implicit Types sep sub p s t x y : list ascii.

Lemma startswith_app p s t :
  Py.startswith p s = true -> Py.startswith p (s ++ t) = true.
Proof.
  revert s. induction p as [|a p IH]; intros [|c s]; simpl; try done.
  destruct (Ascii.eqb a c); [apply IH|done].
Qed.

Lemma startswith_self p t : Py.startswith p (p ++ t) = true.
Proof.
  induction p as [|a p IH]; simpl; [done|]. by rewrite Ascii.eqb_refl.
Qed.

Lemma startswith_long p s t :
  Py.startswith p s = false -> (length p <= length s)%nat ->
  Py.startswith p (s ++ t) = false.
Proof.
  revert s. induction p as [|a p IH]; intros [|c s]; simpl; try done.
  - lia.
  - destruct (Ascii.eqb a c); [|done]. intros H Hl. apply IH; [done|lia].
Qed.

Lemma startswith_compat sep y t :
  Py.startswith sep (y ++ t) = true -> compat sep y = true.
Proof.
  revert y. induction sep as [|a sep IH]; intros [|c y]; simpl; try done.
  destruct (Ascii.eqb a c); [apply IH|done].
Qed.

Lemma compat_app sep y t : compat sep y = false -> compat sep (y ++ t) = false.
Proof.
  revert y. induction sep as [|a sep IH]; intros [|c y]; simpl; try done.
  destruct (Ascii.eqb a c); [apply IH|done].
Qed.

Lemma index_unfold sub s :
  Py.index sub s =
  if Py.startswith sub s then Some 0%nat
  else match s with [] => None | _ :: s' => S <$> Py.index sub s' end.
Proof. by destruct s. Qed.

Lemma index_bound sub s i :
  Py.index sub s = Some i -> (i + length sub <= length s)%nat.
Proof.
  revert i. induction s as [|c s IH]; intros i; rewrite index_unfold.
  - destruct sub; [|done]. by intros [= <-].
  - destruct (Py.startswith sub (c :: s)) eqn:Hs.
    + intros [= <-]. clear IH. revert Hs. generalize (c :: s).
      induction sub as [|a sub IHs]; intros [|d l]; simpl; try done; try lia.
      destruct (Ascii.eqb a d); [|done]. intros H%IHs. lia.
    + destruct (Py.index sub s) as [j|]; [|done].
      intros [= <-]. specialize (IH j eq_refl). simpl. lia.
Qed.

(** An occurrence found in [s] is still the first one when more text
    follows. *)
Lemma index_app sub s t i :
  Py.index sub s = Some i -> Py.index sub (s ++ t) = Some i.
Proof.
  revert i. induction s as [|c s IH]; intros i; rewrite index_unfold.
  - destruct sub; [|done]. intros [= <-]. by destruct t.
  - destruct (Py.startswith sub (c :: s)) eqn:Hs.
    + intros [= <-]. rewrite index_unfold.
      by rewrite (startswith_app _ _ t Hs).
    + destruct (Py.index sub s) as [j|] eqn:Hj; [|done].
      intros [= <-]. rewrite <- app_comm_cons, index_unfold.
      rewrite app_comm_cons, startswith_long; [|done|].
      * by rewrite (IH j eq_refl).
      * apply index_bound in Hj. simpl. lia.
Qed.

Lemma contains_app sub s t :
  Py.contains sub s = true -> Py.contains sub (s ++ t) = true.
Proof.
  unfold Py.contains. destruct (Py.index sub s) as [i|] eqn:Hi; [|done].
  by rewrite (index_app _ _ t _ Hi).
Qed.

Lemma rsplit1_head_app sep s :
  Py.rsplit1_head sep (s ++ sep) = s.
Proof.
  unfold Py.rsplit1_head, Py.rindex.
  rewrite rev_app_distr, index_unfold, startswith_self.
  rewrite length_app.
  replace (length s + length sep - 0 - length sep)%nat with (length s) by lia.
  apply take_app_length.
Qed.

Lemma clean_app sep x y :
  clean sep x = true -> clean sep y = true -> clean sep (x ++ y) = true.
Proof.
  intros Hx Hy. induction x as [|c x IH]; [done|].
  simpl in Hx. apply andb_true_iff in Hx as [Hc Hx].
  rewrite <- app_comm_cons. cbn [clean]. rewrite app_comm_cons.
  apply negb_true_iff in Hc. rewrite (compat_app _ _ y Hc). simpl. auto.
Qed.

Lemma clean_without_head a sep x :
  a ∉ x -> clean (a :: sep) x = true.
Proof.
  induction x as [|c x IH]; [done|].
  intros [Hc Hx]%not_elem_of_cons. cbn [clean compat].
  destruct (Ascii.eqb a c) eqn:Hac; [by apply Ascii.eqb_eq in Hac|].
  simpl. auto.
Qed.

Lemma split_go_clean sep x : forall acc t,
  clean sep x = true ->
  Py.split_go sep 0 acc (x ++ t) = Py.split_go sep 0 (rev x ++ acc) t.
Proof.
  induction x as [|c x IH]; intros acc t Hx; [done|].
  simpl in Hx. apply andb_true_iff in Hx as [Hc Hx].
  apply negb_true_iff in Hc.
  rewrite <- app_comm_cons. cbn [Py.split_go]. rewrite app_comm_cons.
  destruct (Py.startswith sep ((c :: x) ++ t)) eqn:Hs.
  - apply startswith_compat in Hs. congruence.
  - rewrite IH by done. cbn [rev]. by rewrite <- app_assoc.
Qed.

Lemma split_go_skip sep s : forall acc t,
  Py.split_go sep (length s) acc (s ++ t) = Py.split_go sep 0 acc t.
Proof. induction s as [|c s IH]; intros acc t; [done|]. simpl. apply IH. Qed.

Lemma split_go_match a sep acc t :
  Py.split_go (a :: sep) 0 acc ((a :: sep) ++ t) =
  rev acc :: Py.split_go (a :: sep) 0 [] t.
Proof.
  rewrite <- app_comm_cons. cbn [Py.split_go]. rewrite app_comm_cons.
  rewrite startswith_self. f_equal. cbn [length].
  rewrite Nat.sub_1_r. cbn [Nat.pred]. apply split_go_skip.
Qed.

(** A piece free of the separator, then the separator: [split] cuts
    there. *)
Lemma split_go_piece a sep x t :
  clean (a :: sep) x = true ->
  Py.split_go (a :: sep) 0 [] (x ++ (a :: sep) ++ t) =
  x :: Py.split_go (a :: sep) 0 [] t.
Proof.
  intros Hx. rewrite split_go_clean by done.
  rewrite split_go_match, app_nil_r, rev_involutive. done.
Qed.

(** *** The primitives against their definitions in Python

    [split] cuts at the leftmost occurrence and goes on after it;
    [index] is the lowest and [rindex] the highest offset of an
    occurrence. *)

Lemma startswith_prefix p s :
  Py.startswith p s = true <-> exists t, s = p ++ t.
Proof.
  split.
  - revert s. induction p as [|a p IH]; intros s; [by exists s|].
    destruct s as [|c s]; simpl; [done|].
    destruct (Ascii.eqb a c) eqn:Hac; [|done].
    apply Ascii.eqb_eq in Hac as ->. intros [t ->]%IH. by exists t.
  - intros [t ->]. apply startswith_self.
Qed.

Lemma index_lowest sub s i :
  Py.index sub s = Some i ->
  Py.startswith sub (drop i s) = true /\
  forall j, (j < i)%nat -> Py.startswith sub (drop j s) = false.
Proof.
  revert i. induction s as [|c s IH]; intros i; rewrite index_unfold.
  - destruct (Py.startswith sub []) eqn:Hs; [|done].
    intros [= <-]. split; [done|]. intros; lia.
  - destruct (Py.startswith sub (c :: s)) eqn:Hs.
    + intros [= <-]. split; [done|]. intros; lia.
    + destruct (Py.index sub s) as [k|]; [|done]. intros [= <-].
      destruct (IH k eq_refl) as [Hk Hlow]. split; [done|].
      intros [|j] Hj; [done|]. apply Hlow. lia.
Qed.

Lemma index_none sub s j :
  Py.index sub s = None -> Py.startswith sub (drop j s) = false.
Proof.
  revert j. induction s as [|c s IH]; intros j; rewrite index_unfold.
  - destruct (Py.startswith sub []) eqn:Hs; [done|]. by destruct j.
  - destruct (Py.startswith sub (c :: s)) eqn:Hs; [done|].
    destruct (Py.index sub s) as [k|]; [done|]. intros _.
    destruct j as [|j]; [done|]. by apply IH.
Qed.

Lemma split_go_drop sep k : forall acc s,
  Py.split_go sep k acc s = Py.split_go sep 0 acc (drop k s).
Proof. induction k as [|k IH]; intros acc [|c s]; simpl; auto. Qed.

Lemma split_go_index a sep s : forall acc,
  Py.split_go (a :: sep) 0 acc s =
  match Py.index (a :: sep) s with
  | None => [rev acc ++ s]
  | Some i =>
      (rev acc ++ take i s)
      :: Py.split_go (a :: sep) 0 [] (drop (i + length (a :: sep)) s)
  end.
Proof.
  induction s as [|c s IH]; intros acc.
  - simpl. by rewrite app_nil_r.
  - rewrite index_unfold. cbn [Py.split_go].
    destruct (Py.startswith (a :: sep) (c :: s)).
    + cbn [length take drop Nat.add]. rewrite app_nil_r, Nat.sub_1_r.
      cbn [Nat.pred]. by rewrite split_go_drop.
    + rewrite IH. destruct (Py.index (a :: sep) s) as [i|]; simpl.
      * by rewrite <- app_assoc.
      * by rewrite <- app_assoc.
Qed.

Lemma split_unfold a sep s :
  Py.split (a :: sep) s =
  match Py.index (a :: sep) s with
  | None => [s]
  | Some i => take i s :: Py.split (a :: sep) (drop (i + length (a :: sep)) s)
  end.
Proof. unfold Py.split. by rewrite split_go_index. Qed.

Lemma rindex_highest sub s i :
  Py.rindex sub s = Some i ->
  Py.startswith sub (drop i s) = true /\
  (i + length sub <= length s)%nat /\
  forall j, (i < j)%nat -> (j <= length s)%nat ->
            Py.startswith sub (drop j s) = false.
Proof.
  unfold Py.rindex.
  destruct (Py.index (rev sub) (rev s)) as [k|] eqn:Hk; [|done].
  intros [= <-].
  pose proof (index_bound _ _ _ Hk) as Hlen. rewrite !length_rev in Hlen.
  destruct (index_lowest _ _ _ Hk) as [Hat Hlow].
  apply startswith_prefix in Hat as [t Ht].
  assert (Hs : s = rev t ++ sub ++ rev (take k (rev s))).
  { rewrite <- (rev_involutive s) at 1.
    rewrite <- (take_drop k (rev s)) at 1.
    rewrite Ht, !rev_app_distr, rev_involutive, <- app_assoc. done. }
  assert (Hsum : (length t + length sub + k = length s)%nat).
  { apply (f_equal length) in Hs.
    rewrite !length_app, !length_rev, length_take, length_rev in Hs. lia. }
  replace (length s - k - length sub)%nat with (length (rev t))
    by (rewrite length_rev; lia).
  split; [|split].
  - rewrite Hs at 1. rewrite drop_app_length. apply startswith_self.
  - rewrite length_rev. lia.
  - rewrite length_rev. intros j Hij Hj.
    destruct (Py.startswith sub (drop j s)) eqn:Hsj; [|done]. exfalso.
    apply startswith_prefix in Hsj as [t' Ht'].
    assert (Hs' : rev s = rev t' ++ rev sub ++ rev (take j s)).
    { rewrite <- (take_drop j s) at 1.
      rewrite Ht', !rev_app_distr, <- app_assoc. done. }
    assert (Hsum' : (j + length sub + length t' = length s)%nat).
    { apply (f_equal length) in Hs'.
      rewrite !length_app, !length_rev, length_take in Hs'. lia. }
    specialize (Hlow (length (rev t')) ltac:(rewrite length_rev; lia)).
    rewrite Hs' in Hlow at 1. rewrite drop_app_length in Hlow.
    by rewrite startswith_self in Hlow.
Qed.

End Scanning.

(** ** Multipart decoder *)

Section Decoder.

(** A part made of a header block that ends with the first blank line,
    a payload and the line terminator: the loop takes the payload as it
    is and reads the file name off the headers. *)
Lemma decode_file_part vars hdr payload i name :
  Py.contains name_file hdr = true ->
  Py.contains filename_marker hdr = true ->
  Py.index blank_line hdr = Some i ->
  (i + 4)%nat = length hdr ->
  (let headers := take i hdr in
   let filename_start := Py.find filename_marker headers + 10 in
   let filename_end := Py.find_from [dquote] headers filename_start in
   Py.decode (Py.slice headers filename_start filename_end) = Some name) ->
  decode_part vars (hdr ++ payload ++ CRLF) =
  Some {| file_data := Some payload; filename := Some name;
          message_text := message_text vars |}.
Proof.
  intros Hfile Hmark Hblank Hlen Hname. unfold decode_part.
  rewrite (contains_app _ _ _ Hfile), (contains_app _ _ _ Hmark).
  cbn [andb]. unfold Py.split1. rewrite (index_app _ _ _ _ Hblank).
  change (length blank_line) with 4%nat. rewrite Hlen.
  rewrite drop_app_length, take_app_le by lia.
  rewrite rsplit1_head_app. cbv zeta in Hname. rewrite Hname. done.
Qed.

Lemma split_upload_body a d hdrs payload tail :
  clean (a :: d) hdrs = true -> a ∉ payload -> clean (a :: d) CRLF = true ->
  Py.split (a :: d)
    ((a :: d) ++ (hdrs ++ payload ++ CRLF) ++ (a :: d) ++ tail) =
  [] :: (hdrs ++ payload ++ CRLF) :: Py.split (a :: d) tail.
Proof.
  intros Hh Hp Hc. unfold Py.split. rewrite split_go_match.
  rewrite split_go_piece; [done|].
  apply clean_app; [done|]. apply clean_app; [|done].
  by apply clean_without_head.
Qed.

(** The decoder on the body of a browser upload, for any payload that
    has no dash in it. *)
Lemma decode_upload_body name payload :
  name = B "photo.png" \/ name = [] ->
  dash ∉ payload ->
  decode_multipart
    (upload_body form_boundary name payload (B "hello"))
    (upload_content_type form_boundary) =
  Some {| file_data := Some payload; filename := Some name;
          message_text := B "hello" |}.
Proof.
  intros Hname Hpayload. unfold decode_multipart, multipart_parts.
  change (boundary_of (upload_content_type form_boundary))
    with (Some form_boundary).
  cbn [mbind option_bind]. unfold Py.encode, upload_body. cbv zeta.
  change (B "--" ++ form_boundary) with (dash :: dash :: form_boundary).
  rewrite split_upload_body; [|destruct Hname as [-> | ->]; by vm_compute|done|by vm_compute].
  cbn [decode_parts].
  change (decode_part initial_vars []) with (Some initial_vars).
  cbn [mbind option_bind].
  destruct Hname as [-> | ->].
  - erewrite decode_file_part.
    + cbn [mbind option_bind]. vm_compute. reflexivity.
    + by vm_compute.
    + by vm_compute.
    + vm_compute. reflexivity.
    + by vm_compute.
    + by vm_compute.
  - erewrite decode_file_part.
    + cbn [mbind option_bind]. vm_compute. reflexivity.
    + by vm_compute.
    + by vm_compute.
    + vm_compute. reflexivity.
    + by vm_compute.
    + by vm_compute.
Qed.

End Decoder.

(** ** Uploads *)

Section Uploads.

Lemma truthy_nonempty s : s <> [] -> Py.truthy s = true.
Proof. by destruct s. Qed.

Lemma store_upload_oversized st e req vars payload name :
  file_data vars = Some payload -> filename vars = Some name ->
  name <> [] -> max_upload < Py.len payload ->
  store_upload st e req vars =
  (serve_json (J_failure (B "File too large")), st).
Proof.
  intros Hd Hn Hname Hlen. unfold store_upload. rewrite Hd, Hn.
  rewrite (truthy_nonempty name Hname), truthy_nonempty.
  - cbn [andb]. by rewrite (proj2 (Z.ltb_lt _ _) Hlen).
  - intros ->. unfold Py.len, max_upload in Hlen. simpl in Hlen. lia.
Qed.

Lemma store_upload_unnamed st e req vars :
  filename vars = Some [] -> store_upload st e req vars = (no_response, st).
Proof.
  intros Hn. unfold store_upload. rewrite Hn.
  destruct (file_data vars); [|done]. cbn [Py.truthy].
  by rewrite andb_false_r.
Qed.

Lemma oversized_payload_len : max_upload < Py.len oversized_payload.
Proof.
  unfold Py.len, oversized_payload. rewrite length_replicate.
  rewrite Z2Nat.id; unfold max_upload; lia.
Qed.

Lemma oversized_payload_dash : dash ∉ oversized_payload.
Proof.
  unfold oversized_payload. intros [H _]%elem_of_replicate. discriminate H.
Qed.

(** C5.  The body of a browser upload with a file part for the field
    [file], named [photo.png], and a text part [hello] decodes to that
    file name, the payload as it was sent, without the terminator that
    follows it, and the text [hello]; this for every payload that has no
    dash in it.  A body none of whose parts has the [filename_marker]
    decodes to no file at all. *)
Theorem decode_photo_upload payload :
  dash ∉ payload ->
  decode_multipart
    (upload_body form_boundary (B "photo.png") payload (B "hello"))
    (upload_content_type form_boundary) =
  Some {| file_data := Some payload; filename := Some (B "photo.png");
          message_text := B "hello" |} /\
  (forall data ct parts vars,
     multipart_parts data ct = Some parts ->
     Forall (fun part => Py.contains filename_marker part = false) parts ->
     decode_multipart data ct = Some vars ->
     file_data vars = None /\ filename vars = None).
Proof.
  intros Hdash. split.
  - apply decode_upload_body; auto.
  - intros data ct parts vars Hparts Hall. unfold decode_multipart.
    rewrite Hparts. cbn [mbind option_bind]. intros Hvars.
    eapply (decode_parts_not_file parts initial_vars vars); [|done].
    eapply Forall_impl; [exact Hall|]. intros part Hp. unfold is_file_part.
    cbv beta in Hp. rewrite Hp. apply andb_false_r.
Qed.

(** C6, as the code has it.  When the decoded file payload is larger
    than 50 MiB nothing is stored; the handler answers with the JSON
    error [File too large] when the file has a name, and writes no
    response at all when the name is empty. *)
Theorem oversized_upload_rejected st e req data ct vars payload name :
  decode_multipart data ct = Some vars ->
  file_data vars = Some payload -> filename vars = Some name ->
  max_upload < Py.len payload ->
  (name <> [] ->
   handle_multipart st e req data ct =
   (serve_json (J_failure (B "File too large")), st)) /\
  (name = [] -> handle_multipart st e req data ct = (no_response, st)).
Proof.
  intros Hvars Hd Hn Hlen. rewrite handle_multipart_out, Hvars. split.
  - intros Hname. by eapply store_upload_oversized.
  - intros ->. by apply store_upload_unnamed.
Qed.

End Uploads.

(** ** Runs on sample data *)

Section Runs.

Example get_session_token_ex :
  get_session_token session_request = Some (B "c0ffee").
Proof. vm_compute. reflexivity. Qed.

Example handle_login_ex :
  handle_login plain_digest alice_server sample_env login_form =
  Some (login_ok (B "c0ffee"), session_server).
Proof. vm_compute. reflexivity. Qed.

Example upload_with_session_ex :
  do_POST plain_digest no_form session_server sample_env
    (post_request (B "/api/message") (B "session=c0ffee")
       (upload_content_type form_boundary) photo_body) =
  (serve_json J_success,
   add_message
     (set_uploads session_server
        (<[stored_name := png_payload]> (uploads session_server)))
     sample_env alice (B "hello") (B "file") (Some stored_name) (Some 10)).
Proof. vm_compute. reflexivity. Qed.

Local Ltac run := vm_compute; reflexivity.

Local Ltac decided := refine (bool_decide_unpack _ _); vm_compute; exact I.

Lemma register_then_verify_sample :
  register_user Hashlib.sha256_hexdigest empty_server sample_env alice secret
    = (true, hashed_server) /\
  verify_user Hashlib.sha256_hexdigest hashed_server alice secret = true /\
  verify_user Hashlib.sha256_hexdigest hashed_server alice
    (B "correct house") = false /\
  verify_user Hashlib.sha256_hexdigest hashed_server (B "bob") secret = false.
Proof.
  assert (H : register_user Hashlib.sha256_hexdigest empty_server sample_env
                alice secret = (true, hashed_server)) by run.
  destruct (register_then_verify Hashlib.sha256_hexdigest empty_server
              sample_env alice secret hashed_server H)
    as (Hsame & Hother & Hnone).
  split; [exact H|]. split; [exact Hsame|]. split.
  - apply (proj2 (Hother (B "correct house"))). vm_compute. discriminate.
  - apply Hnone. run.
Defined.

(** Two different passwords with the same salted digest: after the one
    is registered the other verifies too. *)
Lemma colliding_password_accepted :
  exists p p' st',
    p' <> p /\
    register_user Hashlib.sha256_hexdigest empty_server sample_env alice p
      = (true, st') /\
    verify_user Hashlib.sha256_hexdigest st' alice p' = true.
Proof.
  destruct (sha256_collision (env_salt sample_env)) as (p & p' & Hne & Heq).
  assert (Hreg : exists st',
    register_user Hashlib.sha256_hexdigest empty_server sample_env alice p
    = (true, st')) by (by eexists).
  destruct Hreg as [st' Hreg].
  exists p, p', st'. split; [done|]. split; [exact Hreg|].
  rewrite (verify_after_register _ _ _ _ _ _ p' Hreg).
  apply bool_decide_eq_true_2. unfold hash_password, Py.encode. done.
Qed.

Lemma register_twice_sample :
  register_user plain_digest alice_server sample_env alice (B "other")
    = (false, alice_server) /\
  handle_register plain_digest alice_server sample_env
    (<[B "username" := [alice]]> (<[B "password" := [B "other"]]> ∅))
    = Some (serve_json (J_failure (B "Username already exists")),
            alice_server) /\
  verify_user plain_digest alice_server alice secret = true.
Proof.
  destruct (register_twice plain_digest empty_server sample_env sample_env
              alice secret (B "other")) as (H1 & H2 & H3).
  split; [exact H1|]. split.
  - apply H2; [run|run|discriminate|discriminate].
  - exact (proj1 (H3 eq_refl)).
Defined.

Lemma recent_returns_appended_sample :
  get_recent_messages (add_posts alice_server three_posts) 3
    = stored_entry <$> three_posts /\
  Z.of_nat (length (get_recent_messages
                      (add_posts alice_server three_posts) 2)) <= 2.
Proof.
  split.
  - exact (proj1 (proj2 (proj2
             (recent_returns_appended alice_server 0 three_posts)))).
  - apply (proj1 (proj2
             (recent_returns_appended
                (add_posts alice_server three_posts) 2 []))).
    lia.
Defined.

Lemma mirror_holds_latest_sample :
  message_history empty_server = [] /\
  let ps := replicate 101 (text_post (B "hi")) in
  let h := message_history (add_posts empty_server ps) in
  (length h <= 100)%nat /\
  h = last_n 100 (mirror_entry <$> ps) /\
  length h = Nat.min (length ps) 100.
Proof.
  split; [reflexivity|].
  exact (mirror_holds_latest empty_server
           (replicate 101 (text_post (B "hi"))) eq_refl).
Defined.

Lemma session_lifecycle_sample :
  handle_login plain_digest alice_server sample_env login_form
    = Some (login_ok (B "c0ffee"), session_server) /\
  get_session_token session_request = Some (B "c0ffee") /\
  (exists u, form_field login_form (B "username") = Some u /\
             get_username_from_session session_server session_request
               = Some u) /\
  (exists st2, handle_logout session_server session_request
                 = (logout_ok, st2) /\
               get_username_from_session st2 session_request = None /\
               handle_logout st2 session_request = (logout_ok, st2)) /\
  (forall st' req', get_username_from_session st' req' = None ->
                    handle_logout st' req' = (logout_ok, st')).
Proof.
  assert (H1 : handle_login plain_digest alice_server sample_env login_form
               = Some (login_ok (B "c0ffee"), session_server)) by run.
  assert (H2 : get_session_token session_request = Some (B "c0ffee")) by run.
  split; [exact H1|]. split; [exact H2|].
  exact (session_lifecycle plain_digest alice_server sample_env login_form
           (B "c0ffee") session_server session_request H1 H2).
Defined.

Lemma unauthenticated_requests_sample :
  get_username_from_session empty_server anonymous_request = None /\
  do_GET empty_server anonymous_request = (send_error 401, empty_server) /\
  handle_message empty_server sample_env anonymous_request login_form
    = Some (send_error 401, empty_server) /\
  handle_logout empty_server anonymous_request = (logout_ok, empty_server) /\
  messages (handle_multipart empty_server sample_env anonymous_request
              photo_body (upload_content_type form_boundary)).2 = [] /\
  (handle_multipart empty_server sample_env anonymous_request
     photo_body (upload_content_type form_boundary)).1
    <> serve_json J_success.
Proof.
  assert (H : get_username_from_session empty_server anonymous_request = None)
    by run.
  destruct (unauthenticated_requests plain_digest no_form
              empty_server sample_env anonymous_request H)
    as (Hget & Hmsg & _ & Hout & Hup & Hans).
  split; [exact H|].
  split; [|split; [exact (Hmsg login_form)|split; [|split]]].
  - apply Hget. right. run.
  - exact Hout.
  - exact (proj1 (proj2 (proj2
             (Hup photo_body (upload_content_type form_boundary))))).
  - exact (proj1 (Hans photo_body (upload_content_type form_boundary))).
Defined.

(** Two requests that carry no session: the logout is answered like any
    other, and the upload, although answered with a 401, has left its
    file in the uploads directory. *)
Lemma unauthenticated_logout_and_upload :
  get_username_from_session empty_server logout_request = None /\
  do_POST plain_digest no_form empty_server sample_env logout_request
    = (logout_ok, empty_server) /\
  get_username_from_session empty_server upload_request = None /\
  do_POST plain_digest no_form empty_server sample_env upload_request
    = (send_error 401,
       set_uploads empty_server (<[stored_name := png_payload]> ∅)) /\
  uploads empty_server !! stored_name = None /\
  uploads (do_POST plain_digest no_form empty_server sample_env
             upload_request).2 !! stored_name = Some png_payload.
Proof. repeat split; run. Qed.

Lemma upload_without_file_part_sample :
  let req := post_request (B "/api/message") (B "session=c0ffee")
               (upload_content_type form_boundary) text_only_body in
  get_username_from_session session_server req = Some alice /\
  decode_multipart text_only_body (upload_content_type form_boundary)
    = Some {| file_data := None; filename := None;
              message_text := B "hello" |} /\
  handle_multipart session_server sample_env req text_only_body
    (upload_content_type form_boundary) = (no_response, session_server).
Proof.
  intros req. split; [run|].
  assert (Hdec : decode_multipart text_only_body
                   (upload_content_type form_boundary)
                 = Some {| file_data := None; filename := None;
                           message_text := B "hello" |}) by run.
  split; [exact Hdec|].
  refine (proj2 (proj2 (proj2
            (upload_without_file_part session_server sample_env req
               text_only_body (upload_content_type form_boundary)
               (Py.split (B "--" ++ form_boundary) text_only_body)
               _ _ _)) _ Hdec)).
  - run.
  - decided.
  - decided.
Defined.

Lemma upload_body_nonempty_sample :
  let req := post_request (B "/api/message") (B "session=c0ffee")
               (upload_content_type form_boundary) photo_body in
  file_bodies_nonempty session_server /\
  file_bodies_nonempty
    (do_POST plain_digest no_form session_server sample_env req).2.
Proof.
  intros req.
  assert (H : file_bodies_nonempty session_server) by constructor.
  split; [exact H|].
  exact (proj1 (proj2 (upload_body_nonempty plain_digest no_form
                         session_server sample_env req) H)).
Defined.

Lemma decode_photo_upload_sample :
  (dash ∉ png_payload) /\
  length png_payload = 10%nat /\
  decode_multipart photo_body (upload_content_type form_boundary)
    = Some {| file_data := Some png_payload;
              filename := Some (B "photo.png");
              message_text := B "hello" |} /\
  decode_multipart nameless_body (upload_content_type form_boundary)
    = Some {| file_data := None; filename := None;
              message_text := B "hello" |}.
Proof.
  assert (Hd : dash ∉ png_payload) by decided.
  destruct (decode_photo_upload png_payload Hd) as [H1 H2].
  split; [exact Hd|]. split; [reflexivity|]. split; [exact H1|].
  assert (Hdec : exists vars,
    decode_multipart nameless_body (upload_content_type form_boundary)
      = Some vars /\ message_text vars = B "hello").
  { eexists. split; run. }
  destruct Hdec as ([d n t] & Hdec & Ht).
  destruct (H2 nameless_body (upload_content_type form_boundary)
              (Py.split (B "--" ++ form_boundary) nameless_body) _
              ltac:(run) ltac:(decided) Hdec) as [Hnd Hnn].
  simpl in Hnd, Hnn, Ht. subst. exact Hdec.
Defined.

Lemma oversized_upload_rejected_sample :
  max_upload < Py.len oversized_payload /\
  handle_multipart empty_server sample_env upload_request
    (upload_body form_boundary (B "photo.png") oversized_payload (B "hello"))
    (upload_content_type form_boundary)
  = (serve_json (J_failure (B "File too large")), empty_server).
Proof.
  split; [exact oversized_payload_len|].
  refine (proj1 (oversized_upload_rejected empty_server sample_env
                   upload_request _ _ _ oversized_payload (B "photo.png")
                   (decode_upload_body _ _ (or_introl eq_refl)
                      oversized_payload_dash)
                   eq_refl eq_refl oversized_payload_len) _).
  discriminate.
Defined.

(** An upload over the limit whose file part has an empty name: the
    handler writes no response. *)
Lemma oversized_upload_without_name :
  decode_multipart
    (upload_body form_boundary [] oversized_payload (B "hello"))
    (upload_content_type form_boundary)
  = Some {| file_data := Some oversized_payload; filename := Some [];
            message_text := B "hello" |} /\
  max_upload < Py.len oversized_payload /\
  handle_multipart empty_server sample_env upload_request
    (upload_body form_boundary [] oversized_payload (B "hello"))
    (upload_content_type form_boundary)
  = (no_response, empty_server).
Proof.
  assert (Hdec := decode_upload_body [] oversized_payload
                    (or_intror eq_refl) oversized_payload_dash).
  split; [exact Hdec|]. split; [exact oversized_payload_len|].
  rewrite handle_multipart_out, Hdec. by apply store_upload_unnamed.
Qed.

End Runs.

(** * Further properties of the handlers *)

(** ** Forms: registration, login, posting *)

Section Forms.

Variable sha256_hexdigest : bytes -> str.

Lemma verify_user_has_account st u p :
  verify_user sha256_hexdigest st u p = true -> has_account st u = true.
Proof.
  unfold verify_user, has_account.
  destruct (List.find _ (users st)) as [r|] eqn:Hr; [|done]. intros _.
  apply find_some in Hr as [Hin Hp]. apply existsb_exists. eauto.
Qed.

Lemma form_field_missing (data : gmap (list ascii) (list (list ascii))) key :
  data !! key = None -> form_field data key = Some [].
Proof. unfold form_field. by intros ->. Qed.

Lemma handle_login_fields st e data u p :
  form_field data (B "username") = Some u ->
  form_field data (B "password") = Some p ->
  handle_login sha256_hexdigest st e data =
  if Py.truthy u && Py.truthy p then
    if verify_user sha256_hexdigest st u p then
      Some (login_ok (env_token e),
            set_session_tokens st
              (<[env_token e := u]> (session_tokens st)))
    else Some (serve_json (J_failure (B "Invalid credentials")), st)
  else Some (serve_json (J_failure (B "Invalid data")), st).
Proof. intros Hu Hp. unfold handle_login. by rewrite Hu, Hp. Qed.

Lemma handle_register_fields st e data u p :
  form_field data (B "username") = Some u ->
  form_field data (B "password") = Some p ->
  handle_register sha256_hexdigest st e data =
  if Py.truthy u && Py.truthy p then
    if has_account st u
    then Some (serve_json (J_failure (B "Username already exists")), st)
    else Some (serve_json J_success,
               (register_user sha256_hexdigest st e u p).2)
  else Some (serve_json (J_failure (B "Invalid data")), st).
Proof.
  intros Hu Hp. unfold handle_register. rewrite Hu, Hp.
  cbn [mbind option_bind]. destruct (_ && _); [|done].
  unfold register_user. fold (has_account st u).
  by destruct (has_account st u).
Qed.

Lemma truthy_true s : Py.truthy s = true <-> s <> [].
Proof. by destruct s. Qed.

(** X1.  [handle_login] issues a session only when both fields are
    filled in and the credentials verify, and then binds the fresh token
    to the submitted username; every other login leaves the state as it
    was.  With both fields filled in, an unknown username and a wrong
    password get the same answer. *)
Theorem login_only_with_credentials st e data :
  (forall r st',
     handle_login sha256_hexdigest st e data = Some (r, st') ->
     (exists u p,
        form_field data (B "username") = Some u /\
        form_field data (B "password") = Some p /\
        u <> [] /\ p <> [] /\
        verify_user sha256_hexdigest st u p = true /\
        r = login_ok (env_token e) /\
        st' = set_session_tokens st
                (<[env_token e := u]> (session_tokens st))) \/
     (st' = st /\
      (r = serve_json (J_failure (B "Invalid credentials")) \/
       r = serve_json (J_failure (B "Invalid data"))))) /\
  (forall u p,
     form_field data (B "username") = Some u ->
     form_field data (B "password") = Some p ->
     u <> [] -> p <> [] ->
     has_account st u = false \/
       verify_user sha256_hexdigest st u p = false ->
     handle_login sha256_hexdigest st e data =
     Some (serve_json (J_failure (B "Invalid credentials")), st)).
Proof.
  split.
  - intros r st'. unfold handle_login.
    intros (u & Hu & (p & Hp & Hout)%bind_Some)%bind_Some. revert Hout.
    destruct (Py.truthy u && Py.truthy p) eqn:Hfields.
    + apply andb_true_iff in Hfields as [Hu'%truthy_true Hp'%truthy_true].
      destruct (verify_user _ st u p) eqn:Hv; intros [= <- <-].
      * left. exists u, p. repeat split; done.
      * right. split; [done|]. by left.
    + intros [= <- <-]. right. split; [done|]. by right.
  - intros u p Hu Hp Hune Hpne Hbad.
    rewrite (handle_login_fields _ _ _ _ _ Hu Hp).
    rewrite (proj2 (truthy_true u) Hune), (proj2 (truthy_true p) Hpne).
    cbn [andb].
    destruct Hbad as [Hnone|Hwrong]; [|by rewrite Hwrong].
    destruct (verify_user _ st u p) eqn:Hv; [|done].
    apply verify_user_has_account in Hv. congruence.
Qed.

(** X2.  [handle_register] creates an account only when both fields are
    filled in and the username is free; it never logs the new user in.
    A field that is missing from the form counts as empty, and an empty
    field is refused by registration and by login alike, with the state
    unchanged. *)
Theorem register_needs_both_fields st e data u p :
  form_field data (B "username") = Some u ->
  form_field data (B "password") = Some p ->
  (u = [] \/ p = [] ->
   handle_register sha256_hexdigest st e data =
     Some (serve_json (J_failure (B "Invalid data")), st) /\
   handle_login sha256_hexdigest st e data =
     Some (serve_json (J_failure (B "Invalid data")), st)) /\
  (forall r st',
     handle_register sha256_hexdigest st e data = Some (r, st') ->
     session_tokens st' = session_tokens st /\
     messages st' = messages st /\ uploads st' = uploads st /\
     (users st' = users st \/
      u <> [] /\ p <> [] /\ has_account st u = false /\
      r = serve_json J_success /\
      st' = (register_user sha256_hexdigest st e u p).2)) /\
  (forall key, data !! key = None -> form_field data key = Some []).
Proof.
  intros Hu Hp. split; [|split].
  - intros Hempty.
    rewrite (handle_register_fields _ _ _ _ _ Hu Hp).
    rewrite (handle_login_fields _ _ _ _ _ Hu Hp).
    assert (Py.truthy u && Py.truthy p = false) as ->; [|done].
    destruct Hempty as [-> | ->]; [done|]. apply andb_false_r.
  - intros r st'. rewrite (handle_register_fields _ _ _ _ _ Hu Hp).
    destruct (Py.truthy u && Py.truthy p) eqn:Hfields.
    + apply andb_true_iff in Hfields as [Hu'%truthy_true Hp'%truthy_true].
      destruct (has_account st u) eqn:Hacc; intros [= <- <-].
      * repeat split; by left.
      * unfold register_user. fold (has_account st u). rewrite Hacc.
        repeat split; try done. right. repeat split; done.
    + intros [= <- <-]. repeat split; by left.
  - apply form_field_missing.
Qed.

End Forms.

Section Posting.

Lemma handle_message_session st e req data u m :
  get_username_from_session st req = Some u ->
  form_field data (B "message") = Some m ->
  handle_message st e req data =
    if Py.truthy m
    then if Py.truthy u
         then Some (serve_json J_success,
                    add_message st e u m (B "text") None None)
         else Some (serve_json (J_failure (B "Invalid message")), st)
    else Some (serve_json (J_failure (B "Invalid message")), st).
Proof.
  intros Hu Hm.
  assert (Hver : verify_session st req = true).
  { destruct (verify_session st req) eqn:Hv; [done|].
    apply verify_session_resolve in Hv. congruence. }
  unfold handle_message. rewrite Hver, Hm, Hu. cbn [negb mbind option_bind].
  by destruct (Py.truthy m), (Py.truthy u).
Qed.

(** X3. [handle_message] stores a post under the username its session
    resolves to, whatever else the form holds: a text message without an
    attachment, appended to the table.  An empty or missing message is
    refused and nothing is stored. *)
Theorem message_author_is_session_user st e req data u m :
  get_username_from_session st req = Some u -> u <> [] ->
  form_field data (B "message") = Some m ->
  (m <> [] ->
   handle_message st e req data =
     Some (serve_json J_success,
           add_message st e u m (B "text") None None) /\
   messages (add_message st e u m (B "text") None None) =
     messages st ++
       [{| msg_id := next_rowid (msg_id <$> messages st) (messages_seq st);
           msg_username := u; msg_message := m;
           msg_message_type := B "text";
           msg_file_name := None; msg_file_size := None;
           msg_timestamp := env_db_now e |}]) /\
  (m = [] ->
   handle_message st e req data =
     Some (serve_json (J_failure (B "Invalid message")), st)).
Proof.
  intros Hu Hune Hm.
  assert (Hver : verify_session st req = true).
  { destruct (verify_session st req) eqn:Hv; [done|].
    apply verify_session_resolve in Hv. congruence. }
  unfold handle_message. rewrite Hver, Hm, Hu. cbn [negb mbind option_bind].
  split.
  - intros Hmne.
    rewrite (proj2 (truthy_true m) Hmne), (proj2 (truthy_true u) Hune).
    split; [done|]. apply add_message_messages.
  - by intros ->.
Qed.

End Posting.

(** ** What every request preserves *)

Section Invariants.

Variable sha256_hexdigest : bytes -> str.
Variable parse_qs : str -> gmap (list ascii) (list (list ascii)).

Local Abbreviation effect := (effect sha256_hexdigest).

Lemma upload_body_text (text : list ascii) :
  (if Py.truthy text then text else B "Shared a file") <> [].
Proof. by destruct text. Qed.

Lemma store_upload_effect st e req vars :
  effect e st (store_upload st e req vars).2.
Proof.
  destruct (store_upload_cases st e req vars)
    as [H|[(name & d & -> & _)|(name & d & u & Hu & Hune & ->)]].
  - rewrite H. constructor.
  - apply effect_store.
  - eapply effect_upload; eauto using upload_body_text.
Qed.

Lemma handle_logout_effect st e req : effect e st (handle_logout st req).2.
Proof.
  unfold handle_logout. destruct (get_session_token req); [|constructor].
  destruct (bool_decide _); [apply effect_logout|constructor].
Qed.

Lemma handle_message_effect st e req data r st' :
  handle_message st e req data = Some (r, st') -> effect e st st'.
Proof.
  unfold handle_message.
  destruct (negb _); [intros [= _ <-]; constructor|].
  intros (m & _ & Hout)%bind_Some. revert Hout.
  destruct (get_username_from_session st req) as [u|] eqn:Hu;
    [|intros [= _ <-]; constructor].
  destruct (Py.truthy m && Py.truthy u) eqn:Ht; intros [= _ <-];
    [|constructor].
  apply andb_true_iff in Ht as [Hm%truthy_true Hu'%truthy_true].
  by eapply effect_message.
Qed.

Lemma handle_register_effect st e data r st' :
  handle_register sha256_hexdigest st e data = Some (r, st') ->
  effect e st st'.
Proof.
  destruct (form_field data (B "username")) as [u|] eqn:Hu;
    [|unfold handle_register; by rewrite Hu].
  destruct (form_field data (B "password")) as [p|] eqn:Hp;
    [|unfold handle_register; by rewrite Hu, Hp].
  rewrite (handle_register_fields _ _ _ _ _ _ Hu Hp).
  destruct (Py.truthy u && Py.truthy p) eqn:Ht;
    [|intros [= _ <-]; constructor].
  apply andb_true_iff in Ht as [Hu'%truthy_true Hp'%truthy_true].
  destruct (has_account st u) eqn:Hacc; intros [= _ <-]; [constructor|].
  by apply effect_register.
Qed.

Lemma handle_login_effect st e data r st' :
  handle_login sha256_hexdigest st e data = Some (r, st') ->
  effect e st st'.
Proof.
  destruct (form_field data (B "username")) as [u|] eqn:Hu;
    [|unfold handle_login; by rewrite Hu].
  destruct (form_field data (B "password")) as [p|] eqn:Hp;
    [|unfold handle_login; by rewrite Hu, Hp].
  rewrite (handle_login_fields _ _ _ _ _ _ Hu Hp).
  destruct (Py.truthy u && Py.truthy p) eqn:Ht;
    [|intros [= _ <-]; constructor].
  apply andb_true_iff in Ht as [Hu'%truthy_true Hp'%truthy_true].
  destruct (verify_user _ st u p) eqn:Hv; intros [= _ <-]; [|constructor].
  by eapply effect_login.
Qed.

(** Whatever the request, the new state comes from the old one by one
    of the listed effects. *)
Lemma do_POST_effect st e req :
  effect e st (do_POST sha256_hexdigest parse_qs st e req).2.
Proof.
  unfold do_POST. rewrite post_dispatch_out.
  destruct (read_body req) as [body|]; [|constructor].
  destruct (Py.contains _ (content_type req)).
  - cbn [snd]. rewrite handle_multipart_out.
    destruct (decode_multipart _ _); [apply store_upload_effect|constructor].
  - destruct (Py.decode body) as [text|]; [|constructor]. cbv zeta.
    repeat case_bool_decide.
    + destruct (handle_register _ _ _ _) as [[r st']|] eqn:Hout; [|constructor].
      by eapply handle_register_effect.
    + destruct (handle_login _ _ _ _) as [[r st']|] eqn:Hout; [|constructor].
      by eapply handle_login_effect.
    + destruct (handle_message _ _ _ _) as [[r st']|] eqn:Hout; [|constructor].
      by eapply handle_message_effect.
    + apply handle_logout_effect.
    + constructor.
Qed.

Lemma do_GET_state st req : (do_GET st req).2 = st.
Proof. unfold do_GET. by repeat case_match. Qed.

(** *** Sessions belong to accounts *)

Lemma has_account_register st e u p u' :
  has_account st u' = true ->
  has_account (register_user sha256_hexdigest st e u p).2 u' = true.
Proof.
  intros H. unfold register_user. destruct (existsb _ (users st)); [done|].
  unfold has_account in *. cbn [snd users set_users].
  by rewrite existsb_app, H.
Qed.

Lemma register_user_rest st e u p :
  let st' := (register_user sha256_hexdigest st e u p).2 in
  messages st' = messages st /\ messages_seq st' = messages_seq st /\
  message_history st' = message_history st /\
  session_tokens st' = session_tokens st /\ uploads st' = uploads st.
Proof. unfold register_user. by destruct (existsb _ (users st)). Qed.

Lemma effect_sessions_registered e st st' :
  effect e st st' -> sessions_registered st -> sessions_registered st'.
Proof.
  intros Heff Hinv.
  destruct Heff as [|u p Hu Hp Hacc|u p Hu Hv|t|rq u m Hu Hune Hm|name d
                   |rq name d u body Hu Hune Hb]; try exact Hinv.
  - intros t u'.
    destruct (register_user_rest st e u p) as (_ & _ & _ & -> & _).
    intros [Hne Hin]%Hinv. split; [done|]. by apply has_account_register.
  - intros t u'. cbn [session_tokens set_session_tokens].
    destruct (decide (env_token e = t)) as [->|Hne].
    + rewrite lookup_insert_eq. intros [= <-]. split; [done|].
      by eapply verify_user_has_account.
    + rewrite lookup_insert_ne by done. intros Hin. exact (Hinv t u' Hin).
  - intros t' u'. cbn [session_tokens set_session_tokens].
    intros [_ Hin]%lookup_delete_Some. exact (Hinv t' u' Hin).
Qed.

(** X4.  If every session belongs to an account and has a non-empty
    username, that is still so after any request; and in such a state a
    request that carries a valid session never has its upload answered
    with a 401. *)
Theorem sessions_stay_registered st e req :
  sessions_registered st ->
  sessions_registered (do_POST sha256_hexdigest parse_qs st e req).2 /\
  sessions_registered (do_GET st req).2 /\
  (verify_session st req = true ->
   forall data ct,
     (handle_multipart st e req data ct).1 <> send_error 401).
Proof.
  intros Hinv. split; [|split].
  - eapply effect_sessions_registered; [apply do_POST_effect|done].
  - by rewrite do_GET_state.
  - intros Hver data ct. rewrite handle_multipart_out.
    destruct (decode_multipart data ct) as [vars|]; [|done].
    destruct (get_username_from_session st req) as [u|] eqn:Hu.
    + assert (Hune : u <> []).
      { unfold get_username_from_session in Hu.
        destruct (get_session_token req) as [t|]; [|done].
        by destruct (Hinv t u Hu). }
      unfold store_upload. repeat case_match; try done.
      all: cbn [fst]; try discriminate.
      all: match goal with
           | H : get_username_from_session (set_uploads _ _) _ = _ |- _ =>
               change (get_username_from_session (set_uploads ?s ?f) req)
                 with (get_username_from_session s req) in H
           end; simplify_eq.
      by destruct u.
    + apply verify_session_resolve in Hu. congruence.
Qed.

(** *** Keys *)

Lemma next_rowid_above ids seq : Forall (fun y => y < next_rowid ids seq) ids.
Proof.
  unfold next_rowid.
  assert (H : Forall (fun y => y <= foldr Z.max 0 ids) ids).
  { induction ids as [|x ids IH]; [constructor|]. cbn [foldr].
    constructor; [lia|]. eapply Forall_impl; [exact IH|].
    intros y Hy. cbv beta in *. lia. }
  eapply Forall_impl; [exact H|]. intros y Hy. cbv beta in *. lia.
Qed.

Lemma increasing_snoc ids x :
  increasing ids -> Forall (fun y => y < x) ids -> increasing (ids ++ [x]).
Proof.
  unfold increasing. induction 1 as [|y ids Hs IH Hy]; intros Hx.
  - repeat constructor.
  - apply Forall_cons in Hx as [Hyx Hx]. cbn [app]. constructor; [auto|].
    apply Forall_app. split; [done|]. by constructor.
Qed.

Lemma increasing_NoDup ids : increasing ids -> NoDup ids.
Proof.
  unfold increasing. induction 1 as [|y ids Hs IH Hy]; constructor; [|done].
  intros Hin. rewrite Forall_forall in Hy. specialize (Hy y Hin). lia.
Qed.

Lemma no_account_fresh st u :
  has_account st u = false -> u ∉ user_username <$> users st.
Proof.
  unfold has_account. induction (users st) as [|r rows IH]; simpl.
  - intros _. apply not_elem_of_nil.
  - intros [Hr Hrows]%orb_false_iff. apply not_elem_of_cons. split; [|auto].
    apply bool_decide_eq_false in Hr. congruence.
Qed.

Lemma add_message_keyed st e u m t fn fs :
  increasing (msg_id <$> messages st) ->
  increasing (msg_id <$> messages (add_message st e u m t fn fs)).
Proof.
  intros H. rewrite add_message_messages, fmap_app. cbn [fmap list_fmap].
  cbn [msg_id]. apply increasing_snoc; [done|]. apply next_rowid_above.
Qed.

Lemma effect_tables_keyed e st st' :
  effect e st st' -> tables_keyed st -> tables_keyed st'.
Proof.
  intros Heff (Hnames & Huids & Hmids).
  destruct Heff as [|u p Hu Hp Hacc|u p Hu Hv|t|rq u m Hu Hune Hm|name d
                   |rq name d u body Hu Hune Hb]; try done.
  - destruct (register_user sha256_hexdigest st e u p) as [ok st1] eqn:Hreg.
    assert (ok = true) as ->.
    { revert Hreg. unfold register_user. fold (has_account st u).
      rewrite Hacc. by intros [= <- _]. }
    destruct (register_user_true _ _ _ _ _ _ Hreg) as [_ Hus].
    pose proof (register_user_rest st e u p) as Hrest. rewrite Hreg in Hrest.
    destruct Hrest as (Hm & _). cbn [snd] in Hm.
    unfold tables_keyed. cbn [snd].
    rewrite Hus, Hm, !fmap_app. cbn [fmap list_fmap user_username user_id].
    split; [|split; [|done]].
    + apply NoDup_app. split; [done|]. split; [|apply NoDup_singleton].
      intros x Hx ->%list_elem_of_singleton.
      by apply (no_account_fresh st u Hacc).
    + apply increasing_snoc; [done|]. apply next_rowid_above.
  - split; [done|]. split; [done|]. by apply add_message_keyed.
  - split; [done|]. split; [done|].
    by apply (add_message_keyed (set_uploads st _)).
Qed.

(** X5.  If usernames are unique and the identifiers of both tables grow
    in the order of insertion, that is still so after any request: an
    account never gets a second row, and a new row always gets an
    identifier above every one in its table. *)
Theorem tables_stay_keyed st e req :
  tables_keyed st ->
  tables_keyed (do_POST sha256_hexdigest parse_qs st e req).2 /\
  tables_keyed (do_GET st req).2 /\
  NoDup (user_id <$> users st) /\ NoDup (msg_id <$> messages st).
Proof.
  intros Hinv. split; [|split; [|split]].
  - eapply effect_tables_keyed; [apply do_POST_effect|done].
  - by rewrite do_GET_state.
  - apply increasing_NoDup, Hinv.
  - apply increasing_NoDup, Hinv.
Qed.

(** *** Kinds *)

Lemma effect_kinds_consistent e st st' :
  effect e st st' -> kinds_consistent st -> kinds_consistent st'.
Proof.
  intros Heff Hinv. unfold kinds_consistent in *.
  destruct Heff as [|u p Hu Hp Hacc|u p Hu Hv|t|rq u m Hu Hune Hm|name d
                   |rq name d u body Hu Hune Hb]; try done.
  - by destruct (register_user_rest st e u p) as (-> & _).
  - rewrite add_message_messages. apply Forall_app. split; [done|].
    constructor; [|constructor]. cbn [msg_message_type msg_file_name
      msg_file_size]. split; split; intros H; try by destruct H.
    vm_compute in H. discriminate.
  - rewrite add_message_messages. apply Forall_app. split; [done|].
    constructor; [|constructor]. cbn [msg_message_type msg_file_name
      msg_file_size]. split; split; intros H; eauto.
Qed.

(** X6.  If every stored message is of kind [file] exactly when it names
    an attachment, and names one exactly when it gives a size, that is
    still so after any request: posts are stored as [text] without an
    attachment, uploads as [file] with name and size. *)
Theorem kinds_stay_consistent st e req :
  kinds_consistent st ->
  kinds_consistent (do_POST sha256_hexdigest parse_qs st e req).2 /\
  kinds_consistent (do_GET st req).2.
Proof.
  intros Hinv. split.
  - eapply effect_kinds_consistent; [apply do_POST_effect|done].
  - by rewrite do_GET_state.
Qed.

(** *** Nothing is ever taken away *)

Lemma effect_append_only e st st' :
  effect e st st' ->
  users st `prefix_of` users st' /\
  messages st `prefix_of` messages st' /\
  (forall k, is_Some (uploads st !! k) -> is_Some (uploads st' !! k)).
Proof.
  assert (Hup : forall name d k,
    is_Some (uploads st !! k) ->
    is_Some (<[name := d]> (uploads st) !! k)).
  { intros name d k Hk. destruct (decide (name = k)) as [->|Hne].
    - rewrite lookup_insert_eq. eauto.
    - by rewrite lookup_insert_ne. }
  intros Heff.
  destruct Heff as [|u p Hu Hp Hacc|u p Hu Hv|t|rq u m Hu Hune Hm|name d
                   |rq name d u body Hu Hune Hb]; try done.
  - destruct (register_user_rest st e u p) as (-> & _ & _ & _ & ->).
    split; [|done]. unfold register_user.
    destruct (existsb _ (users st)); [done|]. cbn [snd users set_users].
    by apply prefix_app_r.
  - split; [done|]. split; [|done]. rewrite add_message_messages.
    by apply prefix_app_r.
  - split; [done|]. split; [done|]. apply Hup.
  - split; [done|]. split; [|apply Hup].
    rewrite add_message_messages. by apply prefix_app_r.
Qed.

(** X7.  No request removes or rewrites what is stored: the accounts and
    the messages after a request start with the accounts and messages
    before it, every stored upload is still stored, and a GET changes
    nothing at all. *)
Theorem requests_append_only st e req :
  let st' := (do_POST sha256_hexdigest parse_qs st e req).2 in
  users st `prefix_of` users st' /\
  messages st `prefix_of` messages st' /\
  (forall k, is_Some (uploads st !! k) -> is_Some (uploads st' !! k)) /\
  (do_GET st req).2 = st.
Proof.
  intros st'.
  destruct (effect_append_only e st st' (do_POST_effect st e req))
    as (Hu & Hm & Hf).
  repeat split; try done. apply do_GET_state.
Qed.

(** *** The mirror and the table *)

Lemma recent_tail st limit :
  increasing (msg_id <$> messages st) ->
  get_recent_messages st limit =
  row_to_message <$>
    (if limit <? 0 then messages st
     else last_n (Z.to_nat limit) (messages st)).
Proof.
  intros Hinc. unfold get_recent_messages, select_recent, sql_limit.
  rewrite order_increasing by done. rewrite <- fmap_rev. f_equal.
  destruct (limit <? 0); [apply rev_involutive|].
  unfold last_n. rewrite firstn_rev. apply rev_involutive.
Qed.

(** X8.  In a table whose identifiers grow in the order of insertion,
    [get_recent_messages] called with a [limit] that fits the 64-bit
    integer of the database returns the last [limit] rows in that order;
    with a negative such [limit] it returns every row. *)
Theorem recent_is_tail st limit :
  sqlite_integer limit ->
  increasing (msg_id <$> messages st) ->
  (0 <= limit ->
   get_recent_messages st limit =
   row_to_message <$> last_n (Z.to_nat limit) (messages st)) /\
  (limit < 0 ->
   get_recent_messages st limit = row_to_message <$> messages st).
Proof.
  intros _ Hinc. rewrite (recent_tail st limit Hinc). split; intros Hl.
  - by rewrite (proj2 (Z.ltb_ge limit 0) Hl).
  - by rewrite (proj2 (Z.ltb_lt limit 0) Hl).
Qed.

Lemma last_n_fmap {A C} (f : A -> C) n (l : list A) :
  f <$> last_n n l = last_n n (f <$> l).
Proof. unfold last_n. by rewrite fmap_drop, length_fmap. Qed.

Lemma add_message_mirror st e u m t fn fs :
  mirror_matches_table st ->
  mirror_matches_table (add_message st e u m t fn fs).
Proof.
  unfold mirror_matches_table. intros Hinv.
  rewrite add_message_messages.
  change (add_message st e u m t fn fs)
    with (add_post st {| post_env := e; post_username := u;
                         post_message := m; post_type := t;
                         post_file_name := fn; post_file_size := fs |}).
  rewrite add_post_history, last_n_fmap, !fmap_app, Hinv, last_n_app.
  done.
Qed.

Lemma effect_mirror e st st' :
  effect e st st' -> mirror_matches_table st -> mirror_matches_table st'.
Proof.
  intros Heff Hinv.
  destruct Heff as [|u p Hu Hp Hacc|u p Hu Hv|t|rq u m Hu Hune Hm|name d
                   |rq name d u body Hu Hune Hb]; try done.
  - unfold mirror_matches_table.
    by destruct (register_user_rest st e u p) as (-> & _ & -> & _).
  - by apply add_message_mirror.
  - by apply (add_message_mirror (set_uploads st _)).
Qed.

(** X9.  If the mirror holds the last hundred rows of the table (clock
    readings apart), it still does after any request.  It then has at
    most a hundred entries, and when the identifiers grow in the order
    of insertion it agrees with what [get_recent_messages] reads from
    the table for a limit of 100. *)
Theorem mirror_tracks_table st e req :
  mirror_matches_table st ->
  mirror_matches_table (do_POST sha256_hexdigest parse_qs st e req).2 /\
  mirror_matches_table (do_GET st req).2 /\
  (length (message_history st) <= 100)%nat /\
  (increasing (msg_id <$> messages st) ->
   forget_timestamp <$> message_history st =
   forget_timestamp <$> get_recent_messages st 100).
Proof.
  intros Hinv. split; [|split; [|split]].
  - eapply effect_mirror; [apply do_POST_effect|done].
  - by rewrite do_GET_state.
  - apply (f_equal length) in Hinv.
    rewrite length_fmap, last_n_length in Hinv. lia.
  - intros Hinc. rewrite Hinv, (recent_tail st 100 Hinc).
    change (100 <? 0) with false. cbv iota.
    change (Z.to_nat 100) with 100%nat. by rewrite !last_n_fmap.
Qed.

(** *** The mirror is never read *)

Lemma same_but_mirror_refl st : same_but_mirror st st.
Proof. by repeat split. Qed.

Lemma same_outcome_here r st1 st2 :
  same_but_mirror st1 st2 -> same_outcome (r, st1) (r, st2).
Proof. by split. Qed.

Lemma same_verify_session st1 st2 req :
  same_but_mirror st1 st2 -> verify_session st1 req = verify_session st2 req.
Proof.
  intros (_ & _ & _ & _ & Ht & _). unfold verify_session. by rewrite Ht.
Qed.

Lemma same_username st1 st2 req :
  same_but_mirror st1 st2 ->
  get_username_from_session st1 req = get_username_from_session st2 req.
Proof.
  intros (_ & _ & _ & _ & Ht & _). unfold get_username_from_session.
  by rewrite Ht.
Qed.

Lemma same_add_message st1 st2 e u m t fn fs :
  same_but_mirror st1 st2 ->
  same_but_mirror (add_message st1 e u m t fn fs)
    (add_message st2 e u m t fn fs).
Proof.
  destruct st1, st2. unfold same_but_mirror.
  cbn [users users_seq messages messages_seq session_tokens uploads].
  intros (-> & -> & -> & -> & -> & ->). by repeat split.
Qed.

Lemma same_set_uploads st1 st2 f1 f2 :
  same_but_mirror st1 st2 -> f1 = f2 ->
  same_but_mirror (set_uploads st1 f1) (set_uploads st2 f2).
Proof. intros (Hu & Hus & Hm & Hms & Ht & Hf) ->. by repeat split. Qed.

Lemma same_set_session_tokens st1 st2 t1 t2 :
  same_but_mirror st1 st2 -> t1 = t2 ->
  same_but_mirror (set_session_tokens st1 t1) (set_session_tokens st2 t2).
Proof. intros (Hu & Hus & Hm & Hms & Ht & Hf) ->. by repeat split. Qed.

Lemma same_register_user st1 st2 e u p :
  same_but_mirror st1 st2 ->
  (register_user sha256_hexdigest st1 e u p).1 =
  (register_user sha256_hexdigest st2 e u p).1 /\
  same_but_mirror (register_user sha256_hexdigest st1 e u p).2
    (register_user sha256_hexdigest st2 e u p).2.
Proof.
  intros Hsame. pose proof Hsame as (Hu & Hus & Hm & Hms & Ht & Hf).
  unfold register_user. rewrite Hu, Hus.
  destruct (existsb _ (users st2)); [done|]. split; [done|].
  by repeat split.
Qed.

Lemma same_store_upload st1 st2 e req vars :
  same_but_mirror st1 st2 ->
  same_outcome (store_upload st1 e req vars) (store_upload st2 e req vars).
Proof.
  intros Hsame. pose proof Hsame as (_ & _ & _ & _ & _ & Hf).
  unfold store_upload.
  destruct (file_data vars) as [d|]; [|by apply same_outcome_here].
  destruct (filename vars) as [n|]; [|by apply same_outcome_here].
  destruct (_ && _); [|by apply same_outcome_here].
  destruct (max_upload <? _); [by apply same_outcome_here|].
  rewrite Hf. destruct (write_upload _ _ _) as [fs|];
    [|by apply same_outcome_here].
  assert (Hup : same_but_mirror (set_uploads st1 fs) (set_uploads st2 fs))
    by by apply same_set_uploads.
  rewrite (same_username _ _ req Hup).
  destruct (get_username_from_session _ req) as [u|];
    [|by apply same_outcome_here].
  destruct (Py.truthy u); [|by apply same_outcome_here].
  split; [done|]. by apply same_add_message.
Qed.

Lemma same_post_dispatch st1 st2 e req :
  same_but_mirror st1 st2 ->
  match post_dispatch sha256_hexdigest parse_qs st1 e req,
        post_dispatch sha256_hexdigest parse_qs st2 e req with
  | Some o1, Some o2 => same_outcome o1 o2
  | None, None => True
  | _, _ => False
  end.
Proof.
  intros Hsame. pose proof Hsame as (Hu & Hus & Hm & Hms & Ht & Hf).
  rewrite !post_dispatch_out.
  destruct (read_body req) as [body|]; [|done].
  destruct (Py.contains _ (content_type req)).
  { rewrite !handle_multipart_out.
    destruct (decode_multipart _ _);
      [by apply same_store_upload|by apply same_outcome_here]. }
  destruct (Py.decode body) as [text|]; [|done]. cbv zeta.
  repeat case_bool_decide.
  - unfold handle_register.
    destruct (form_field _ (B "username")) as [u|]; [|done].
    destruct (form_field _ (B "password")) as [p|]; [|done].
    cbn [mbind option_bind].
    destruct (_ && _); [|by apply same_outcome_here].
    destruct (same_register_user st1 st2 e u p Hsame) as [Hok Hst].
    destruct (register_user _ st1 e u p) as [ok1 s1].
    destruct (register_user _ st2 e u p) as [ok2 s2].
    cbn [fst snd] in *. subst ok2. by destruct ok1.
  - unfold handle_login.
    destruct (form_field _ (B "username")) as [u|]; [|done].
    destruct (form_field _ (B "password")) as [p|]; [|done].
    cbn [mbind option_bind].
    destruct (_ && _); [|by apply same_outcome_here].
    assert (verify_user sha256_hexdigest st1 u p =
            verify_user sha256_hexdigest st2 u p) as ->
      by (unfold verify_user; by rewrite Hu).
    destruct (verify_user _ st2 u p); [|by apply same_outcome_here].
    split; [done|]. apply same_set_session_tokens; [done|]. by rewrite Ht.
  - unfold handle_message. rewrite (same_verify_session _ _ req Hsame).
    destruct (negb _); [by apply same_outcome_here|].
    destruct (form_field _ (B "message")) as [m|]; [|done].
    cbn [mbind option_bind]. rewrite (same_username _ _ req Hsame).
    destruct (get_username_from_session st2 req) as [u|];
      [|by apply same_outcome_here].
    destruct (_ && _); [|by apply same_outcome_here].
    split; [done|]. by apply same_add_message.
  - unfold handle_logout. rewrite Ht.
    destruct (get_session_token req); [|by apply same_outcome_here].
    destruct (bool_decide _); [|by apply same_outcome_here].
    split; [done|]. by apply same_set_session_tokens.
  - by apply same_outcome_here.
Qed.

(** X10.  The mirror is written and never read: two states that differ
    only in the mirror get the same response to every request, and
    differ only in the mirror afterwards. *)
Theorem mirror_never_read st1 st2 e req :
  same_but_mirror st1 st2 ->
  same_outcome (do_POST sha256_hexdigest parse_qs st1 e req)
    (do_POST sha256_hexdigest parse_qs st2 e req) /\
  same_outcome (do_GET st1 req) (do_GET st2 req).
Proof.
  intros Hsame. split.
  - unfold do_POST. pose proof (same_post_dispatch st1 st2 e req Hsame) as H.
    destruct (post_dispatch _ _ st1 e req), (post_dispatch _ _ st2 e req);
      first [done | by apply same_outcome_here].
  - pose proof Hsame as (Hu & Hus & Hm & Hms & Ht & Hf).
    split; [|by rewrite !do_GET_state].
    unfold do_GET, handle_download, get_recent_messages, select_recent.
    rewrite (same_verify_session _ _ req Hsame),
      (same_username _ _ req Hsame), Hm, Hf.
    by repeat case_bool_decide; repeat case_match.
Qed.

End Invariants.

(** ** Sessions side by side *)

Section SessionFrame.

Variable sha256_hexdigest : bytes -> str.

(** X11.  A login binds its fresh token and leaves every other token as
    it was; a logout unbinds the token its request carries and leaves
    every other token as it was.  So a user who logs in twice holds two
    sessions, and ending one does not end the other. *)
Theorem sessions_independent st e data tok st1 :
  handle_login sha256_hexdigest st e data = Some (login_ok tok, st1) ->
  (forall t, t <> tok -> session_tokens st1 !! t = session_tokens st !! t) /\
  (forall req t,
     get_session_token req <> Some t ->
     session_tokens (handle_logout st1 req).2 !! t = session_tokens st1 !! t) /\
  (forall req t u,
     session_tokens st !! t = Some u -> t <> tok ->
     get_session_token req = Some tok ->
     session_tokens (handle_logout st1 req).2 !! t = Some u /\
     session_tokens (handle_logout st1 req).2 !! tok = None).
Proof.
  intros (u & Hu & -> & ->)%handle_login_ok.
  assert (Hframe : forall st' req t,
    get_session_token req <> Some t ->
    session_tokens (handle_logout st' req).2 !! t = session_tokens st' !! t).
  { intros st' req t Hreq. unfold handle_logout.
    destruct (get_session_token req) as [t'|]; [|done].
    destruct (bool_decide _); [|done].
    cbn [snd session_tokens set_session_tokens].
    apply lookup_delete_ne. congruence. }
  split; [|split].
  - intros t Ht. cbn [session_tokens set_session_tokens].
    by apply lookup_insert_ne.
  - intros req t. apply Hframe.
  - intros req t u' Hold Hne Hreq. split.
    + rewrite Hframe by congruence.
      cbn [session_tokens set_session_tokens].
      by rewrite lookup_insert_ne.
    + erewrite handle_logout_present; [|exact Hreq|apply lookup_insert_eq].
      apply lookup_delete_eq.
Qed.

End SessionFrame.

(** ** Uploads and downloads *)

Section Files.

Variable sha256_hexdigest : bytes -> str.
Variable parse_qs : str -> gmap (list ascii) (list (list ascii)).

Lemma write_upload_ok fs name content :
  slash ∉ name -> NUL ∉ name -> Py.len name <= name_max ->
  write_upload fs name content = Some (<[name := content]> fs).
Proof.
  intros Hs Hn Hlen. unfold write_upload.
  by rewrite !bool_decide_eq_false_2, (proj2 (Z.ltb_ge _ _) Hlen).
Qed.

Lemma store_upload_accepts st e req vars payload name :
  file_data vars = Some payload -> filename vars = Some name ->
  payload <> [] -> name <> [] -> Py.len payload <= max_upload ->
  slash ∉ stored_as e name -> NUL ∉ stored_as e name ->
  Py.len (stored_as e name) <= name_max ->
  store_upload st e req vars =
  let st1 := set_uploads st (<[stored_as e name := payload]> (uploads st)) in
  match get_username_from_session st req with
  | Some u =>
      if Py.truthy u then
        (serve_json J_success,
         add_message st1 e u
           (if Py.truthy (message_text vars)
            then message_text vars else B "Shared a file")
           (B "file") (Some (stored_as e name)) (Some (Py.len payload)))
      else (send_error 401, st1)
  | None => (send_error 401, st1)
  end.
Proof.
  intros Hd Hn Hp Hname Hlen Hs Hnul Hmax. unfold store_upload.
  rewrite Hd, Hn, (proj2 (truthy_true payload) Hp),
    (proj2 (truthy_true name) Hname).
  cbn [andb]. rewrite (proj2 (Z.ltb_ge _ _) Hlen).
  fold (stored_as e name). by rewrite (write_upload_ok _ _ _ Hs Hnul Hmax).
Qed.

(** X12.  An upload that carries a valid session, a non-empty payload of
    at most 50 MiB (the limit included) and a non-empty file name is
    accepted when the uploads directory can hold the name it is stored
    under, the unique identifier, an underscore and the file name: no
    slash, no NUL byte and at most [name_max] bytes in all.  The payload
    is stored, byte for byte, under that name, and one message of kind
    [file] is appended that carries the session's username, the stored
    name and the payload's size. *)
Theorem upload_stores_file st e req data ct vars payload name u :
  decode_multipart data ct = Some vars ->
  file_data vars = Some payload -> filename vars = Some name ->
  payload <> [] -> name <> [] -> Py.len payload <= max_upload ->
  slash ∉ stored_as e name -> NUL ∉ stored_as e name ->
  Py.len (stored_as e name) <= name_max ->
  get_username_from_session st req = Some u -> u <> [] ->
  let out := handle_multipart st e req data ct in
  out.1 = serve_json J_success /\
  uploads out.2 = <[stored_as e name := payload]> (uploads st) /\
  uploads out.2 !! stored_as e name = Some payload /\
  exists body,
    body <> [] /\
    (message_text vars <> [] -> body = message_text vars) /\
    messages out.2 =
    messages st ++
      [{| msg_id := next_rowid (msg_id <$> messages st) (messages_seq st);
          msg_username := u; msg_message := body;
          msg_message_type := B "file";
          msg_file_name := Some (stored_as e name);
          msg_file_size := Some (Py.len payload);
          msg_timestamp := env_db_now e |}].
Proof.
  intros Hvars Hd Hn Hp Hname Hlen Hs Hnul Hmax Hu Hune out. subst out.
  rewrite handle_multipart_out, Hvars.
  rewrite (store_upload_accepts _ _ _ _ _ _ Hd Hn Hp Hname Hlen Hs Hnul Hmax).
  cbv zeta. rewrite Hu, (proj2 (truthy_true u) Hune). cbn [fst snd].
  split; [done|]. split; [done|]. split; [apply lookup_insert_eq|].
  eexists. split; [apply upload_body_text|]. split.
  - intros Ht. by rewrite (proj2 (truthy_true _) Ht).
  - by rewrite add_message_messages.
Qed.

(** X13.  The same upload without a session, its stored name again one
    the uploads directory can hold, is answered with a 401, and yet its
    payload is stored under that name; no message is created. *)
Theorem upload_without_session_is_stored st e req data ct vars payload name :
  decode_multipart data ct = Some vars ->
  file_data vars = Some payload -> filename vars = Some name ->
  payload <> [] -> name <> [] -> Py.len payload <= max_upload ->
  slash ∉ stored_as e name -> NUL ∉ stored_as e name ->
  Py.len (stored_as e name) <= name_max ->
  get_username_from_session st req = None ->
  handle_multipart st e req data ct =
    (send_error 401,
     set_uploads st (<[stored_as e name := payload]> (uploads st))) /\
  uploads (handle_multipart st e req data ct).2 !! stored_as e name
    = Some payload /\
  messages (handle_multipart st e req data ct).2 = messages st.
Proof.
  intros Hvars Hd Hn Hp Hname Hlen Hs Hnul Hmax Hu.
  rewrite handle_multipart_out, Hvars.
  rewrite (store_upload_accepts _ _ _ _ _ _ Hd Hn Hp Hname Hlen Hs Hnul Hmax).
  cbv zeta. rewrite Hu. split; [done|]. split; [|done].
  apply lookup_insert_eq.
Qed.

(** *** Downloads *)

Lemma split_single c x : c ∉ x -> Py.split [c] x = [x].
Proof.
  intros Hc. unfold Py.split. rewrite <- (app_nil_r x) at 1.
  rewrite split_go_clean by (by apply clean_without_head).
  cbn [Py.split_go]. by rewrite app_nil_r, rev_involutive.
Qed.

Lemma split_single_app c x y :
  c ∉ x -> Py.split [c] (x ++ [c] ++ y) = x :: Py.split [c] y.
Proof.
  intros Hc. unfold Py.split.
  apply split_go_piece. by apply clean_without_head.
Qed.

Lemma index_clean a sep x t :
  clean (a :: sep) x = true ->
  Py.index (a :: sep) (x ++ (a :: sep) ++ t) = Some (length x).
Proof.
  induction x as [|c x IH]; intros Hx.
  - rewrite index_unfold. cbn [app]. rewrite app_comm_cons.
    by rewrite startswith_self.
  - cbn [clean] in Hx. apply andb_true_iff in Hx as [Hc Hx].
    apply negb_true_iff in Hc.
    rewrite <- app_comm_cons, index_unfold, app_comm_cons.
    destruct (Py.startswith (a :: sep) ((c :: x) ++ _)) eqn:Hs.
    + apply startswith_compat in Hs. congruence.
    + by rewrite IH.
Qed.

Lemma download_path_name name :
  slash ∉ name ->
  last_piece (Py.split (B "/") (B "/download/" ++ name)) = name.
Proof.
  intros Hs.
  change (B "/download/" ++ name)
    with ([] ++ [slash] ++ (B "download" ++ [slash] ++ name)).
  change (B "/") with [slash].
  rewrite split_single_app by apply not_elem_of_nil.
  rewrite split_single_app by (by vm_compute; intros H; inversion H; subst;
    repeat match goal with
           | H : _ ∈ _ :: _ |- _ => inversion H; clear H; subst
           | H : _ ∈ [] |- _ => inversion H
           end).
  by rewrite split_single.
Qed.

Lemma download_path_other name (p : list ascii) :
  take 2 p <> B "/d" -> bool_decide (B "/download/" ++ name = p) = false.
Proof.
  intros Hp. apply bool_decide_eq_false. intros <-. by apply Hp.
Qed.

Lemma do_GET_download st req name :
  path req = B "/download/" ++ name ->
  do_GET st req = (handle_download st req, st).
Proof.
  intros Hp. unfold do_GET. rewrite Hp.
  rewrite !download_path_other by (vm_compute; discriminate).
  change (B "/download/" ++ name) with (B "/download/" ++ name).
  by rewrite startswith_self.
Qed.

Lemma latin1_app x y : Py.latin1 (x ++ y) = Py.latin1 x && Py.latin1 y.
Proof. apply forallb_app. Qed.

Lemma request_path_latin1 p : request_path p = true -> Py.latin1 p = true.
Proof.
  unfold request_path. intros H.
  apply andb_true_iff in H as [H _]. by apply andb_true_iff in H as [_ H].
Qed.

(** X14.  What is stored under a unique identifier, an underscore and a
    file name can be downloaded by any request whose path is
    [/download/] and that stored name, with or without a session,
    provided a request line can carry the path as it stands (no white
    space, no code point above U+00FF; nothing is unquoted): the response
    carries the stored bytes and the file name without the identifier.
    The identifier holds no underscore, the stored name no slash. *)
Theorem download_returns_upload st e name payload req :
  uploads st !! stored_as e name = Some payload ->
  slash ∉ stored_as e name -> underscore ∉ env_file_id e ->
  path req = B "/download/" ++ stored_as e name ->
  request_path (path req) = true ->
  do_GET st req = (download_ok name payload, st).
Proof.
  intros Hup Hs Hu Hp Hline. rewrite (do_GET_download _ _ _ Hp).
  apply request_path_latin1 in Hline. rewrite Hp in Hline.
  unfold stored_as in Hline. rewrite !latin1_app in Hline.
  repeat (apply andb_true_iff in Hline as [? Hline]).
  unfold handle_download. rewrite Hp, (download_path_name _ Hs), Hup.
  unfold Py.split1, stored_as. change (B "_") with [underscore].
  rewrite index_clean by (by apply clean_without_head).
  rewrite <- length_app, (app_assoc (env_file_id e)), drop_app_length.
  by rewrite Hline.
Qed.

(** X15.  A download of a name under which nothing is stored, and which
    is not the directory itself or one of its dot entries, is answered
    with a 404 whoever asks, and changes nothing. *)
Theorem download_of_other_names st req name :
  path req = B "/download/" ++ name -> slash ∉ name ->
  uploads st !! name = None -> name ∉ [B ""; B "."; B ".."] ->
  do_GET st req = (send_error 404, st).
Proof.
  intros Hp Hs Hnone Hdots. rewrite (do_GET_download _ _ _ Hp).
  unfold handle_download. rewrite Hp, (download_path_name _ Hs), Hnone.
  by rewrite bool_decide_eq_false_2.
Qed.

(** *** The decoder's results and failures *)

Lemma decode_valid b s : Py.decode b = Some s -> Py.utf8_valid s = true.
Proof.
  unfold Py.decode. destruct (Py.utf8_valid b) eqn:H; [|done].
  by intros [= <-].
Qed.

Lemma decode_part_well vars part vars' :
  decoded_well vars -> decode_part vars part = Some vars' ->
  decoded_well vars'.
Proof.
  intros (Hboth & Htext & Hname). unfold decode_part.
  destruct (_ && _).
  - destruct (Py.split1 blank_line part) as [|h [|c [|? ?]]]; try done.
    destruct (Py.decode _) as [n|] eqn:Hn; [|done]. intros [= <-].
    split; [done|]. split; [done|]. intros n' [= <-].
    by eapply decode_valid.
  - destruct (Py.contains name_message part); [|by intros [= <-]].
    destruct (Py.split1 blank_line part) as [|h [|c [|? ?]]]; try done.
    destruct (Py.decode _) as [t|] eqn:Ht; [|done]. intros [= <-].
    split; [done|]. split; [by eapply decode_valid|done].
Qed.

Lemma decode_parts_well parts : forall vars vars',
  decoded_well vars -> decode_parts vars parts = Some vars' ->
  decoded_well vars'.
Proof.
  induction parts as [|part parts IH]; intros vars vars' Hw; simpl.
  - by intros [= <-].
  - destruct (decode_part vars part) as [v|] eqn:Hv; [|done]. simpl.
    apply IH. by eapply decode_part_well.
Qed.

(** X16.  Whatever body the decoder accepts, it returns a file name
    exactly when it returns file data, and the file name and the text it
    returns are well-formed UTF-8. *)
Theorem decoder_results_well data ct vars :
  decode_multipart data ct = Some vars ->
  (file_data vars = None <-> filename vars = None) /\
  Py.utf8_valid (message_text vars) = true /\
  (forall n, filename vars = Some n -> Py.utf8_valid n = true).
Proof.
  unfold decode_multipart.
  intros (parts & _ & Hvars)%bind_Some.
  apply (decode_parts_well parts initial_vars vars); [|done].
  by repeat split.
Qed.

Lemma contains_index sub s :
  Py.contains sub s = false -> Py.index sub s = None.
Proof. unfold Py.contains. by destruct (Py.index sub s). Qed.

Lemma decode_part_lacks_blank_line vars part :
  lacks_blank_line part = true -> decode_part vars part = None.
Proof.
  unfold lacks_blank_line, is_file_part, decode_part, Py.split1.
  intros [Hwant Hblank%negb_true_iff%contains_index]%andb_true_iff.
  rewrite Hblank. destruct (_ && _); [done|].
  cbn [orb] in Hwant. by rewrite Hwant.
Qed.

Lemma decode_parts_lacks_blank_line parts :
  Exists (fun part => lacks_blank_line part = true) parts ->
  forall vars, decode_parts vars parts = None.
Proof.
  induction 1 as [part parts Hpart|part parts _ IH]; intros vars; simpl.
  - by rewrite decode_part_lacks_blank_line.
  - destruct (decode_part vars part); [apply IH|done].
Qed.

(** X17.  An upload whose content type names no boundary, or one of
    whose file or text parts has no blank line after its headers, is
    answered with the error [File upload failed]; nothing is stored,
    whatever the other parts hold. *)
Theorem malformed_upload_rejected st e req data ct :
  boundary_of ct = None \/
  (exists parts, multipart_parts data ct = Some parts /\
                 Exists (fun part => lacks_blank_line part = true) parts) ->
  handle_multipart st e req data ct =
  (serve_json (J_failure (B "File upload failed")), st).
Proof.
  intros Hbad. rewrite handle_multipart_out.
  assert (decode_multipart data ct = None) as ->; [|done].
  unfold decode_multipart. destruct Hbad as [Hb|(parts & Hparts & Hex)].
  - unfold multipart_parts. by rewrite Hb.
  - rewrite Hparts. cbn [mbind option_bind].
    by apply decode_parts_lacks_blank_line.
Qed.

(** X18.  A POST whose content type mentions [multipart/form-data] is
    handled as an upload whatever its path is: it never registers,
    logs in or logs out, so the accounts and the sessions are as
    before. *)
Theorem multipart_takes_every_path st e req :
  Py.contains (B "multipart/form-data") (content_type req) = true ->
  let out := do_POST sha256_hexdigest parse_qs st e req in
  users out.2 = users st /\ session_tokens out.2 = session_tokens st /\
  (forall body, read_body req = Some body ->
                out = handle_multipart st e req body (content_type req)) /\
  (read_body req = None -> out = (send_error 500, st)).
Proof.
  intros Hct out. subst out. unfold do_POST.
  rewrite post_dispatch_out, Hct.
  destruct (read_body req) as [body|]; [|by repeat split].
  assert (Hfrm : users (handle_multipart st e req body (content_type req)).2
                 = users st /\
                 session_tokens
                   (handle_multipart st e req body (content_type req)).2
                 = session_tokens st).
  { rewrite handle_multipart_out.
    destruct (decode_multipart _ _) as [vars|]; [|done].
    destruct (store_upload_cases st e req vars)
      as [->|[(name & d & -> & _)|(name & d & u & _ & _ & ->)]]; done. }
  destruct Hfrm as [Hus Hts]. repeat split; try done.
  by intros b [= <-].
Qed.

End Files.

(** ** The session cookie *)

Section Cookie.

Implicit Types sep pre post tok acc rest : list ascii.

Lemma contains_app_r sub s t :
  Py.contains sub t = true -> Py.contains sub (s ++ t) = true.
Proof.
  intros Ht. unfold Py.contains in *.
  destruct (Py.index sub (s ++ t)) eqn:Hi; [done|].
  destruct (Py.index sub t) as [i|] eqn:Hit; [|done].
  apply index_lowest in Hit as [Hat _].
  pose proof (index_none sub (s ++ t) (length s + i) Hi) as Hno.
  rewrite <- drop_drop, drop_app_length in Hno. congruence.
Qed.

Lemma clean_suffix sep s t : clean sep (s ++ t) = true -> clean sep t = true.
Proof.
  induction s as [|c s IH]; [done|]. rewrite <- app_comm_cons.
  cbn [clean]. intros [_ H]%andb_true_iff. auto.
Qed.

Lemma clean_intro sep x :
  (forall i, (i < length x)%nat -> compat sep (drop i x) = false) ->
  clean sep x = true.
Proof.
  induction x as [|c x IH]; intros H; [done|]. cbn [clean].
  pose proof (H 0%nat ltac:(simpl; lia)) as H0. cbn [drop] in H0.
  rewrite H0. cbn [negb andb].
  apply IH. intros i Hi. apply (H (S i)). simpl. lia.
Qed.

Lemma compat_cases sep x :
  compat sep x = true ->
  Py.startswith sep x = true \/ Py.startswith x sep = true.
Proof.
  revert x. induction sep as [|a sep IH]; intros [|c x]; simpl; auto.
  destruct (Ascii.eqb a c) eqn:Hac; [|done].
  apply Ascii.eqb_eq in Hac as ->. rewrite Ascii.eqb_refl. apply IH.
Qed.

Lemma startswith_contains sub s i :
  Py.startswith sub (drop i s) = true -> Py.contains sub s = true.
Proof.
  intros Hs. unfold Py.contains.
  destruct (Py.index sub s) eqn:Hi; [done|].
  by rewrite (index_none sub s i Hi) in Hs.
Qed.

(** Text that ends in a separator of its own and holds no occurrence of
    [session=] lets none begin. *)
Lemma cookies_before_clean pre :
  pre = [] \/ (exists p, pre = p ++ B "; ") ->
  Py.contains (B "session=") pre = false ->
  clean (B "session=") pre = true.
Proof.
  intros Hshape Hno. apply clean_intro. intros i Hi.
  destruct (compat (B "session=") (drop i pre)) eqn:Hc; [|done]. exfalso.
  apply compat_cases in Hc as [Hc|Hc].
  - apply startswith_contains in Hc. congruence.
  - destruct Hshape as [->|[p ->]]; [simpl in Hi; lia|].
    apply startswith_prefix in Hc as [t Ht].
    assert (Hsp : space ∈ drop i (p ++ B "; ")).
    { change (B "; ") with ([semicolon] ++ [space]) in *.
      rewrite app_assoc in *. rewrite length_app in Hi. cbn [length] in Hi.
      rewrite drop_app_le by lia. apply elem_of_app. right.
      apply list_elem_of_here. }
    assert (Hin : space ∈ B "session=").
    { rewrite Ht. apply elem_of_app. by left. }
    revert Hin. apply (bool_decide_unpack _). vm_compute. exact I.
Qed.

Lemma startswith_single c d s :
  Py.startswith [c] (d :: s) = Ascii.eqb c d.
Proof. simpl. by destruct (Ascii.eqb c d). Qed.

(** Scanning past cookies that do not mention [session=]. *)
Lemma session_scan pre : forall acc rest,
  Py.contains (B "session=") (rev acc ++ pre) = false ->
  exists acc' a,
    rev acc ++ pre = a ++ rev acc' /\
    session_of_parts (Py.split_go [semicolon] 0 acc (pre ++ rest)) =
    session_of_parts (Py.split_go [semicolon] 0 acc' rest).
Proof.
  induction pre as [|c pre IH]; intros acc rest Hno.
  - exists acc, []. by rewrite app_nil_r.
  - rewrite <- app_comm_cons. cbn [Py.split_go].
    rewrite app_comm_cons, <- app_comm_cons, startswith_single.
    destruct (Ascii.eqb semicolon c) eqn:Hc.
    + cbn [length Nat.sub session_of_parts].
      assert (Py.contains (B "session=") (rev acc) = false) as ->.
      { destruct (Py.contains (B "session=") (rev acc)) eqn:H; [|done].
        by rewrite (contains_app _ _ (c :: pre) H) in Hno. }
      destruct (IH [] rest) as (acc' & a & Ha & Hscan).
      { cbn [rev app].
        destruct (Py.contains (B "session=") pre) eqn:H; [|done].
        pose proof (contains_app_r _ (rev acc ++ [c]) _ H) as H'.
        rewrite <- app_assoc in H'. cbn [app] in H'. congruence. }
      cbn [rev app] in Ha. exists acc', (rev acc ++ c :: a).
      split; [|done]. by rewrite Ha, <- app_assoc.
    + destruct (IH (c :: acc) rest) as (acc' & a & Ha & Hscan).
      { cbn [rev]. by rewrite <- app_assoc. }
      cbn [rev] in Ha. rewrite <- app_assoc in Ha. cbn [app] in Ha. eauto.
Qed.

Lemma hex_excludes c tok :
  is_hex c = false -> hex_token tok = true -> c ∉ tok.
Proof.
  intros Hc Htok Hin. unfold hex_token in Htok.
  rewrite forallb_forall in Htok.
  apply list_elem_of_In in Hin. specialize (Htok c Hin). congruence.
Qed.

Lemma index_without_head a sep s :
  a ∉ s -> Py.index (a :: sep) s = None.
Proof.
  induction s as [|c s IH]; [done|].
  intros [Hc Hs]%not_elem_of_cons. rewrite index_unfold. cbn [Py.startswith].
  destruct (Ascii.eqb a c) eqn:Hac; [by apply Ascii.eqb_eq in Hac|].
  by rewrite IH.
Qed.

Lemma hex_not_space c s :
  is_hex c = true ->
  Py.leading_space (c :: s) = None /\ Py.trailing_space (c :: s) = None.
Proof.
  unfold is_hex. cbn [B list_ascii_of_string existsb].
  intros H.
  repeat (apply orb_true_iff in H as [H|H];
          [apply Ascii.eqb_eq in H as ->; by vm_compute|]).
  done.
Qed.

Lemma strip_hex tok : hex_token tok = true -> Py.strip tok = tok.
Proof.
  intros Htok. unfold Py.strip, Py.lstrip, Py.rstrip.
  assert (Hl : Py.lstrip_go 0 tok = tok).
  { destruct tok as [|c t]; [done|]. cbn [Py.lstrip_go].
    apply andb_true_iff in Htok as [Hc _].
    by rewrite (proj1 (hex_not_space c t Hc)). }
  rewrite Hl.
  assert (Hr : Py.rstrip_go 0 (rev tok) = rev tok).
  { destruct (rev tok) as [|c t] eqn:Hrev; [done|]. cbn [Py.rstrip_go].
    assert (Hc : is_hex c = true).
    { unfold hex_token in Htok. rewrite forallb_forall in Htok.
      apply Htok, in_rev. rewrite Hrev. by left. }
    by rewrite (proj2 (hex_not_space c t Hc)). }
  rewrite Hr. apply rev_involutive.
Qed.

(** X19.  The token [handle_login] sets in its [session=] cookie comes
    back out of [get_session_token]: for a token of hexadecimal digits,
    a [Cookie] header that holds [session=] and the token, after other
    cookies that do not mention [session=] and before any further ones,
    yields exactly that token. *)
Theorem session_cookie_read req pre tok post :
  hex_token tok = true ->
  cookie req = pre ++ B "session=" ++ tok ++ post ->
  pre = [] \/ (exists p, pre = p ++ B "; ") ->
  Py.contains (B "session=") pre = false ->
  post = [] \/ (exists q, post = B ";" ++ q) ->
  get_session_token req = Some tok.
Proof.
  intros Htok Hcookie Hpre Hno Hpost.
  pose proof (cookies_before_clean pre Hpre Hno) as Hclean.
  unfold get_session_token. rewrite Hcookie. unfold Py.split.
  change (B ";") with [semicolon].
  destruct (session_scan pre [] (B "session=" ++ tok ++ post) Hno)
    as (acc & a & Ha & ->).
  cbn [rev app] in Ha. rewrite Ha in Hclean. apply clean_suffix in Hclean.
  assert (Hsemi : semicolon ∉ B "session=" ++ tok).
  { intros [H|H]%elem_of_app.
    - revert H. apply (bool_decide_unpack _). vm_compute. exact I.
    - by apply (hex_excludes semicolon tok). }
  rewrite (app_assoc (B "session=")).
  rewrite split_go_clean by (by apply clean_without_head).
  set (piece := rev acc ++ B "session=" ++ tok).
  assert (Hhead : exists more,
    Py.split_go [semicolon] 0 (rev (B "session=" ++ tok) ++ acc) post =
    piece :: more).
  { assert (Hrev : rev (rev (B "session=" ++ tok) ++ acc) = piece).
    { by rewrite rev_app_distr, rev_involutive. }
    destruct Hpost as [->|[q ->]].
    - exists []. cbn [Py.split_go]. by rewrite Hrev.
    - change (B ";" ++ q) with ([semicolon] ++ q).
      rewrite split_go_match, Hrev. eauto. }
  destruct Hhead as [more ->]. cbn [session_of_parts]. subst piece.
  change (B "session=") with ("s"%char :: B "ession=") in *.
  assert (Hs : "s"%char ∉ tok) by (by apply hex_excludes).
  unfold Py.contains. rewrite index_clean by done.
  unfold Py.split. rewrite split_go_piece by done.
  fold (Py.split ("s"%char :: B "ession=") tok).
  rewrite split_unfold, index_without_head by done.
  cbn [lookup list_lookup fmap option_fmap option_map].
  by rewrite strip_hex.
Qed.

End Cookie.

(** ** The database script and the server *)

Section Seeding.

Variable sha256_hexdigest : bytes -> str.

Lemma insert_user_some st now u h salt st' :
  CreateDatabase.insert_user st now u h salt = Some st' ->
  has_account st u = false /\
  st' = set_users st
          (users st ++
             [{| user_id := next_rowid (user_id <$> users st) (users_seq st);
                 user_username := u; user_password_hash := h;
                 user_salt := salt; user_created_at := now |}])
          (next_rowid (user_id <$> users st) (users_seq st)).
Proof.
  unfold CreateDatabase.insert_user, has_account.
  destruct (existsb _ (users st)); [done|]. by intros [= <-].
Qed.

(** X20.  An account that the script's [add_test_user] adds is one the
    server accepts: it is the row the server's own [register_user]
    would have written with that salt, [verify_user] accepts the
    password, and the server refuses to register the username again.
    The script adds the account exactly when the database takes the
    call and no account has the username; a call it refuses leaves the
    table as it was, and one refused for a taken username returns with
    the write lock still held. *)
Theorem script_account_accepted st busy salt now u p :
  let out := CreateDatabase.add_test_user sha256_hexdigest st busy salt now
               u p in
  (out.1.1 = true ->
   out.2 = false /\
   verify_user sha256_hexdigest out.1.2 u p = true /\
   (forall e p2, register_user sha256_hexdigest out.1.2 e u p2
                 = (false, out.1.2)) /\
   (forall e, env_salt e = salt -> env_db_now e = now ->
              register_user sha256_hexdigest st e u p = (true, out.1.2))) /\
  (out.1.1 = true <-> busy = false /\ has_account st u = false) /\
  (out.1.1 = false -> out.1.2 = st) /\
  (out.2 = true <-> busy = false /\ has_account st u = true).
Proof.
  intros out. subst out. unfold CreateDatabase.add_test_user.
  destruct busy; [by repeat split; intros; try done; intuition done|].
  destruct (CreateDatabase.insert_user _ _ _ _ _) as [s|] eqn:Hins.
  - apply insert_user_some in Hins as [Hacc ->]. cbn [fst snd].
    split; [|by rewrite Hacc; repeat split; intros; try done;
              intuition done].
    intros _.
    assert (Hreg : forall e, env_salt e = salt -> env_db_now e = now ->
      register_user sha256_hexdigest st e u p =
      (true,
       set_users st
         (users st ++
            [{| user_id := next_rowid (user_id <$> users st) (users_seq st);
                user_username := u;
                user_password_hash :=
                  CreateDatabase.hash_password sha256_hexdigest p salt;
                user_salt := salt; user_created_at := now |}])
         (next_rowid (user_id <$> users st) (users_seq st)))).
    { intros e <- <-. unfold register_user. fold (has_account st u).
      by rewrite Hacc. }
    pose (e0 := {| env_salt := salt; env_token := []; env_file_id := [];
                   env_db_now := now; env_now := [] |}).
    pose proof (Hreg e0 eq_refl eq_refl) as H0.
    split; [done|]. split; [|split; [|exact Hreg]].
    + rewrite (verify_after_register _ _ _ _ _ _ _ H0).
      by apply bool_decide_eq_true_2.
    + intros e p2. apply register_user_false.
      pose proof (register_user_has_account sha256_hexdigest st e0 u p) as H.
      by rewrite H0 in H.
  - assert (Hacc : has_account st u = true).
    { unfold CreateDatabase.insert_user in Hins. fold (has_account st u) in Hins.
      by destruct (has_account st u). }
    cbn [fst snd]. rewrite Hacc.
    by repeat split; intros; try done; intuition done.
Qed.

Lemma seeded_users salts clock st :
  users (CreateDatabase.init_database sha256_hexdigest salts clock st).2 =
  imap (fun i '(u, p) =>
          {| user_id := Z.of_nat (S i); user_username := u;
             user_password_hash :=
               CreateDatabase.hash_password sha256_hexdigest p (salts i);
             user_salt := salts i; user_created_at := clock i |})
    CreateDatabase.test_users.
Proof. vm_compute. reflexivity. Qed.

Lemma seeded_messages salts clock st :
  messages (CreateDatabase.init_database sha256_hexdigest salts clock st).2 =
  imap (fun i '(u, m, t, fn, fs) =>
          {| msg_id := Z.of_nat (S i); msg_username := u; msg_message := m;
             msg_message_type := t; msg_file_name := fn;
             msg_file_size := fs; msg_timestamp := clock (5 + i)%nat |})
    CreateDatabase.test_messages.
Proof. vm_compute. reflexivity. Qed.

(** X21.  [init_database] leaves a database with the five test accounts
    and the six test messages, whatever salts it draws and whatever was
    there before: every test user verifies with its password and can
    log in on the server, [get_recent_messages] returns the six
    messages in the order of the script, the keys and kinds of both
    tables are in order, and the uploads are those that were there. *)
Theorem seeded_database salts clock st :
  let st' :=
    (CreateDatabase.init_database sha256_hexdigest salts clock st).2 in
  user_username <$> users st' = fst <$> CreateDatabase.test_users /\
  Forall (fun '(u, p) => verify_user sha256_hexdigest st' u p = true)
    CreateDatabase.test_users /\
  (forall e data u p,
     (u, p) ∈ CreateDatabase.test_users ->
     form_field data (B "username") = Some u ->
     form_field data (B "password") = Some p ->
     handle_login sha256_hexdigest st' e data =
     Some (login_ok (env_token e),
           set_session_tokens st'
             (<[env_token e := u]> (session_tokens st')))) /\
  get_recent_messages st' 50 =
    imap (fun i row => seeded_message (clock (5 + i)%nat) row)
      CreateDatabase.test_messages /\
  tables_keyed st' /\ kinds_consistent st' /\
  uploads st' = uploads st /\ session_tokens st' = session_tokens st.
Proof.
  intros st'.
  pose proof (seeded_users salts clock st) as Hus. fold st' in Hus.
  pose proof (seeded_messages salts clock st) as Hms. fold st' in Hms.
  assert (Hup : uploads st' = uploads st) by reflexivity.
  assert (Hts : session_tokens st' = session_tokens st) by reflexivity.
  clearbody st'.
  assert (Hverify :
    Forall (fun '(u, p) => verify_user sha256_hexdigest st' u p = true)
      CreateDatabase.test_users).
  { unfold CreateDatabase.test_users.
    repeat (constructor;
            [unfold verify_user; rewrite Hus;
             match goal with
             | |- context [List.find ?f ?l] =>
                 let x := fresh "x" in
                 set (x := List.find f l); vm_compute in x; subst x
             end;
             cbv beta iota zeta;
             cbn [user_password_hash user_salt];
             by apply bool_decide_eq_true_2|]).
    constructor. }
  split; [by rewrite Hus|]. split; [exact Hverify|]. split; [|split].
  - intros e data u p Hin Hu Hp.
    rewrite (handle_login_fields _ _ _ _ _ _ Hu Hp).
    rewrite Forall_forall in Hverify. rewrite (Hverify (u, p) Hin).
    assert (Hne : Py.truthy u && Py.truthy p = true).
    { revert Hin. unfold CreateDatabase.test_users.
      rewrite !elem_of_cons, elem_of_nil.
      intros H. repeat (destruct H as [H|H]; [by injection H as -> ->|]).
      done. }
    by rewrite Hne.
  - unfold get_recent_messages, select_recent. rewrite Hms.
    vm_compute. reflexivity.
  - split; [|split; [|split]].
    + unfold tables_keyed. rewrite Hus, Hms. split; [|split].
      * apply (bool_decide_unpack _). vm_compute. exact I.
      * vm_compute. repeat (constructor; [|repeat constructor]).
        constructor.
      * vm_compute. repeat (constructor; [|repeat constructor]).
        constructor.
    + unfold kinds_consistent. rewrite Hms.
      repeat (constructor;
              [split; split; intros H;
               first [by destruct H | by vm_compute in H]|]).
      constructor.
    + exact Hup.
    + exact Hts.
Qed.

End Seeding.

(** ** From one request to the next *)

Section EndToEnd.

Lemma same_cookie_same_token req req' :
  cookie req' = cookie req -> get_session_token req' = get_session_token req.
Proof. unfold get_session_token. by intros ->. Qed.

Lemma verify_session_true st req u :
  get_username_from_session st req = Some u -> verify_session st req = true.
Proof.
  intros Hu. destruct (verify_session st req) eqn:Hv; [done|].
  apply verify_session_resolve in Hv. congruence.
Qed.

Lemma last_n_snoc {A} n (l : list A) x :
  last_n (S n) (l ++ [x]) = last_n n l ++ [x].
Proof.
  unfold last_n. rewrite length_app. cbn [length].
  replace (length l + 1 - S n)%nat with (length l - n)%nat by lia.
  apply drop_app_le. lia.
Qed.

Lemma do_GET_messages st req :
  path req = B "/api/messages" -> verify_session st req = true ->
  do_GET st req = (serve_json (J_messages (get_recent_messages st 50)), st).
Proof. intros Hp Hv. unfold do_GET. by rewrite Hp, Hv. Qed.

(** X22.  With a valid session, asking for the current user returns the
    session's username, and listing the recent messages returns the
    last fifty rows of the table, oldest first (the identifiers growing
    in the order of insertion). *)
Theorem guarded_reads_with_session st req u :
  get_username_from_session st req = Some u ->
  (path req = B "/api/userinfo" ->
   do_GET st req = (serve_json (J_username (Some u)), st)) /\
  (path req = B "/api/messages" ->
   increasing (msg_id <$> messages st) ->
   do_GET st req =
   (serve_json (J_messages (row_to_message <$> last_n 50 (messages st))),
    st)).
Proof.
  intros Hu. pose proof (verify_session_true _ _ _ Hu) as Hv. split.
  - intros Hp. unfold do_GET. by rewrite Hp, Hv, Hu.
  - intros Hp Hinc. rewrite (do_GET_messages _ _ Hp Hv).
    by rewrite (recent_tail st 50 Hinc).
Qed.

(** X23.  A message that [handle_message] accepts is the last one the
    next listing shows: under the same cookie, the list of recent
    messages ends with the session's username, the text as posted, kind
    [text] and no attachment. *)
Theorem posted_message_is_listed st e req data u m req' :
  get_username_from_session st req = Some u -> u <> [] ->
  form_field data (B "message") = Some m -> m <> [] ->
  increasing (msg_id <$> messages st) ->
  cookie req' = cookie req -> path req' = B "/api/messages" ->
  exists st' earlier,
    handle_message st e req data = Some (serve_json J_success, st') /\
    do_GET st' req' =
    (serve_json
       (J_messages
          (earlier ++
             [{| username := u; message_body := m;
                 message_type := B "text"; file_name := None;
                 file_size := None; timestamp := env_db_now e |}])),
     st').
Proof.
  intros Hu Hune Hm Hmne Hinc Hcookie Hp.
  pose proof (handle_message_session st e req data u m Hu Hm) as Hout.
  rewrite (proj2 (truthy_true m) Hmne), (proj2 (truthy_true u) Hune) in Hout.
  pose proof (add_message_messages st e u m (B "text") None None) as Hrows.
  eexists _, _. split; [exact Hout|].
  assert (Hv : verify_session
                 (add_message st e u m (B "text") None None) req' = true).
  { apply (verify_session_true _ _ u).
    unfold get_username_from_session in *.
    by rewrite (same_cookie_same_token _ _ Hcookie). }
  rewrite (do_GET_messages _ _ Hp Hv).
  rewrite (recent_tail _ 50) by (by apply add_message_keyed).
  change (50 <? 0) with false. cbv iota.
  change (Z.to_nat 50) with 50%nat.
  by rewrite Hrows, last_n_snoc, fmap_app.
Qed.

(** X24.  After a logout the cookie it came with opens nothing: under
    that cookie the session no longer verifies, the two guarded reads
    and a post are answered with a 401, and they change nothing. *)
Theorem logout_ends_session st req req' :
  cookie req' = cookie req ->
  let st' := (handle_logout st req).2 in
  verify_session st' req' = false /\
  get_username_from_session st' req' = None /\
  (path req' = B "/api/messages" \/ path req' = B "/api/userinfo" ->
   do_GET st' req' = (send_error 401, st')) /\
  (forall e data,
     handle_message st' e req' data = Some (send_error 401, st')).
Proof.
  intros Hcookie st'.
  assert (Hnone : get_username_from_session st' req' = None).
  { subst st'. unfold get_username_from_session, handle_logout.
    rewrite (same_cookie_same_token _ _ Hcookie).
    destruct (get_session_token req) as [t|]; [|done].
    destruct (bool_decide _) eqn:Hd; cbn [snd].
    - apply lookup_delete_eq.
    - apply bool_decide_eq_false in Hd. by apply eq_None_not_Some. }
  pose proof (proj2 (verify_session_resolve st' req') Hnone) as Hv.
  split; [done|]. split; [done|]. split.
  - unfold do_GET. intros [Hp|Hp]; rewrite Hp, Hv; reflexivity.
  - intros e data. unfold handle_message. by rewrite Hv.
Qed.

End EndToEnd.

(** ** More runs on sample data *)

Section MoreRuns.

Local Ltac run := vm_compute; reflexivity.

Local Ltac decided := refine (bool_decide_unpack _ _); vm_compute; exact I.

Lemma session_server_registered : sessions_registered session_server.
Proof.
  intros t u. unfold session_server.
  cbn [session_tokens set_session_tokens].
  intros [[<- <-]|[_ Hl]]%lookup_insert_Some.
  - split; [discriminate|run].
  - change (session_tokens alice_server) with (∅ : gmap (list ascii) (list ascii)) in Hl.
    by rewrite lookup_empty in Hl.
Qed.

Lemma register_needs_both_fields_sample :
  handle_register plain_digest empty_server sample_env password_only_form
    = Some (serve_json (J_failure (B "Invalid data")), empty_server) /\
  handle_login plain_digest empty_server sample_env password_only_form
    = Some (serve_json (J_failure (B "Invalid data")), empty_server).
Proof.
  refine (proj1 (register_needs_both_fields plain_digest empty_server
                   sample_env password_only_form [] secret _ _)
            (or_introl eq_refl)); run.
Defined.

Lemma message_author_is_session_user_sample :
  handle_message session_server sample_env session_request message_form
    = Some (serve_json J_success, posted_server).
Proof.
  refine (proj1 (proj1 (message_author_is_session_user session_server
                          sample_env session_request message_form alice
                          (B "hi") _ _ _) _)).
  - run.
  - discriminate.
  - run.
  - discriminate.
Defined.

Lemma sessions_stay_registered_sample :
  sessions_registered session_server /\
  sessions_registered
    (do_POST plain_digest no_form session_server sample_env
       session_upload_request).2 /\
  (handle_multipart session_server sample_env session_upload_request
     photo_body (upload_content_type form_boundary)).1 <> send_error 401.
Proof.
  destruct (sessions_stay_registered plain_digest no_form session_server
              sample_env session_upload_request session_server_registered)
    as (Hpost & _ & Hup).
  split; [exact session_server_registered|]. split; [exact Hpost|].
  apply Hup. run.
Defined.

Lemma alice_server_keyed : tables_keyed alice_server.
Proof.
  split; [|split].
  - decided.
  - vm_compute. repeat constructor.
  - vm_compute. constructor.
Qed.

Lemma tables_stay_keyed_sample :
  tables_keyed alice_server /\
  tables_keyed
    (do_POST plain_digest no_form session_server sample_env
       session_upload_request).2.
Proof.
  split; [exact alice_server_keyed|].
  exact (proj1 (tables_stay_keyed plain_digest no_form session_server
                  sample_env session_upload_request alice_server_keyed)).
Defined.

Lemma kinds_stay_consistent_sample :
  kinds_consistent session_server /\
  kinds_consistent
    (do_POST plain_digest no_form session_server sample_env
       session_upload_request).2.
Proof.
  assert (H : kinds_consistent session_server) by constructor.
  split; [exact H|].
  exact (proj1 (kinds_stay_consistent plain_digest no_form session_server
                  sample_env session_upload_request H)).
Defined.

Lemma recent_is_tail_sample :
  get_recent_messages (add_posts alice_server three_posts) 2 =
  row_to_message <$>
    last_n (Z.to_nat 2) (messages (add_posts alice_server three_posts)).
Proof.
  refine (proj1 (recent_is_tail (add_posts alice_server three_posts) 2
                   _ _) _).
  - unfold sqlite_integer. lia.
  - vm_compute. repeat (constructor; [|repeat constructor]). constructor.
  - lia.
Defined.

Lemma mirror_tracks_table_sample :
  mirror_matches_table posted_server /\
  mirror_matches_table
    (do_POST plain_digest no_form posted_server sample_env
       session_upload_request).2.
Proof.
  assert (H : mirror_matches_table posted_server) by run.
  split; [exact H|].
  exact (proj1 (mirror_tracks_table plain_digest no_form posted_server
                  sample_env session_upload_request H)).
Defined.

Lemma mirror_never_read_sample :
  same_outcome
    (do_POST plain_digest no_form posted_server sample_env
       session_upload_request)
    (do_POST plain_digest no_form
       (set_message_history posted_server []) sample_env
       session_upload_request).
Proof.
  refine (proj1 (mirror_never_read plain_digest no_form posted_server
                   (set_message_history posted_server []) sample_env
                   session_upload_request _)).
  by repeat split.
Defined.

Lemma sessions_independent_sample :
  handle_login plain_digest session_server second_env login_form
    = Some (login_ok (B "beef01"), two_sessions_server) /\
  session_tokens (handle_logout two_sessions_server
                    second_session_request).2 !! B "c0ffee" = Some alice /\
  session_tokens (handle_logout two_sessions_server
                    second_session_request).2 !! B "beef01" = None.
Proof.
  assert (H : handle_login plain_digest session_server second_env login_form
              = Some (login_ok (B "beef01"), two_sessions_server)) by run.
  split; [exact H|].
  refine (proj2 (proj2 (sessions_independent plain_digest session_server
                          second_env login_form (B "beef01")
                          two_sessions_server H))
            second_session_request (B "c0ffee") alice _ _ _).
  - run.
  - discriminate.
  - run.
Defined.

Lemma photo_decodes :
  decode_multipart photo_body (upload_content_type form_boundary)
  = Some photo_vars.
Proof. run. Qed.

Lemma stored_name_safe :
  (slash ∉ stored_as sample_env (B "photo.png")) /\
  (NUL ∉ stored_as sample_env (B "photo.png")).
Proof. split; decided. Qed.

Lemma stored_name_short :
  Py.len (stored_as sample_env (B "photo.png")) <= name_max.
Proof. by vm_compute. Qed.

Lemma upload_stores_file_sample :
  let out := handle_multipart session_server sample_env
               session_upload_request photo_body
               (upload_content_type form_boundary) in
  out.1 = serve_json J_success /\
  uploads out.2 !! stored_as sample_env (B "photo.png") = Some png_payload.
Proof.
  destruct (upload_stores_file session_server sample_env
              session_upload_request photo_body
              (upload_content_type form_boundary) photo_vars png_payload
              (B "photo.png") alice photo_decodes eq_refl eq_refl
              ltac:(discriminate) ltac:(discriminate)
              ltac:(by vm_compute)
              (proj1 stored_name_safe) (proj2 stored_name_safe)
              stored_name_short ltac:(run) ltac:(discriminate))
    as (Hr & _ & Hf & _).
  split; [exact Hr|exact Hf].
Defined.

Lemma upload_without_session_is_stored_sample :
  handle_multipart empty_server sample_env anonymous_request photo_body
    (upload_content_type form_boundary)
  = (send_error 401, leftover_server).
Proof.
  exact (proj1 (upload_without_session_is_stored empty_server sample_env
                  anonymous_request photo_body
                  (upload_content_type form_boundary) photo_vars png_payload
                  (B "photo.png") photo_decodes eq_refl eq_refl
                  ltac:(discriminate) ltac:(discriminate)
                  ltac:(by vm_compute)
                  (proj1 stored_name_safe) (proj2 stored_name_safe)
                  stored_name_short ltac:(run))).
Defined.

Lemma download_returns_upload_sample :
  do_GET leftover_server download_request
  = (download_ok (B "photo.png") png_payload, leftover_server).
Proof.
  refine (download_returns_upload leftover_server sample_env (B "photo.png")
            png_payload download_request _ (proj1 stored_name_safe) _ _ _).
  - run.
  - decided.
  - run.
  - run.
Defined.

Lemma download_of_other_names_sample :
  do_GET empty_server download_request = (send_error 404, empty_server).
Proof.
  refine (download_of_other_names empty_server download_request
            stored_name _ _ _ _).
  - run.
  - decided.
  - run.
  - decided.
Defined.

Lemma decoder_results_well_sample :
  (file_data photo_vars = None <-> filename photo_vars = None) /\
  Py.utf8_valid (message_text photo_vars) = true /\
  (forall n, filename photo_vars = Some n -> Py.utf8_valid n = true).
Proof.
  exact (decoder_results_well photo_body
           (upload_content_type form_boundary) photo_vars photo_decodes).
Defined.

Lemma malformed_upload_rejected_sample :
  handle_multipart session_server sample_env session_upload_request
    broken_body (upload_content_type form_boundary)
  = (serve_json (J_failure (B "File upload failed")), session_server).
Proof.
  refine (malformed_upload_rejected session_server sample_env
            session_upload_request broken_body
            (upload_content_type form_boundary)
            (or_intror (ex_intro _
               (Py.split (B "--" ++ form_boundary) broken_body)
               (conj _ _)))).
  - run.
  - decided.
Defined.

Lemma multipart_takes_every_path_sample :
  Py.contains (B "multipart/form-data")
    (content_type multipart_logout_request) = true /\
  session_tokens
    (do_POST plain_digest no_form session_server sample_env
       multipart_logout_request).2
  = session_tokens session_server.
Proof.
  assert (H : Py.contains (B "multipart/form-data")
                (content_type multipart_logout_request) = true) by run.
  split; [exact H|].
  exact (proj1 (proj2 (multipart_takes_every_path plain_digest no_form
                         session_server sample_env
                         multipart_logout_request H))).
Defined.

Lemma session_cookie_read_sample :
  get_session_token cookie_request = Some (B "c0ffee").
Proof.
  refine (session_cookie_read cookie_request (B "theme=dark; ") (B "c0ffee")
            (B "; lang=en") _ _
            (or_intror (ex_intro _ (B "theme=dark") eq_refl)) _
            (or_intror (ex_intro _ (B " lang=en") eq_refl))); run.
Defined.

Lemma guarded_reads_with_session_sample :
  get_username_from_session session_server session_request = Some alice /\
  do_GET session_server session_request
    = (serve_json (J_username (Some alice)), session_server).
Proof.
  assert (H : get_username_from_session session_server session_request
              = Some alice) by run.
  split; [exact H|].
  refine (proj1 (guarded_reads_with_session session_server session_request
                   alice H) _).
  run.
Defined.

Lemma posted_message_is_listed_sample :
  exists st' earlier,
    handle_message session_server sample_env session_request message_form
      = Some (serve_json J_success, st') /\
    do_GET st' list_request =
    (serve_json
       (J_messages
          (earlier ++
             [{| username := alice; message_body := B "hi";
                 message_type := B "text"; file_name := None;
                 file_size := None;
                 timestamp := env_db_now sample_env |}])),
     st').
Proof.
  refine (posted_message_is_listed session_server sample_env session_request
            message_form alice (B "hi") list_request _ _ _ _ _ _ _).
  - run.
  - discriminate.
  - run.
  - discriminate.
  - vm_compute. constructor.
  - run.
  - run.
Defined.

Lemma logout_ends_session_sample :
  verify_session session_server session_request = true /\
  verify_session (handle_logout session_server session_request).2
    list_request = false /\
  do_GET (handle_logout session_server session_request).2 list_request
    = (send_error 401, (handle_logout session_server session_request).2).
Proof.
  split; [run|].
  destruct (logout_ends_session session_server session_request list_request)
    as (Hv & _ & Hget & _).
  - run.
  - split; [exact Hv|]. apply Hget. left. run.
Defined.

End MoreRuns.
